(** * imirunner: the remote-execution orchestration layer of [imirunner.py]

    A shallow embedding of the functions of [src/imirunner.py] that the
    specification talks about: instance selection ([get_instance]), instance
    creation with its readiness probe ([create_instance]), instance setup
    ([instance_setup]), job dispatch ([run_command]), completion monitoring
    ([tail_logfile]) and result retrieval ([copy_to_local]).

    The program is a sequence of calls into its environment (the cloud
    provider's API, [subprocess], the local file system, [os.environ],
    [logging]).  The environment is a record of oracles ([world]); what the
    program does to it is recorded in a [state] (the environment variables,
    the local file system, and the trace of everything the program asked its
    environment to do).  Python exceptions and [sys.exit] are outcomes of a
    small state monad. *)

From Stdlib Require Import String Ascii List ZArith Lia Bool.
From stdpp Require Import base option list gmap strings pretty.

Local Open Scope string_scope.
Local Open Scope Z_scope.
Local Open Scope list_scope.

(** ** Python strings

    A Python [str] is represented by its UTF-8 encoding, a [bytes] value by
    itself; both are Rocq strings, one character per byte.  Searching,
    splitting, joining and comparing text are the same operations on the
    encoding. *)

Module Py.

(** [s[len(p):]] when [s.startswith(p)]. *)
Fixpoint drop_prefix (p s : string) : option string :=
  match p, s with
  | EmptyString, _ => Some s
  | String a p', String b s' => if Ascii.eqb a b then drop_prefix p' s' else None
  | String _ _, EmptyString => None
  end.

(** [s.startswith(p)] *)
Definition startswith (s p : string) : bool :=
  match drop_prefix p s with Some _ => true | None => false end.

(** [s.endswith(p)] *)
Definition endswith (s p : string) : bool :=
  startswith (String.rev s) (String.rev p).

(** [s.find(sub)]: the text before and after the first occurrence of a
    non-empty [sub]. *)
Fixpoint partition (sub s : string) : option (string * string) :=
  match drop_prefix sub s with
  | Some rest => Some (EmptyString, rest)
  | None =>
      match s with
      | EmptyString => None
      | String a s' =>
          match partition sub s' with
          | Some (before, after) => Some (String a before, after)
          | None => None
          end
      end
  end.

(** [sub in s] *)
Definition contains (sub s : string) : bool :=
  match partition sub s with Some _ => true | None => false end.

(** [s.split(sep, 1)] *)
Definition split1 (sep s : string) : list string :=
  match partition sep s with
  | Some (before, after) => [before; after]
  | None => [s]
  end.

(** [s.split(sep)] for a non-empty separator; the fuel is the length of the
    text, which bounds the number of separators in it. *)
Fixpoint split_fuel (fuel : nat) (sep s : string) : list string :=
  match fuel with
  | O => [s]
  | S fuel' =>
      match partition sep s with
      | Some (before, after) => before :: split_fuel fuel' sep after
      | None => [s]
      end
  end.

Definition split (sep s : string) : list string :=
  split_fuel (String.length s) sep s.

(** [sep.join(l)] *)
Fixpoint join (sep : string) (l : list string) : string :=
  match l with
  | [] => EmptyString
  | [x] => x
  | x :: rest => x +:+ sep +:+ join sep rest
  end.

(** The characters [str.isspace] accepts, in UTF-8: the ASCII white space
    with the separators 0x1c..0x1f, then U+0085, U+00A0, U+1680,
    U+2000..U+200A, U+2028, U+2029, U+202F, U+205F and U+3000. *)
Definition utf8 (l : list ascii) : string := string_of_list_ascii l.

Definition whitespace : list string :=
  [ utf8 ["009"%char]; utf8 ["010"%char]; utf8 ["011"%char]; utf8 ["012"%char];
    utf8 ["013"%char]; utf8 ["028"%char]; utf8 ["029"%char]; utf8 ["030"%char];
    utf8 ["031"%char]; utf8 ["032"%char];
    utf8 ["194"%char; "133"%char]; utf8 ["194"%char; "160"%char];
    utf8 ["225"%char; "154"%char; "128"%char];
    utf8 ["226"%char; "128"%char; "128"%char]; utf8 ["226"%char; "128"%char; "129"%char];
    utf8 ["226"%char; "128"%char; "130"%char]; utf8 ["226"%char; "128"%char; "131"%char];
    utf8 ["226"%char; "128"%char; "132"%char]; utf8 ["226"%char; "128"%char; "133"%char];
    utf8 ["226"%char; "128"%char; "134"%char]; utf8 ["226"%char; "128"%char; "135"%char];
    utf8 ["226"%char; "128"%char; "136"%char]; utf8 ["226"%char; "128"%char; "137"%char];
    utf8 ["226"%char; "128"%char; "138"%char];
    utf8 ["226"%char; "128"%char; "168"%char]; utf8 ["226"%char; "128"%char; "169"%char];
    utf8 ["226"%char; "128"%char; "175"%char]; utf8 ["226"%char; "129"%char; "159"%char];
    utf8 ["227"%char; "128"%char; "128"%char] ].

(** One leading character of the set [chars] removed, if there is one. *)
Fixpoint strip_one (chars : list string) (s : string) : option string :=
  match chars with
  | [] => None
  | c :: chars' =>
      match drop_prefix c s with
      | Some rest => Some rest
      | None => strip_one chars' s
      end
  end.

Fixpoint lstrip_fuel (fuel : nat) (chars : list string) (s : string) : string :=
  match fuel with
  | O => s
  | S fuel' =>
      match strip_one chars s with
      | Some rest => lstrip_fuel fuel' chars rest
      | None => s
      end
  end.

(** [s.lstrip(chars)], [s.rstrip(chars)], [s.strip(chars)]; every removal
    takes at least one byte, so the length of the text is fuel enough. *)
Definition lstrip_chars (chars : list string) (s : string) : string :=
  lstrip_fuel (String.length s) chars s.

Definition rstrip_chars (chars : list string) (s : string) : string :=
  String.rev (lstrip_chars (map String.rev chars) (String.rev s)).

Definition strip_chars (chars : list string) (s : string) : string :=
  rstrip_chars chars (lstrip_chars chars s).

(** [s.strip()] *)
Definition strip (s : string) : string := strip_chars whitespace s.

(** [s.split()]: the maximal runs of characters that are not white space. *)
Fixpoint words_fuel (fuel : nat) (cur : string) (s : string) : list string :=
  let flush := match cur with EmptyString => [] | _ => [String.rev cur] end in
  match fuel with
  | O => flush
  | S fuel' =>
      match strip_one whitespace s with
      | Some rest => flush ++ words_fuel fuel' EmptyString rest
      | None =>
          match s with
          | EmptyString => flush
          | String a s' => words_fuel fuel' (String a cur) s'
          end
      end
  end.

Definition words (s : string) : list string :=
  words_fuel (S (String.length s)) EmptyString s.

(** [s.lower()] and [s.upper()] on the ASCII letters.  Python also maps
    letters outside ASCII; none of them is mapped to an ASCII letter of
    ['true'] or ['false'], the only texts a lowered string is compared with
    here. *)
Definition lower_char (a : ascii) : ascii :=
  let n := N_of_ascii a in
  if ((65 <=? n) && (n <=? 90))%N then ascii_of_N (n + 32) else a.

Definition upper_char (a : ascii) : ascii :=
  let n := N_of_ascii a in
  if ((97 <=? n) && (n <=? 122))%N then ascii_of_N (n - 32) else a.

Fixpoint map_chars (f : ascii -> ascii) (s : string) : string :=
  match s with
  | EmptyString => EmptyString
  | String a s' => String (f a) (map_chars f s')
  end.

Definition lower : string -> string := map_chars lower_char.
Definition upper : string -> string := map_chars upper_char.

(** [str(n)] for an integer. *)
Definition str_int (n : Z) : string := pretty n.

(** The text of one double quote. *)
Definition dquote : string := String "034" EmptyString.

(** [bool(s)] for a string, and for a value that is [None] or a string. *)
Definition truthy (s : string) : bool :=
  match s with EmptyString => false | _ => true end.

Definition truthy_opt (o : option string) : bool :=
  match o with Some s => truthy s | None => false end.

(** [l[i]] on a list: a negative index counts from the end; [None] stands
    for [IndexError]. *)
Definition index {A} (l : list A) (i : Z) : option A :=
  let n := Z.of_nat (length l) in
  if 0 <=? i then l !! Z.to_nat i
  else if - n <=? i then l !! Z.to_nat (n + i)
  else None.

(** [bytes.decode()]: the text of a well-formed UTF-8 byte string, [None]
    for [UnicodeDecodeError].  The well-formed sequences are those of the
    Unicode standard (no overlong forms, no surrogates, nothing above
    U+10FFFF). *)
Definition in_range (lo hi : N) (a : ascii) : bool :=
  let n := N_of_ascii a in ((lo <=? n) && (n <=? hi))%N.

Definition cont : ascii -> bool := in_range 128 191.

Fixpoint utf8_valid_fuel (fuel : nat) (s : string) : bool :=
  match fuel with
  | O => match s with EmptyString => true | _ => false end
  | S fuel' =>
      match s with
      | EmptyString => true
      | String a s1 =>
          if in_range 0 127 a then utf8_valid_fuel fuel' s1
          else match s1 with
          | EmptyString => false
          | String b s2 =>
              if in_range 194 223 a then cont b && utf8_valid_fuel fuel' s2
              else match s2 with
              | EmptyString => false
              | String c s3 =>
                  if in_range 224 239 a then
                    (if in_range 224 224 a then in_range 160 191 b
                     else if in_range 237 237 a then in_range 128 159 b
                     else cont b)
                    && cont c && utf8_valid_fuel fuel' s3
                  else match s3 with
                  | EmptyString => false
                  | String d s4 =>
                      in_range 240 244 a
                      && (if in_range 240 240 a then in_range 144 191 b
                          else if in_range 244 244 a then in_range 128 143 b
                          else cont b)
                      && cont c && cont d && utf8_valid_fuel fuel' s4
                  end
              end
          end
      end
  end.

Definition decode (b : string) : option string :=
  if utf8_valid_fuel (String.length b) b then Some b else None.

End Py.

(** ** [os.path] (posixpath) *)

Module OsPath.

(** [p.rfind('/') + 1] and the like: the text after the last occurrence of
    the character [c], and the text up to and including it. *)
Fixpoint rsplit_char (c : ascii) (s : string) : string * string :=
  match s with
  | EmptyString => (EmptyString, EmptyString)
  | String a s' =>
      let '(head, tail) := rsplit_char c s' in
      if Py.contains (String c EmptyString) s' then (String a head, tail)
      else if Ascii.eqb a c then (String a EmptyString, s')
      else (EmptyString, String a s')
  end.

(** [os.path.basename(p)]: [p[p.rfind('/') + 1:]] *)
Definition basename (p : string) : string := snd (rsplit_char "/" p).

(** All of [s] is dots. *)
Fixpoint all_dots (s : string) : bool :=
  match s with
  | EmptyString => true
  | String a s' => Ascii.eqb a "." && all_dots s'
  end.

(** [os.path.splitext(p)]: the extension starts at the last dot of the last
    path component, unless only dots come before it in that component. *)
Definition splitext (p : string) : string * string :=
  let '(dir, name) := rsplit_char "/" p in
  if Py.contains "." name then
    let '(stem_dot, ext) := rsplit_char "." name in
    (* stem_dot ends with the last dot *)
    let stem := String.rev (match String.rev stem_dot with
                            | String _ r => r | EmptyString => EmptyString end) in
    if all_dots stem then (p, EmptyString)
    else (dir +:+ stem, "." +:+ ext)
  else (p, EmptyString).

(** [os.path.join(a, b)] *)
Definition join (a b : string) : string :=
  if Py.startswith b "/" then b
  else if orb (negb (Py.truthy a)) (Py.endswith a "/") then a +:+ b
  else a +:+ "/" +:+ b.

End OsPath.

(** ** The environment of the program *)

(** Python values passed to the provider as keyword arguments. *)
#[warnings="-register-all"] Inductive pyval :=
  | VNone
  | VBool (b : bool)
  | VInt (n : Z)
  | VStr (s : string)
  | VList (l : list pyval)
  | VDict (d : list (string * pyval)).

(** [d[k] = v] on a dict kept in insertion order. *)
Fixpoint dict_set (k : string) (v : pyval) (d : list (string * pyval)) : list (string * pyval) :=
  match d with
  | [] => [(k, v)]
  | (k', v') :: d' => if String.eqb k k' then (k, v) :: d' else (k', v') :: dict_set k v d'
  end.

(** [d.update(other)] *)
Definition dict_update (d other : list (string * pyval)) : list (string * pyval) :=
  fold_left (fun acc kv => dict_set (fst kv) (snd kv) acc) other d.

(** Exceptions.  All of them derive from [Exception]; [sys.exit] is not one
    of them (see [outcome]).  [EnvError] is what the environment raises: a
    provider error, an [OSError] of [subprocess] or of the file system. *)
Inductive exn :=
  | CalledProcessError (argv : list string) (returncode : Z)
  | JSONDecodeError (msg : string)
  | IndexError
  | KeyError (key : string)
  | UnicodeDecodeError (input : string)
  | FileExistsError (path : string)
  | Exception_ (msg : string)
  | EnvError (class msg : string).

Definition is_CalledProcessError (e : exn) : bool :=
  match e with CalledProcessError _ _ => true | _ => false end.

Definition is_JSONDecodeError (e : exn) : bool :=
  match e with JSONDecodeError _ => true | _ => false end.

(** An instance as [describe_instances] and [run_instances] report it: the
    keys the program reads.  [State_Name] is [inst['State']['Name']];
    [PublicDnsName] may be missing from the description; [LaunchTime] is the
    time as [strftime('%Y-%m-%d %H:%M:%S')] prints it. *)
Record instance := {
  InstanceId : string;
  State_Name : string;
  PublicDnsName : option string;
  InstanceType : string;
  LaunchTime : string
}.

(** The row [get_instance] builds for each instance. *)
Record row := {
  id : string;
  state_ : string;
  public_dns : string;
  type_ : string;
  launch_time : string
}.

Inductive level := INFO | WARNING | ERROR.

Inductive api_call :=
  | DescribeInstances (InstanceIds : option (list string))
  | RunInstances (run_args : list (string * pyval))
  | WaitInstanceStatusOk (instance_id : string).

Inductive spawn := Run | RunCheck | CheckOutput | Popen.

(** What the program does to its environment, in order.  A log record that
    ends with a formatted exception keeps the exception instead of its text.
    [Table] stands for the table [get_instance] prints (a header, a rule
    and one formatted line per row).  [EnterCopyToLocal] is a ghost event that
    marks each call of [copy_to_local]. *)
Inductive event :=
  | Log (l : level) (msg : string) (e : option exn)
  | Printed (text : string)
  | Table (rows : list row)
  | Api (call : api_call)
  | Subprocess (how : spawn) (argv : list string)
  | Sleep (seconds : Z)
  | EnterCopyToLocal (run_name : string) (instance_no : Z) (overwrite : bool).

Inductive fkind := File | Dir.

(** The constants loaded from [settings.yml] when the module is imported. *)
Record settings := {
  AWS_REGION : string;
  AMI_ID : string;
  INSTANCE_TYPE : string;
  LAUNCH_TEMPLATE_ID : string;
  SSH_KEY_PATH : string;
  LOCAL_DATA_PATH : string;
  S3_DATA_PATH : string;
  SHAPEFILE : string;
  STATE_VECTOR : string
}.

(** The oracles.  An answer may depend on when the question is asked: the
    first argument of the provider and subprocess oracles is the number of
    such calls made before ([clock]).
    - [describe_instances]: the instances of each reservation of the
      response, for the given [InstanceIds] if any;
    - [subprocess]: the child could not be started (an exception), or it ran
      and ended with an exit status and what it wrote to its standard output;
    - [readline n]: the [n]-th line read from the pipe of the process opened
      with [Popen], [b''] at the end of the stream;
    - [open_file]: the lines of a text file, and the exception that ends the
      reading early, if any;
    - [json_options]: for [json.loads(options)] followed by
      [run_args.update(options_dict)], the entries the update takes or the
      exception one of the two raises;
    - [makedirs_error]: what [os.makedirs] raises for a directory that does
      not exist yet and cannot be created. *)
Record world := {
  describe_instances : nat -> option (list string) -> exn + list (list instance);
  run_instances : nat -> list (string * pyval) -> exn + list instance;
  wait_instance_status_ok : nat -> string -> option exn;
  subprocess : nat -> list string -> exn + (Z * string);
  readline : nat -> string;
  open_file : string -> exn + (list string * option exn);
  json_options : string -> exn + list (string * pyval);
  makedirs_error : string -> option exn
}.

(** The mutable part: [os.environ], the local file system (which paths
    exist), the trace, the number of provider and subprocess calls made, and
    the number of lines read from the pipe.  The file system changes with
    [os.makedirs] only: the commands the program starts write inside the
    directories it gives them, not to the paths it tests with
    [os.path.exists]. *)
Record state := {
  environ : gmap string string;
  fs : gmap string fkind;
  trace : list event;
  clock : nat;
  lines_read : nat
}.

(** ** The monad: state, exceptions, [sys.exit] *)

(** [Running]: the program has not finished when the fuel of a loop of the
    model ends (it is still blocked on the log stream). *)
Inductive outcome (A : Type) :=
  | Ret (a : A)
  | Raise (e : exn)
  | Exit (status : Z)
  | Running.
Arguments Ret {A} a.
Arguments Raise {A} e.
Arguments Exit {A} status.
Arguments Running {A}.

Definition M (A : Type) : Type := state -> outcome A * state.

Definition ret {A} (a : A) : M A := fun s => (Ret a, s).
Definition raise {A} (e : exn) : M A := fun s => (Raise e, s).
Definition sys_exit {A} (status : Z) : M A := fun s => (Exit status, s).
Definition running {A} : M A := fun s => (Running, s).

Definition bind {A B} (m : M A) (k : A -> M B) : M B :=
  fun s =>
    match m s with
    | (Ret a, s') => k a s'
    | (Raise e, s') => (Raise e, s')
    | (Exit n, s') => (Exit n, s')
    | (Running, s') => (Running, s')
    end.

(** [try: m  except Exception as e: handler e] *)
Definition try_except {A} (m : M A) (handler : exn -> M A) : M A :=
  fun s =>
    match m s with
    | (Raise e, s') => handler e s'
    | r => r
    end.

(** [try: m  except <class> as e: handler e], for the classes [sel] accepts *)
Definition try_except_only {A} (sel : exn -> bool) (m : M A) (handler : exn -> M A) : M A :=
  try_except m (fun e => if sel e then handler e else raise e).

Declare Scope py_scope.
Delimit Scope py_scope with py.
Notation "x <- m ;; k" := (bind m (fun x => k))
  (at level 100, m at next level, right associativity) : py_scope.
Notation "m ;; k" := (bind m (fun _ => k))
  (at level 100, right associativity) : py_scope.
Local Open Scope py_scope.

(** [for x in l: body x] *)
Fixpoint for_each {A} (l : list A) (body : A -> M unit) : M unit :=
  match l with
  | [] => ret tt
  | x :: l' => body x ;; for_each l' body
  end.

Definition emit (e : event) : M unit :=
  fun s => (Ret tt, {| environ := environ s; fs := fs s; trace := trace s ++ [e];
                       clock := clock s; lines_read := lines_read s |}).

Definition tick : M nat :=
  fun s => (Ret (clock s), {| environ := environ s; fs := fs s; trace := trace s;
                              clock := S (clock s); lines_read := lines_read s |}).

Definition lift_result {A} (r : exn + A) : M A :=
  match r with inl e => raise e | inr a => ret a end.

(** [logging.info], [logging.warning], [logging.error], [print] *)
Definition log (l : level) (msg : string) : M unit := emit (Log l msg None).
Definition log_exn (l : level) (msg : string) (e : exn) : M unit := emit (Log l msg (Some e)).
Definition print (text : string) : M unit := emit (Printed text).

(** [os.getenv(name)] and [os.environ[name] = value] *)
Definition getenv (name : string) : M (option string) :=
  fun s => (Ret (environ s !! name), s).

Definition setenv (name value : string) : M unit :=
  fun s => (Ret tt, {| environ := <[name := value]> (environ s); fs := fs s;
                       trace := trace s; clock := clock s; lines_read := lines_read s |}).

(** [os.path.exists(path)] *)
Definition path_exists (path : string) : M bool :=
  fun s => (Ret (bool_decide (is_Some (fs s !! path))), s).

(** An optional string inside an f-string. *)
Definition fmt (o : option string) : string :=
  match o with Some s => s | None => "None" end.

Definition INSTANCE_ID_VAR : string := "AWS_INSTANCE_ID".
Definition PUBLIC_URL_VAR : string := "AWS_PUBLIC_URL".

(** ** The program *)

Section Program.

Variable cfg : settings.
Variable w : world.

(** *** Calls into the environment *)

Definition ec2_describe_instances (ids : option (list string)) : M (list (list instance)) :=
  emit (Api (DescribeInstances ids)) ;;
  t <- tick ;;
  lift_result (describe_instances w t ids).

Definition ec2_run_instances (run_args : list (string * pyval)) : M (list instance) :=
  emit (Api (RunInstances run_args)) ;;
  t <- tick ;;
  lift_result (run_instances w t run_args).

Definition waiter_wait (instance_id : string) : M unit :=
  emit (Api (WaitInstanceStatusOk instance_id)) ;;
  t <- tick ;;
  match wait_instance_status_ok w t instance_id with
  | Some e => raise e
  | None => ret tt
  end.

(** [subprocess.run(argv)]: the exit status is in the result, which none of
    the callers looks at. *)
Definition subprocess_run (argv : list string) : M Z :=
  emit (Subprocess Run argv) ;;
  t <- tick ;;
  r <- lift_result (subprocess w t argv) ;;
  ret (fst r).

(** [subprocess.run(argv, check=True)] *)
Definition subprocess_run_check (argv : list string) : M unit :=
  emit (Subprocess RunCheck argv) ;;
  t <- tick ;;
  r <- lift_result (subprocess w t argv) ;;
  if fst r =? 0 then ret tt else raise (CalledProcessError argv (fst r)).

(** [subprocess.check_output(argv)] *)
Definition subprocess_check_output (argv : list string) : M string :=
  emit (Subprocess CheckOutput argv) ;;
  t <- tick ;;
  r <- lift_result (subprocess w t argv) ;;
  if fst r =? 0 then ret (snd r) else raise (CalledProcessError argv (fst r)).

(** [subprocess.Popen(argv, stdout=subprocess.PIPE)] *)
Definition subprocess_Popen (argv : list string) : M unit :=
  emit (Subprocess Popen argv) ;;
  t <- tick ;;
  _ <- lift_result (subprocess w t argv) ;;
  ret tt.

(** [process.stdout.readline()] *)
Definition stdout_readline : M string :=
  fun s => (Ret (readline w (lines_read s)),
            {| environ := environ s; fs := fs s; trace := trace s;
               clock := clock s; lines_read := S (lines_read s) |}).

(** [b.decode()] *)
Definition decode (b : string) : M string :=
  match Py.decode b with
  | Some text => ret text
  | None => raise (UnicodeDecodeError b)
  end.

(** [os.makedirs(path, exist_ok=True)].  The ancestors it creates on the way
    are not recorded: the program never asks whether one of them exists. *)
Definition makedirs (path : string) : M unit :=
  fun s =>
    match fs s !! path with
    | Some Dir => (Ret tt, s)
    | Some File => (Raise (FileExistsError path), s)
    | None =>
        match makedirs_error w path with
        | Some e => (Raise e, s)
        | None => (Ret tt, {| environ := environ s; fs := <[path := Dir]> (fs s);
                              trace := trace s; clock := clock s;
                              lines_read := lines_read s |})
        end
    end.

Definition ssh_to (public_url : string) : list string :=
  ["ssh"; "-i"; SSH_KEY_PATH cfg; "ubuntu@" +:+ public_url].

(** *** [get_instance] *)

Definition row_of (inst : instance) : row :=
  {| id := InstanceId inst;
     state_ := State_Name inst;
     public_dns := default "N/A" (PublicDnsName inst);
     type_ := InstanceType inst;
     launch_time := LaunchTime inst |}.

(** The two nested loops that build [instances]. *)
Definition build_instances (reservations : list (list instance)) : list row :=
  flat_map (fun res => map row_of res) reservations.

Definition get_instance (instance_no : Z) : M (option string) :=
  try_except
    (response <- ec2_describe_instances None ;;
     let instances := build_instances response in
     match instances with
     | [] => log INFO "ℹ️ No instances found" ;; ret None
     | _ :: _ =>
         log INFO (String "010" "📋 Available EC2 Instances:") ;;
         emit (Table instances) ;;
         if instance_no >=? Z.of_nat (length instances) then
           log ERROR ("❌ Invalid instance number: " +:+ Py.str_int instance_no) ;;
           ret None
         else
           selected <- from_option ret (raise IndexError) (Py.index instances instance_no) ;;
           setenv INSTANCE_ID_VAR (id selected) ;;
           setenv PUBLIC_URL_VAR (public_dns selected) ;;
           log INFO ("🔍 Selected instance " +:+ Py.str_int instance_no +:+ ":") ;;
           log INFO ("   ID: " +:+ id selected) ;;
           log INFO ("   State: " +:+ Py.upper (state_ selected)) ;;
           log INFO ("   Public DNS: " +:+ public_dns selected) ;;
           log INFO ("   Type: " +:+ type_ selected) ;;
           log INFO ("   Launched: " +:+ launch_time selected) ;;
           ret (Some (state_ selected))
     end)
    (fun e => log_exn ERROR "❌ Error listing instances: " e ;; ret None).

(** *** [instance_setup] *)

Definition files_to_copy : list (string * string) :=
  [ ("tmux_install.sh", "/home/ubuntu/");
    ("fixslurm.sh", "/home/ubuntu/");
    (SHAPEFILE cfg +:+ ".shp", "/home/ubuntu/integrated_methane_inversion");
    (SHAPEFILE cfg +:+ ".shx", "/home/ubuntu/integrated_methane_inversion");
    (STATE_VECTOR cfg, "/home/ubuntu/integrated_methane_inversion") ].

Definition setup_commands : list string :=
  [ "sudo apt remove -y tmux";
    "chmod +x tmux_install.sh && ./tmux_install.sh";
    "chmod +x fixslurm.sh && ./fixslurm.sh" ].

Definition setup_command_line : string := Py.join " && " setup_commands.

Definition instance_setup (public_url : string) : M bool :=
  try_except
    (for_each files_to_copy (fun '(local_file, remote_path) =>
       present <- path_exists local_file ;;
       if present then
         _ <- subprocess_run ["scp"; "-i"; SSH_KEY_PATH cfg; local_file;
                              "ubuntu@" +:+ public_url +:+ ":" +:+ remote_path] ;;
         ret tt
       else log WARNING ("Missing file: " +:+ local_file)) ;;
     _ <- subprocess_run (ssh_to public_url ++ [setup_command_line])%list ;;
     ret true)
    (fun e => log_exn ERROR "Setup failed: " e ;; ret false).

(** *** [create_instance] *)

Definition default_run_args : list (string * pyval) :=
  [ ("LaunchTemplate", VDict [("LaunchTemplateId", VStr (LAUNCH_TEMPLATE_ID cfg))]);
    ("MinCount", VInt 1);
    ("MaxCount", VInt 1);
    ("KeyName", VStr "imikey") ].

Definition handshake (public_dns : string) : list string :=
  ["ssh"; "-i"; SSH_KEY_PATH cfg; "-o"; "ConnectTimeout=10"; "-o";
   "StrictHostKeyChecking=no"; "ubuntu@" +:+ public_dns; "true"].

(** The loop [for _ in range(10)] with its [break]: the value is
    [ssh_ready].  Only [CalledProcessError] is caught. *)
Fixpoint ssh_probe (attempts : nat) (public_dns : string) : M bool :=
  match attempts with
  | O => ret false
  | S attempts' =>
      ok <- try_except_only is_CalledProcessError
              (subprocess_run_check (handshake public_dns) ;; ret true)
              (fun _ => emit (Sleep 30) ;; ret false) ;;
      if ok : bool then ret true else ssh_probe attempts' public_dns
  end.

(** The options of the command line merged into [run_args]; [None] stands
    for the [return False] of the two handlers. *)
Definition merge_options (options : option string) : M (option (list (string * pyval))) :=
  if Py.truthy_opt options then
    try_except
      (options_dict <- lift_result (json_options w (default EmptyString options)) ;;
       ret (Some (dict_update default_run_args options_dict)))
      (fun e =>
         if is_JSONDecodeError e then
           log_exn ERROR "❌ Invalid JSON format: " e ;;
           log ERROR ("💡 Example valid format: {" +:+ Py.dquote +:+ "InstanceType" +:+ Py.dquote
                      +:+ ": " +:+ Py.dquote +:+ "t3.micro" +:+ Py.dquote +:+ ", "
                      +:+ Py.dquote +:+ "KeyName" +:+ Py.dquote +:+ ": "
                      +:+ Py.dquote +:+ "my-key" +:+ Py.dquote +:+ "}") ;;
           ret None
         else
           log_exn ERROR "❌ Invalid options: " e ;;
           ret None)
  else ret (Some default_run_args).

Definition create_instance (options : option string) : M bool :=
  try_except
    (log INFO "🚀 Launching EC2 instance..." ;;
     merged <- merge_options options ;;
     match merged with
     | None => ret false
     | Some run_args =>
         response <- ec2_run_instances run_args ;;
         first <- from_option ret (raise IndexError) (Py.index response 0) ;;
         let instance_id := InstanceId first in
         log INFO ("🆔 Instance ID: " +:+ instance_id) ;;
         log INFO "⏳ Waiting for instance initialization (this may take a few minutes)..." ;;
         waiter_wait instance_id ;;
         reservations <- ec2_describe_instances (Some [instance_id]) ;;
         reservation <- from_option ret (raise IndexError) (Py.index reservations 0) ;;
         inst <- from_option ret (raise IndexError) (Py.index reservation 0) ;;
         public_dns <- from_option ret (raise (KeyError "PublicDnsName")) (PublicDnsName inst) ;;
         log INFO ("🌐 Public DNS: " +:+ public_dns) ;;
         log INFO "🔒 Testing SSH connectivity..." ;;
         ssh_ready <- ssh_probe 10 public_dns ;;
         if negb ssh_ready then raise (Exception_ "SSH connection failed after 15 minutes")
         else
           log INFO "🛠️ Starting instance setup..." ;;
           done <- instance_setup public_dns ;;
           if done : bool then
             log INFO "✅ Instance setup completed successfully" ;;
             setenv INSTANCE_ID_VAR instance_id ;;
             setenv PUBLIC_URL_VAR public_dns ;;
             ret true
           else raise (Exception_ "Instance setup failed")
     end)
    (fun e => log_exn ERROR "❌ Instance creation failed: " e ;; ret false).

(** *** [copy_to_local] *)

(** The loop [while os.path.exists(local_dir)] on a file system [files].
    [None]: the fuel ended first; with as much fuel as there are paths this
    does not happen ([free_dir_total] below). *)
Fixpoint free_dir (fuel : nat) (files : gmap string fkind)
    (local_dir_base local_dir : string) (counter : Z) : option string :=
  if bool_decide (is_Some (files !! local_dir)) then
    match fuel with
    | O => None
    | S fuel' =>
        free_dir fuel' files local_dir_base
          (local_dir_base +:+ "_" +:+ Py.str_int counter) (counter + 1)
    end
  else Some local_dir.

Definition choose_local_dir (local_dir_base : string) (overwrite : bool) : M string :=
  if overwrite then ret local_dir_base
  else
    fun s =>
      match free_dir (size (fs s)) (fs s) local_dir_base local_dir_base 1 with
      | Some local_dir =>
          (log INFO ("Using new directory: " +:+ local_dir) ;; ret local_dir) s
      | None => (Running, s)
      end.

Definition transfer_items (run_name : string) : list (string * string) :=
  let remote_base := "/home/ubuntu/imi_output_dir/" +:+ run_name in
  [ (remote_base +:+ "/preview", "preview");
    (remote_base +:+ "/inversion", "inversion");
    (remote_base +:+ "/hemco_prior_emis", "hemco_prior_emis");
    (remote_base +:+ "/archive_sf", "archive_sf");
    (remote_base +:+ "/imi_output.log", EmptyString);
    (remote_base +:+ "/StateVector.nc", EmptyString);
    (remote_base +:+ "/*.yml", EmptyString);
    (remote_base +:+ "/config_" +:+ run_name +:+ ".yml", "config.yml") ].

(** The body of the loop over the manifest, with its own [try]. *)
Definition transfer_item (public_url local_dir : string) (item : string * string) : M unit :=
  let '(remote_path, local_subdir) := item in
  try_except
    (let local_target :=
       if Py.truthy local_subdir then OsPath.join local_dir local_subdir else local_dir in
     if Py.contains "*" remote_path then
       out <- subprocess_check_output (ssh_to public_url ++ ["ls " +:+ remote_path])%list ;;
       text <- decode out ;;
       for_each (Py.words text) (fun f =>
         _ <- subprocess_run ["scp"; "-i"; SSH_KEY_PATH cfg;
                              "ubuntu@" +:+ public_url +:+ ":" +:+ f; local_target] ;;
         ret tt)
     else if Py.endswith (OsPath.basename remote_path) ".yml" then
       _ <- subprocess_run ["scp"; "-i"; SSH_KEY_PATH cfg;
                            "ubuntu@" +:+ public_url +:+ ":" +:+ remote_path;
                            OsPath.join local_dir "config.yml"] ;;
       ret tt
     else if Py.contains "preview" remote_path || Py.contains "inversion" remote_path then
       _ <- subprocess_run ["rsync"; "-azP"; "-e"; "ssh -i " +:+ SSH_KEY_PATH cfg;
                            "ubuntu@" +:+ public_url +:+ ":" +:+ remote_path +:+ "/";
                            local_target +:+ "/"] ;;
       ret tt
     else
       _ <- subprocess_run ["scp"; "-i"; SSH_KEY_PATH cfg;
                            "ubuntu@" +:+ public_url +:+ ":" +:+ remote_path;
                            local_target] ;;
       ret tt)
    (fun e => log_exn WARNING ("Failed to copy " +:+ remote_path +:+ ": ") e).

Definition copy_to_local (run_name : string) (instance_no : Z) (overwrite : bool)
    : M (option string) :=
  emit (EnterCopyToLocal run_name instance_no overwrite) ;;
  try_except
    (st <- get_instance instance_no ;;
     if negb (Py.truthy_opt st) then
       log ERROR "No valid instance available" ;; ret None
     else
       public_url <- getenv PUBLIC_URL_VAR ;;
       if negb (Py.truthy_opt public_url) then
         log ERROR "No public URL found for instance" ;; ret None
       else
         let public_url := default EmptyString public_url in
         let local_dir_base := OsPath.join (LOCAL_DATA_PATH cfg) run_name in
         local_dir <- choose_local_dir local_dir_base overwrite ;;
         makedirs local_dir ;;
         for_each (transfer_items run_name) (transfer_item public_url local_dir) ;;
         log INFO ("Successfully copied all data to: " +:+ local_dir) ;;
         ret (Some local_dir))
    (fun e => log_exn ERROR "Copy to local failed: " e ;; ret None).

(** *** [tail_logfile] *)

Definition is_sentinel (text : string) : bool :=
  Py.contains "Posterior" text || Py.contains "IMI ended" text.

(** The loop [for line in iter(process.stdout.readline, b'')]; one unit of
    fuel per line read. *)
Fixpoint tail_loop (fuel : nat) (run_name : string) (instance_no : Z) : M unit :=
  match fuel with
  | O => running
  | S fuel' =>
      line <- stdout_readline ;;
      if negb (Py.truthy line) then ret tt
      else
        text <- decode line ;;
        print (Py.strip text) ;;
        if is_sentinel text then
          log INFO "Run completed, copying results..." ;;
          _ <- copy_to_local run_name instance_no false ;;
          ret tt
        else tail_loop fuel' run_name instance_no
  end.

Definition tail_cmd (public_url : option string) (logfile : string) : list string :=
  ssh_to (fmt public_url) ++ ["tail -n 1000 -f integrated_methane_inversion/" +:+ logfile].

Definition tail_logfile (fuel : nat) (logfile : string) (instance_no : Z)
    (run_name : option string) : M unit :=
  st <- get_instance instance_no ;;
  if negb (Py.truthy_opt st) then ret tt
  else
    public_url <- getenv PUBLIC_URL_VAR ;;
    try_except
      (let cmd := tail_cmd public_url logfile in
       if Py.truthy_opt run_name then
         subprocess_Popen cmd ;;
         tail_loop fuel (default EmptyString run_name) instance_no
       else
         _ <- subprocess_run cmd ;; ret tt)
      (fun e => log_exn ERROR "Log tail failed: " e).

(** *** [run_command] *)

(** [line.split(':', 1)[1]] *)
Definition after_colon (line : string) : M string :=
  from_option ret (raise IndexError) (Py.index (Py.split1 ":" line) 1).

(** The value of a [RunName:] line: [.strip()], then [.strip(...)] with the
    double and the single quote as the characters to remove. *)
Definition run_name_of (value : string) : string :=
  Py.strip_chars [Py.dquote; "'"] (Py.strip value).

(** The body of [for line in f], on the pair [(run_name, use_slurm)]. *)
Definition scan_line (config_stem : string) (acc : option string * option bool)
    (line : string) : M (option string * option bool) :=
  let '(run_name, use_slurm) := acc in
  if Py.startswith line "RunName:" then
    value <- after_colon line ;;
    let run_name_value := run_name_of value in
    if negb (String.eqb run_name_value config_stem) then
      log ERROR ("Config filename '" +:+ config_stem +:+ "' does not match RunName '"
                 +:+ run_name_value +:+ "'") ;;
      log ERROR "Please ensure the config filename matches the RunName value" ;;
      sys_exit 1
    else ret (Some run_name_value, use_slurm)
  else if Py.startswith line "UseSlurm:" then
    value <- after_colon line ;;
    let slurm_value := Py.lower (Py.strip value) in
    if String.eqb slurm_value "true" then ret (run_name, Some true)
    else if String.eqb slurm_value "false" then ret (run_name, Some false)
    else
      log ERROR ("Invalid UseSlurm value: " +:+ slurm_value +:+ ". Must be 'true' or 'false'") ;;
      sys_exit 1
  else ret acc.

Fixpoint scan_lines (config_stem : string) (acc : option string * option bool)
    (lines : list string) : M (option string * option bool) :=
  match lines with
  | [] => ret acc
  | line :: lines' =>
      acc' <- scan_line config_stem acc line ;;
      scan_lines config_stem acc' lines'
  end.

(** [with open(configfile, 'r') as f: for line in f: ...] *)
Definition scan_config (configfile config_stem : string) : M (option string * option bool) :=
  content <- lift_result (open_file w configfile) ;;
  acc <- scan_lines config_stem (None, None) (fst content) ;;
  match snd content with
  | Some e => raise e
  | None => ret acc
  end.

(** [# Validate UseSlurm vs tmux option] *)
Definition check_launch_mode (use_slurm : option bool) (tmux : bool) : M unit :=
  match use_slurm with
  | None => ret tt
  | Some use_slurm =>
      if use_slurm && tmux then
        log ERROR "Configuration conflict: UseSlurm=true cannot be used with --tmux" ;;
        log ERROR "When using Slurm (UseSlurm=true), omit the --tmux option" ;;
        sys_exit 1
      else if negb use_slurm && negb tmux then
        log ERROR "Configuration conflict: UseSlurm=false requires --tmux option" ;;
        log ERROR "When not using Slurm (UseSlurm=false), you must specify --tmux" ;;
        sys_exit 1
      else ret tt
  end.

Definition kalman_file : string := "KalmanPeriods.csv".

Definition execution_cmd (configfile : string) (options : option string) (tmux : bool) : string :=
  if tmux then
    "tmux new-session -d -s imi './run_imi.sh " +:+ configfile +:+ " "
      +:+ (if Py.truthy_opt options then default EmptyString options else EmptyString) +:+ " > imi_output.log'"
  else
    "sbatch run_imi.sh " +:+ configfile +:+ " "
      +:+ (if Py.truthy_opt options then default EmptyString options else EmptyString).

Definition base_cmd : string := "cd /home/ubuntu/integrated_methane_inversion && ".

Definition scp_config (configfile public_url : string) : list string :=
  ["scp"; "-i"; SSH_KEY_PATH cfg; configfile;
   "ubuntu@" +:+ public_url +:+ ":/home/ubuntu/integrated_methane_inversion"].

(** [# File transfer and command execution]: the schedule file, if there is
    one. *)
Definition copy_kalman (public_url : string) : M unit :=
  present <- path_exists kalman_file ;;
  if present then
    _ <- subprocess_run
           ["scp"; "-i"; SSH_KEY_PATH cfg; kalman_file;
            "ubuntu@" +:+ public_url
              +:+ ":/home/ubuntu/integrated_methane_inversion/periods.csv"] ;;
    ret tt
  else log WARNING (kalman_file +:+ " not found, skipping transfer").

Definition launch (configfile public_url : string) (options : option string) (tmux : bool)
    : list string :=
  (ssh_to public_url ++ [base_cmd +:+ execution_cmd configfile options tmux])%list.

Definition run_command (fuel : nat) (configfile : string) (instance_no : Z)
    (options : option string) (tmux : bool) : M unit :=
  try_except
    (st <- get_instance instance_no ;;
     if negb (Py.truthy_opt st) then
       log ERROR "No valid instance available"
     else
       public_url <- getenv PUBLIC_URL_VAR ;;
       if negb (Py.truthy_opt public_url) then
         log ERROR "No public URL found for instance"
       else
         let public_url := default EmptyString public_url in
         let config_stem := fst (OsPath.splitext (OsPath.basename configfile)) in
         scanned <- scan_config configfile config_stem ;;
         let '(run_name, use_slurm) := scanned in
         check_launch_mode use_slurm tmux ;;
         copy_kalman public_url ;;
         _ <- subprocess_run (scp_config configfile public_url) ;;
         _ <- subprocess_run (launch configfile public_url options tmux) ;;
         log INFO ("Inversion started successfully for config: " +:+ configfile) ;;
         tail_logfile fuel "imi_output.log" instance_no
           (Some (if Py.truthy_opt run_name then default EmptyString run_name else config_stem)))
    (fun e => log_exn ERROR "Failed to execute run command: " e ;; sys_exit 1).

End Program.

(** ** The other commands on a selected instance *)

Section Commands.

Variable cfg : settings.
Variable w : world.

(** *** [open_shell] *)

Definition open_shell (instance_no : Z) (args : list string) : M unit :=
  st <- get_instance w instance_no ;;
  if negb (Py.truthy_opt st) then ret tt
  else
    public_url <- getenv PUBLIC_URL_VAR ;;
    let cmd := ssh_to cfg (fmt public_url) in
    let cmd := match args with [] => cmd | _ :: _ => (cmd ++ args)%list end in
    try_except
      (_ <- subprocess_run w cmd ;; ret tt)
      (fun e => log_exn ERROR "SSH failed: " e).

(** *** [copy_from_s3] *)

Definition s3_mkdir (run_name : string) : string :=
  "mkdir -p /home/ubuntu/imi_output_dir/" +:+ run_name.

Definition s3_download (run_name : string) : string :=
  "cd /home/ubuntu/imi_output_dir/" +:+ run_name +:+ " && "
  +:+ "tmux new-session -d -s s3sync 'aws s3 cp s3://imidata/" +:+ run_name +:+ "/"
  +:+ run_name +:+ ".tar.gz - | tar -xz'".

Definition copy_from_s3 (run_name : string) (instance_no : Z) : M unit :=
  st <- get_instance w instance_no ;;
  if negb (Py.truthy_opt st) then ret tt
  else
    public_url <- getenv PUBLIC_URL_VAR ;;
    try_except
      (_ <- subprocess_run w (ssh_to cfg (fmt public_url) ++ [s3_mkdir run_name])%list ;;
       _ <- subprocess_run w (ssh_to cfg (fmt public_url) ++ [s3_download run_name])%list ;;
       log INFO ("Started S3 download for " +:+ run_name +:+ " in tmux session"))
      (fun e => log_exn ERROR "S3 copy failed: " e).

(** *** [instance_setup_cli] *)

Definition instance_setup_cli (instance_no : Z) : M bool :=
  st <- get_instance w instance_no ;;
  if negb (Py.truthy_opt st) then
    log ERROR "No instance found for setup" ;; ret false
  else
    public_url <- getenv PUBLIC_URL_VAR ;;
    if negb (Py.truthy_opt public_url) then
      log ERROR "No public URL found" ;; ret false
    else instance_setup cfg w (default EmptyString public_url).

End Commands.

(** ** The lifecycle commands

    [terminate_instance], [stop_instance], [restart_instance] and
    [cancel_spot] use five more operations of the provider.  Their oracles
    are asked, like the others, with the number of provider and subprocess
    calls made before; [describe_spot_instance_requests] answers with the
    [SpotInstanceRequestId] of each active request, in the order of the
    response.  The requests made are recorded beside the state, in the order
    they are made. *)

Inductive lifecycle_call :=
  | TerminateInstances (InstanceIds : list (option string))
  | StopInstances (InstanceIds : list (option string))
  | StartInstances (InstanceIds : list (option string))
  | DescribeSpotInstanceRequests
  | CancelSpotInstanceRequests (SpotInstanceRequestIds : list string).

Record provider := {
  terminate_instances : nat -> list (option string) -> option exn;
  stop_instances : nat -> list (option string) -> option exn;
  start_instances : nat -> list (option string) -> option exn;
  describe_spot_instance_requests : nat -> exn + list string;
  cancel_spot_instance_requests : nat -> list string -> option exn
}.

Record session := {
  base : state;
  requests : list lifecycle_call
}.

Module Lifecycle.

(** The monad of the program, over a [session]. *)
Definition L (A : Type) : Type := session -> outcome A * session.

Definition retL {A} (a : A) : L A := fun x => (Ret a, x).

Definition bindL {A B} (m : L A) (k : A -> L B) : L B :=
  fun x =>
    match m x with
    | (Ret a, x') => k a x'
    | (Raise e, x') => (Raise e, x')
    | (Exit n, x') => (Exit n, x')
    | (Running, x') => (Running, x')
    end.

Definition try_exceptL {A} (m : L A) (handler : exn -> L A) : L A :=
  fun x =>
    match m x with
    | (Raise e, x') => handler e x'
    | r => r
    end.

(** A step of the program that makes no lifecycle request. *)
Definition lift {A} (m : M A) : L A :=
  fun x =>
    let '(o, s') := m (base x) in
    (o, {| base := s'; requests := requests x |}).

(** A lifecycle request: recorded, counted, answered by the oracle. *)
Definition request {A} (c : lifecycle_call) (answer : nat -> exn + A) : L A :=
  fun x =>
    let s := base x in
    let x' := {| base := {| environ := environ s; fs := fs s; trace := trace s;
                            clock := S (clock s); lines_read := lines_read s |};
                 requests := requests x ++ [c] |} in
    match answer (clock s) with
    | inl e => (Raise e, x')
    | inr a => (Ret a, x')
    end.

Definition completed (o : option exn) : exn + unit :=
  match o with Some e => inl e | None => inr tt end.

Declare Scope lifecycle_scope.
Notation "x <- m ;; k" := (bindL m (fun x => k))
  (at level 100, m at next level, right associativity) : lifecycle_scope.
Notation "m ;; k" := (bindL m (fun _ => k))
  (at level 100, right associativity) : lifecycle_scope.
Local Open Scope lifecycle_scope.

Section Commands.

Variable w : world.
Variable p : provider.

(** [terminate_instance].  [None] for the instance to act on stands for the
    early [return]. *)
Definition terminate_instance (instance_no : Z) : L unit :=
  instance_id <- lift (getenv INSTANCE_ID_VAR) ;;
  target <-
    (if negb (instance_no =? 0) || negb (Py.truthy_opt instance_id) then
       st <- lift (get_instance w instance_no) ;;
       if negb (Py.truthy_opt st) then
         lift (log ERROR "No instance found") ;; retL None
       else
         instance_id <- lift (getenv INSTANCE_ID_VAR) ;; retL (Some instance_id)
     else retL (Some instance_id)) ;;
  match target with
  | None => retL tt
  | Some instance_id =>
      try_exceptL
        (request (TerminateInstances [instance_id])
           (fun t => completed (terminate_instances p t [instance_id])) ;;
         lift (log INFO ("Terminated instance: " +:+ fmt instance_id)) ;;
         lift (setenv INSTANCE_ID_VAR EmptyString) ;;
         lift (setenv PUBLIC_URL_VAR EmptyString))
        (fun e => lift (log_exn ERROR "Termination failed: " e))
  end.

(** [stop_instance] *)
Definition stop_instance (instance_no : Z) : L unit :=
  instance_id <- lift (getenv INSTANCE_ID_VAR) ;;
  target <-
    (if negb (instance_no =? 0) || negb (Py.truthy_opt instance_id) then
       st <- lift (get_instance w instance_no) ;;
       if negb (bool_decide (st = Some "running")) then
         lift (log ERROR "Instance not running") ;; retL None
       else
         instance_id <- lift (getenv INSTANCE_ID_VAR) ;; retL (Some instance_id)
     else retL (Some instance_id)) ;;
  match target with
  | None => retL tt
  | Some instance_id =>
      try_exceptL
        (request (StopInstances [instance_id])
           (fun t => completed (stop_instances p t [instance_id])) ;;
         lift (log INFO ("Stopped instance: " +:+ fmt instance_id)) ;;
         lift (setenv INSTANCE_ID_VAR EmptyString) ;;
         lift (setenv PUBLIC_URL_VAR EmptyString))
        (fun e => lift (log_exn ERROR "Stop failed: " e))
  end.

(** [restart_instance] *)
Definition restart_instance (instance_no : Z) : L unit :=
  instance_id <- lift (getenv INSTANCE_ID_VAR) ;;
  target <-
    (if negb (instance_no =? 0) || negb (Py.truthy_opt instance_id) then
       st <- lift (get_instance w instance_no) ;;
       if negb (bool_decide (st = Some "stopped")) then
         lift (log ERROR "Instance not stopped") ;; retL None
       else
         instance_id <- lift (getenv INSTANCE_ID_VAR) ;; retL (Some instance_id)
     else retL (Some instance_id)) ;;
  match target with
  | None => retL tt
  | Some instance_id =>
      try_exceptL
        (request (StartInstances [instance_id])
           (fun t => completed (start_instances p t [instance_id])) ;;
         lift (log INFO ("Started instance: " +:+ fmt instance_id)) ;;
         lift (setenv INSTANCE_ID_VAR EmptyString) ;;
         lift (setenv PUBLIC_URL_VAR EmptyString))
        (fun e => lift (log_exn ERROR "Start failed: " e))
  end.

(** [cancel_spot] *)
Definition cancel_spot (instance_no : Z) : L unit :=
  try_exceptL
    (spot_requests <- request DescribeSpotInstanceRequests
                        (describe_spot_instance_requests p) ;;
     match spot_requests with
     | [] => lift (log INFO "No active spot requests")
     | _ :: _ =>
         if instance_no >=? Z.of_nat (length spot_requests) then
           lift (log ERROR ("No spot request #" +:+ Py.str_int instance_no))
         else
           request_id <- lift (from_option ret (raise IndexError)
                                 (Py.index spot_requests instance_no)) ;;
           request (CancelSpotInstanceRequests [request_id])
             (fun t => completed (cancel_spot_instance_requests p t [request_id])) ;;
           lift (log INFO ("Cancelled spot request: " +:+ request_id))
     end)
    (fun e => lift (log_exn ERROR "Spot cancellation failed: " e)).

End Commands.

End Lifecycle.

(** ** The remote shell

    [ssh host command_line] gives the command line to the remote login
    shell.  The lines this program sends are AND lists of simple commands:
    in [c1 && c2] the shell runs [c2] if and only if [c1] returns exit
    status zero, and [&&] associates to the left.  [and_list] gives the
    commands the shell runs, in order, and the exit status of the list. *)

Module Sh.

Fixpoint and_list (status : string -> Z) (commands : list string) : list string * Z :=
  match commands with
  | [] => ([], 0)
  | c :: rest =>
      if status c =? 0 then
        match rest with
        | [] => ([c], 0)
        | _ :: _ => let '(ran, st) := and_list status rest in (c :: ran, st)
        end
      else ([c], status c)
  end.

Definition run (status : string -> Z) (command_line : string) : list string * Z :=
  and_list status (Py.split " && " command_line).

End Sh.

(** ** Vocabulary of the statements *)

(** [evs] appended to the trace, after [ticks] more provider and subprocess
    calls. *)
Definition record (evs : list event) (ticks : nat) (s : state) : state :=
  {| environ := environ s; fs := fs s; trace := trace s ++ evs;
     clock := ticks + clock s; lines_read := lines_read s |}.

(** [rows] is the list [get_instance] builds from the provider's answer at
    time [t]. *)
Definition listing (w : world) (t : nat) (rows : list row) : Prop :=
  exists response,
    describe_instances w t None = inr response /\ build_instances response = rows.

(** [get_instance instance_no], asked at time [t], passes its test
    [instance_no >= len(instances)] and selects the row [r] of the listing
    [rows]. *)
Definition selects (w : world) (t : nat) (instance_no : Z) (rows : list row) (r : row) : Prop :=
  listing w t rows
  /\ instance_no < Z.of_nat (length rows)
  /\ Py.index rows instance_no = Some r.

(** The row passes the two tests the callers of [get_instance] make: its
    state and its address are not empty. *)
Definition usable (r : row) : Prop :=
  Py.truthy (state_ r) = true /\ Py.truthy (public_dns r) = true.

(** What [get_instance] writes to the trace when it selects [r]. *)
Definition selection_trace (rows : list row) (instance_no : Z) (r : row) : list event :=
  [ Api (DescribeInstances None);
    Log INFO (String "010" "📋 Available EC2 Instances:") None;
    Table rows;
    Log INFO ("🔍 Selected instance " +:+ Py.str_int instance_no +:+ ":") None;
    Log INFO ("   ID: " +:+ id r) None;
    Log INFO ("   State: " +:+ Py.upper (state_ r)) None;
    Log INFO ("   Public DNS: " +:+ public_dns r) None;
    Log INFO ("   Type: " +:+ type_ r) None;
    Log INFO ("   Launched: " +:+ launch_time r) None ].

(** The state [get_instance] leaves when it selects [r]. *)
Definition selected (rows : list row) (instance_no : Z) (r : row) (s : state) : state :=
  {| environ := <[PUBLIC_URL_VAR := public_dns r]> (<[INSTANCE_ID_VAR := id r]> (environ s));
     fs := fs s;
     trace := trace s ++ selection_trace rows instance_no r;
     clock := S (clock s);
     lines_read := lines_read s |}.

Definition is_Log (e : event) : bool :=
  match e with Log _ _ _ => true | _ => false end.

Definition is_EnterCopyToLocal (e : event) : bool :=
  match e with EnterCopyToLocal _ _ _ => true | _ => false end.

(** The number of calls of [copy_to_local] in a trace. *)
Definition retrievals (t : list event) : nat :=
  length (filter (fun e => is_EnterCopyToLocal e = true) t).

(** [plain m]: [m] ends by returning or raising (it neither exits nor keeps
    running), reads nothing from the log stream, and calls no retrieval.
    [returns m]: moreover it never raises. *)
Definition plain {A} (m : M A) : Prop :=
  forall s, exists o s' evs,
    m s = (o, s') /\ trace s' = trace s ++ evs /\ retrievals evs = 0%nat
    /\ lines_read s' = lines_read s
    /\ match o with Ret _ | Raise _ => True | _ => False end.

Definition returns {A} (m : M A) : Prop :=
  forall s, exists a s' evs,
    m s = (Ret a, s') /\ trace s' = trace s ++ evs /\ retrievals evs = 0%nat
    /\ lines_read s' = lines_read s.

(** The launch style the caller asks for passes [check_launch_mode]: the
    config has no [UseSlurm:] line, or it has [UseSlurm: true] and the caller
    asks for the batch queue, or [UseSlurm: false] and the caller asks for
    tmux. *)
Definition mode_accepted (use_slurm : option bool) (tmux : bool) : Prop :=
  match use_slurm with
  | None => True
  | Some b => b = negb tmux
  end.

(** The state after [os.makedirs(path, exist_ok=True)] went through. *)
Definition with_dir (path : string) (s : state) : state :=
  {| environ := environ s; fs := <[path := Dir]> (fs s); trace := trace s;
     clock := clock s; lines_read := lines_read s |}.

(** [keeps f m]: [m] leaves the part [f] of the state as it was. *)
Definition keeps {X A} (f : state -> X) (m : M A) : Prop :=
  forall s, f (snd (m s)) = f s.

(** The candidate names of the result directory after the base name. *)
Definition suffixed (base : string) (k : Z) : string := base +:+ "_" +:+ Py.str_int k.

(** The text after the first colon of a line, and the name a [RunName:]
    line declares. *)
Definition declared_value (line : string) : string :=
  default EmptyString (Py.index (Py.split1 ":" line) 1).

Definition declared_run_name (line : string) : string :=
  run_name_of (declared_value line).

(** [config_stem] of [run_command]. *)
Definition stem_of (configfile : string) : string :=
  fst (OsPath.splitext (OsPath.basename configfile)).

(** The first command [transfer_item] runs for an item: the one of the
    branch the item takes. *)
Definition first_attempt (cfg : settings) (public_url local_dir : string)
    (item : string * string) : event :=
  let '(remote_path, local_subdir) := item in
  let local_target :=
    if Py.truthy local_subdir then OsPath.join local_dir local_subdir else local_dir in
  if Py.contains "*" remote_path then
    Subprocess CheckOutput (ssh_to cfg public_url ++ ["ls " +:+ remote_path])
  else if Py.endswith (OsPath.basename remote_path) ".yml" then
    Subprocess Run ["scp"; "-i"; SSH_KEY_PATH cfg;
                    "ubuntu@" +:+ public_url +:+ ":" +:+ remote_path;
                    OsPath.join local_dir "config.yml"]
  else if Py.contains "preview" remote_path || Py.contains "inversion" remote_path then
    Subprocess Run ["rsync"; "-azP"; "-e"; "ssh -i " +:+ SSH_KEY_PATH cfg;
                    "ubuntu@" +:+ public_url +:+ ":" +:+ remote_path +:+ "/";
                    local_target +:+ "/"]
  else
    Subprocess Run ["scp"; "-i"; SSH_KEY_PATH cfg;
                    "ubuntu@" +:+ public_url +:+ ":" +:+ remote_path; local_target].

(** The directory [copy_to_local] settles on, on the file system [files]. *)
Definition local_dir_for (files : gmap string fkind) (local_dir_base : string)
    (overwrite : bool) : string :=
  if overwrite then local_dir_base
  else default local_dir_base (free_dir (size files) files local_dir_base local_dir_base 1).

(** [os.makedirs(path, exist_ok=True)] goes through: [path] is a directory
    already, or it does not exist and nothing prevents its creation. *)
Definition creatable (w : world) (files : gmap string fkind) (path : string) : Prop :=
  files !! path = Some Dir \/ (files !! path = None /\ makedirs_error w path = None).

(** The simple commands of the line [instance_setup] sends, in order. *)
Definition setup_steps : list string :=
  [ "sudo apt remove -y tmux";
    "chmod +x tmux_install.sh"; "./tmux_install.sh";
    "chmod +x fixslurm.sh"; "./fixslurm.sh" ].

(** The events of [n] handshakes that failed, each followed by the pause. *)
Fixpoint failed_handshakes (cfg : settings) (public_dns : string) (n : nat) : list event :=
  match n with
  | O => []
  | S n' => Subprocess RunCheck (handshake cfg public_dns) :: Sleep 30
            :: failed_handshakes cfg public_dns n'
  end.

(** [n] handshakes in a row, from the state [s] on, end with a non-zero
    exit status. *)
Definition handshakes_fail (cfg : settings) (w : world) (public_dns : string)
    (n : nat) (s : state) : Prop :=
  forall k, (k < n)%nat ->
    exists status out,
      subprocess w (k + clock s) (handshake cfg public_dns) = inr (status, out)
      /\ status <> 0.

(** [create_instance], called without options in the state [s], gets the
    instance [instance_id] started, sees its status checks pass and finds its
    address [public_dns]. *)
Definition launched (cfg : settings) (w : world) (s : state)
    (instance_id public_dns : string) : Prop :=
  exists first rest inst more more',
    run_instances w (clock s) (default_run_args cfg) = inr (first :: rest)
    /\ InstanceId first = instance_id
    /\ wait_instance_status_ok w (S (clock s)) instance_id = None
    /\ describe_instances w (S (S (clock s))) (Some [instance_id])
       = inr ((inst :: more) :: more')
    /\ PublicDnsName inst = Some public_dns.

(** The state of [create_instance] when it starts to probe. *)
Definition probing (cfg : settings) (instance_id public_dns : string) (s : state) : state :=
  record [ Log INFO "🚀 Launching EC2 instance..." None;
           Api (RunInstances (default_run_args cfg));
           Log INFO ("🆔 Instance ID: " +:+ instance_id) None;
           Log INFO "⏳ Waiting for instance initialization (this may take a few minutes)..."
             None;
           Api (WaitInstanceStatusOk instance_id);
           Api (DescribeInstances (Some [instance_id]));
           Log INFO ("🌐 Public DNS: " +:+ public_dns) None;
           Log INFO "🔒 Testing SSH connectivity..." None ] 3 s.

(** ** Vocabulary of the further statements *)

(** The config [lines] have one [UseSlurm:] line, with the value [b], and
    their [RunName:] lines agree with the file name [stem]. *)
Definition declares_use_slurm (stem : string) (lines : list string) (b : bool) : Prop :=
  exists before line after,
    lines = (before ++ line :: after)%list
    /\ Forall (fun l => Py.startswith l "UseSlurm:" = false) (before ++ after)
    /\ Forall (fun l => Py.startswith l "RunName:" = true -> declared_run_name l = stem) lines
    /\ Py.startswith line "UseSlurm:" = true
    /\ Py.lower (Py.strip (declared_value line)) = (if b then "true" else "false").

(** The ways a command of the program may end: it returns or is still
    following the log, or it ends the process with exit status 1; no
    exception escapes. *)
Definition contained {A} (o : outcome A) : Prop :=
  match o with
  | Ret _ | Running => True
  | Exit status => status = 1
  | Raise _ => False
  end.

(** [m] ends the process with status 1 if it ends it at all. *)
Definition exits_with_1 {A} (m : M A) : Prop :=
  forall s status s', m s = (Exit status, s') -> status = 1.

(** A line of the log that the monitor prints and passes over: it is not
    empty, it is text, and it has no sentinel. *)
Definition ordinary_line (line : string) : Prop :=
  Py.truthy line = true /\ Py.decode line = Some line /\ is_sentinel line = false.

(** What the monitor prints for the [k] lines of the stream from the line
    [from] on. *)
Definition echo (w : world) (from k : nat) : list event :=
  map (fun j => Printed (Py.strip (readline w (from + j)))) (seq 0 k).

(** The state of the monitor after [k] ordinary lines. *)
Definition after_lines (w : world) (k : nat) (s : state) : state :=
  {| environ := environ s; fs := fs s; trace := trace s ++ echo w (lines_read s) k;
     clock := clock s; lines_read := lines_read s + k |}.

(** The two commands of the wildcard item of a retrieval: the remote listing
    and the copy of one listed file. *)
Definition remote_ls (cfg : settings) (public_url remote_path : string) : list string :=
  (ssh_to cfg public_url ++ ["ls " +:+ remote_path])%list.

Definition scp_from (cfg : settings) (public_url remote_file local_target : string)
    : list string :=
  ["scp"; "-i"; SSH_KEY_PATH cfg; "ubuntu@" +:+ public_url +:+ ":" +:+ remote_file;
   local_target].

(** Where an item of the manifest is copied to. *)
Definition local_target_of (local_dir local_subdir : string) : string :=
  if Py.truthy local_subdir then OsPath.join local_dir local_subdir else local_dir.

(** What [instance_setup] does for one of the files to copy, on the file
    system [files]: the copy if the file is there, a warning if not. *)
Definition setup_copy (cfg : settings) (public_url : string) (files : gmap string fkind)
    (item : string * string) : event :=
  let '(local_file, remote_path) := item in
  if bool_decide (is_Some (files !! local_file)) then
    Subprocess Run ["scp"; "-i"; SSH_KEY_PATH cfg; local_file;
                    "ubuntu@" +:+ public_url +:+ ":" +:+ remote_path]
  else Log WARNING ("Missing file: " +:+ local_file) None.

(** [m] leaves the environment variables as they were unless it returns
    [True]. *)
Definition environ_unless_true (m : M bool) : Prop :=
  forall s, fst (m s) = Ret true \/ environ (snd (m s)) = environ s.

(** The session after a lifecycle request on the current instance went
    through: the request is recorded, the success is logged and the two
    cached slots are emptied (not removed). *)
Definition acted (call : lifecycle_call) (message : string) (x : session) : session :=
  {| base := {| environ := <[PUBLIC_URL_VAR := EmptyString]>
                             (<[INSTANCE_ID_VAR := EmptyString]> (environ (base x)));
                fs := fs (base x);
                trace := trace (base x) ++ [Log INFO message None];
                clock := S (clock (base x));
                lines_read := lines_read (base x) |};
     requests := requests x ++ [call] |}.

(** The session after the provider refused the request with [e]. *)
Definition refused (call : lifecycle_call) (message : string) (e : exn) (x : session)
    : session :=
  {| base := {| environ := environ (base x);
                fs := fs (base x);
                trace := trace (base x) ++ [Log ERROR message (Some e)];
                clock := S (clock (base x));
                lines_read := lines_read (base x) |};
     requests := requests x ++ [call] |}.

(** A change of the state that makes no lifecycle request. *)
Definition on_base (f : state -> state) (x : session) : session :=
  {| base := f (base x); requests := requests x |}.

(** The commands look an instance up when they are given an index other
    than 0 or when no instance id is cached. *)
Definition looks_up (instance_no : Z) (x : session) : Prop :=
  instance_no <> 0 \/ Py.truthy_opt (environ (base x) !! INSTANCE_ID_VAR) = false.

(** The mirror of a remote directory into a local one. *)
Definition rsync_from (cfg : settings) (public_url remote_dir local_target : string)
    : list string :=
  ["rsync"; "-azP"; "-e"; "ssh -i " +:+ SSH_KEY_PATH cfg;
   "ubuntu@" +:+ public_url +:+ ":" +:+ remote_dir +:+ "/"; local_target +:+ "/"].

(** The first command of each item of a retrieval, in the order of the
    manifest.  [mirrored] says how the items after the first two that are
    neither the wildcard nor the config are fetched: with [rsync], as
    directories, or with a plain [scp]. *)
Definition transfers (cfg : settings) (public_url local_dir run_name : string)
    (mirrored : bool) : list event :=
  let remote_base := "/home/ubuntu/imi_output_dir/" +:+ run_name in
  let fetch remote_path local_target :=
    Subprocess Run (if mirrored then rsync_from cfg public_url remote_path local_target
                    else scp_from cfg public_url remote_path local_target) in
  [ Subprocess Run (rsync_from cfg public_url (remote_base +:+ "/preview")
                      (OsPath.join local_dir "preview"));
    Subprocess Run (rsync_from cfg public_url (remote_base +:+ "/inversion")
                      (OsPath.join local_dir "inversion"));
    fetch (remote_base +:+ "/hemco_prior_emis") (OsPath.join local_dir "hemco_prior_emis");
    fetch (remote_base +:+ "/archive_sf") (OsPath.join local_dir "archive_sf");
    fetch (remote_base +:+ "/imi_output.log") local_dir;
    fetch (remote_base +:+ "/StateVector.nc") local_dir;
    Subprocess CheckOutput (remote_ls cfg public_url (remote_base +:+ "/*.yml"));
    Subprocess Run (scp_from cfg public_url
                      (remote_base +:+ "/config_" +:+ run_name +:+ ".yml")
                      (OsPath.join local_dir "config.yml")) ].

(** ** Concrete environments *)

Module Examples.

Definition nl : string := String "010" EmptyString.

Definition cfg : settings :=
  {| AWS_REGION := "us-east-1";
     AMI_ID := "ami-0123456789abcdef0";
     INSTANCE_TYPE := "c5.9xlarge";
     LAUNCH_TEMPLATE_ID := "lt-0123456789abcdef0";
     SSH_KEY_PATH := "imikey.pem";
     LOCAL_DATA_PATH := "data";
     S3_DATA_PATH := "s3://imidata";
     SHAPEFILE := "region";
     STATE_VECTOR := "StateVector.nc" |}.

Definition inst_a : instance :=
  {| InstanceId := "i-0a";
     State_Name := "running";
     PublicDnsName := Some "ec2-a.compute.amazonaws.com";
     InstanceType := "c5.9xlarge";
     LaunchTime := "2025-03-01 08:00:00" |}.

Definition inst_b : instance :=
  {| InstanceId := "i-0b";
     State_Name := "pending";
     PublicDnsName := None;
     InstanceType := "c5.9xlarge";
     LaunchTime := "2025-03-02 09:30:00" |}.

Definition rows : list row := [row_of inst_a; row_of inst_b].

(** Three job configs: one for a tmux run, one without a [UseSlurm:] line,
    and one whose [RunName] is not the name of the file. *)
Definition files (path : string) : exn + (list string * option exn) :=
  if String.eqb path "run1.yml" then
    inr (["## IMI configuration" +:+ nl; "RunName: 'run1'" +:+ nl;
          "UseSlurm: false" +:+ nl], None)
  else if String.eqb path "run2.yml" then
    inr (["RunName: run2" +:+ nl; "isAWS: true" +:+ nl], None)
  else if String.eqb path "run3.yml" then
    inr (["RunName: Test_run" +:+ nl; "UseSlurm: true" +:+ nl], None)
  else inl (EnvError "FileNotFoundError" path).

Definition make (run : nat -> list string -> exn + (Z * string))
    (lines : nat -> string) (wait : option exn) : world :=
  {| describe_instances := fun _ _ => inr [[inst_a]; [inst_b]];
     run_instances := fun _ _ => inr [inst_a];
     wait_instance_status_ok := fun _ _ => wait;
     subprocess := run;
     readline := lines;
     open_file := files;
     json_options := fun _ => inr [];
     makedirs_error := fun _ => None |}.

Definition succeeds : nat -> list string -> exn + (Z * string) :=
  fun _ _ => inr (0, EmptyString).

Definition no_output : nat -> string := fun _ => EmptyString.

(** Every command succeeds and the log stream is empty. *)
Definition calm : world := make succeeds no_output None.

(** Every [scp] ends with exit status 1. *)
Definition scp_fails : world :=
  make (fun _ argv => match argv with
                      | "scp" :: _ => inr (1, EmptyString)
                      | _ => inr (0, EmptyString)
                      end) no_output None.

(** [rsync] cannot be started and every [scp] ends with exit status 1. *)
Definition transfers_fail : world :=
  make (fun _ argv => match argv with
                      | "rsync" :: _ => inl (EnvError "FileNotFoundError" "rsync")
                      | "scp" :: _ => inr (1, EmptyString)
                      | _ => inr (0, EmptyString)
                      end) no_output None.

(** A log with the results-ready marker on its second line. *)
Definition log_with_marker : world :=
  make succeeds
    (fun n => match n with
              | 0%nat => "Iteration 1 of 3" +:+ nl
              | 1%nat => "Posterior simulation finished" +:+ nl
              | _ => "cleaning up" +:+ nl
              end) None.

(** A command ends with status 255 as long as fewer than thirteen provider
    and subprocess calls were made before it: the ten handshakes of
    [create_instance] (its calls 4 to 13) all fail. *)
Definition ssh_down : world :=
  make (fun t _ => if (t <? 13)%nat then inr (255, EmptyString) else inr (0, EmptyString))
    no_output None.

(** The same with one failure less: the tenth handshake succeeds. *)
Definition ssh_late : world :=
  make (fun t _ => if (t <? 12)%nat then inr (255, EmptyString) else inr (0, EmptyString))
    no_output None.

(** The provider's waiter gives up. *)
Definition status_timeout : world :=
  make succeeds no_output
    (Some (EnvError "WaiterError" "Waiter InstanceStatusOk failed: Max attempts exceeded")).

Definition fresh : state :=
  {| environ := ∅; fs := ∅; trace := []; clock := 0; lines_read := 0 |}.

(** The first instance is the current one. *)
Definition cached : state :=
  {| environ := <[PUBLIC_URL_VAR := "ec2-a.compute.amazonaws.com"]>
                  (<[INSTANCE_ID_VAR := "i-0a"]> ∅);
     fs := ∅; trace := []; clock := 0; lines_read := 0 |}.

(** The results of [run1] were retrieved once, then twice. *)
Definition retrieved_once : state :=
  {| environ := ∅; fs := <["data/run1" := Dir]> ∅; trace := []; clock := 0;
     lines_read := 0 |}.

Definition retrieved_twice : state :=
  {| environ := ∅; fs := <["data/run1_1" := Dir]> (<["data/run1" := Dir]> ∅);
     trace := []; clock := 0; lines_read := 0 |}.

(** The first setup command fails, the others would succeed. *)
Definition apt_fails (command : string) : Z :=
  if String.eqb command "sudo apt remove -y tmux" then 100 else 0.

End Examples.

(** ** More concrete environments *)

Module Scenes.

Import Examples.

(** The error of a provider that refuses a request. *)
Definition unauthorized : exn :=
  EnvError "ClientError" "UnauthorizedOperation".

(** Every command succeeds; the job configs all have the given lines. *)
Definition with_config (lines : list string) : world :=
  {| describe_instances := fun _ _ => inr [[inst_a]; [inst_b]];
     run_instances := fun _ _ => inr [inst_a];
     wait_instance_status_ok := fun _ _ => None;
     subprocess := succeeds;
     readline := no_output;
     open_file := fun _ => inr (lines, None);
     json_options := fun _ => inr [];
     makedirs_error := fun _ => None |}.

Definition odd_config : list string :=
  ["RunName: run4" +:+ nl; "UseSlurm: yes" +:+ nl].

(** A log whose second line is not text: the byte 255 is in no UTF-8
    sequence.  The marker comes after it. *)
Definition binary_log : world :=
  make succeeds
    (fun n => match n with
              | 0%nat => "Iteration 1 of 3" +:+ nl
              | 1%nat => String "255" ("garbled" +:+ nl)
              | _ => "Posterior simulation finished" +:+ nl
              end) None.

(** A log stream that ends after one line. *)
Definition short_log : world :=
  make succeeds
    (fun n => match n with
              | 0%nat => "Iteration 1 of 3" +:+ nl
              | _ => EmptyString
              end) None.

(** The remote listing finds two config files; the copies succeed. *)
Definition two_configs : world :=
  make (fun _ argv => match argv with
                      | "ssh" :: _ =>
                          inr (0, "/home/ubuntu/imi_output_dir/run1/config_run1.yml" +:+ nl
                                  +:+ "/home/ubuntu/imi_output_dir/run1/kalman.yml" +:+ nl)
                      | _ => inr (0, EmptyString)
                      end) no_output None.

(** The remote listing finds nothing: [ls] ends with status 2. *)
Definition no_configs : world :=
  make (fun _ argv => match argv with
                      | "ssh" :: _ => inr (2, EmptyString)
                      | _ => inr (0, EmptyString)
                      end) no_output None.

(** The options of the command line are not JSON. *)
Definition bad_options : world :=
  {| describe_instances := fun _ _ => inr [[inst_a]; [inst_b]];
     run_instances := fun _ _ => inr [inst_a];
     wait_instance_status_ok := fun _ _ => None;
     subprocess := succeeds;
     readline := no_output;
     open_file := files;
     json_options := fun _ => inl (JSONDecodeError "Expecting value: line 1 column 1 (char 0)");
     makedirs_error := fun _ => None |}.

(** The new instance is described without a public DNS name. *)
Definition no_address : world :=
  {| describe_instances := fun _ _ => inr [[inst_b]];
     run_instances := fun _ _ => inr [inst_b];
     wait_instance_status_ok := fun _ _ => None;
     subprocess := succeeds;
     readline := no_output;
     open_file := files;
     json_options := fun _ => inr [];
     makedirs_error := fun _ => None |}.

(** One instance, stopped; a stopped instance has an empty address. *)
Definition inst_c : instance :=
  {| InstanceId := "i-0c";
     State_Name := "stopped";
     PublicDnsName := Some EmptyString;
     InstanceType := "c5.9xlarge";
     LaunchTime := "2025-03-03 10:00:00" |}.

Definition stopped_only : world :=
  {| describe_instances := fun _ _ => inr [[inst_c]];
     run_instances := fun _ _ => inr [inst_c];
     wait_instance_status_ok := fun _ _ => None;
     subprocess := succeeds;
     readline := no_output;
     open_file := files;
     json_options := fun _ => inr [];
     makedirs_error := fun _ => None |}.

(** A provider that accepts every lifecycle request and has two active spot
    requests, and one that refuses everything. *)
Definition obliging : provider :=
  {| terminate_instances := fun _ _ => None;
     stop_instances := fun _ _ => None;
     start_instances := fun _ _ => None;
     describe_spot_instance_requests := fun _ => inr ["sir-01"; "sir-02"];
     cancel_spot_instance_requests := fun _ _ => None |}.

Definition denying : provider :=
  {| terminate_instances := fun _ _ => Some unauthorized;
     stop_instances := fun _ _ => Some unauthorized;
     start_instances := fun _ _ => Some unauthorized;
     describe_spot_instance_requests := fun _ => inl unauthorized;
     cancel_spot_instance_requests := fun _ _ => Some unauthorized |}.

(** A session that starts with the first instance cached, and one that
    starts with nothing cached. *)
Definition with_cache : session := {| base := cached; requests := [] |}.
Definition without_cache : session := {| base := fresh; requests := [] |}.

End Scenes.

(** * Properties *)

(** ** Stepping through a computation *)

Lemma step_bind {A B} (m : M A) (k : A -> M B) s a s1 :
  m s = (Ret a, s1) -> bind m k s = k a s1.
Proof. intros H. unfold bind. now rewrite H. Qed.

Lemma step_bind_raise {A B} (m : M A) (k : A -> M B) s e s1 :
  m s = (Raise e, s1) -> bind m k s = (Raise e, s1).
Proof. intros H. unfold bind. now rewrite H. Qed.

Lemma step_bind_exit {A B} (m : M A) (k : A -> M B) s n s1 :
  m s = (Exit n, s1) -> bind m k s = (Exit n, s1).
Proof. intros H. unfold bind. now rewrite H. Qed.

Lemma step_try_bind {A B} (m : M A) (k : A -> M B) h s a s1 :
  m s = (Ret a, s1) -> try_except (bind m k) h s = try_except (k a) h s1.
Proof. intros H. unfold try_except, bind. now rewrite H. Qed.

Lemma step_try_bind_raise {A B} (m : M A) (k : A -> M B) h s e s1 :
  m s = (Raise e, s1) -> try_except (bind m k) h s = h e s1.
Proof. intros H. unfold try_except, bind. now rewrite H. Qed.

Lemma step_try_bind_exit {A B} (m : M A) (k : A -> M B) h s n s1 :
  m s = (Exit n, s1) -> try_except (bind m k) h s = (Exit n, s1).
Proof. intros H. unfold try_except, bind. now rewrite H. Qed.

Lemma state_eta (s : state) :
  {| environ := environ s; fs := fs s; trace := trace s; clock := clock s;
     lines_read := lines_read s |} = s.
Proof. now destruct s. Qed.

Lemma bind_emit {B} (e : event) (k : unit -> M B) (s : state) :
  bind (emit e) k s = k tt (record [e] 0 s).
Proof. reflexivity. Qed.

Lemma try_bind_emit {A B} (ev : event) (k1 : unit -> M A) (k2 : A -> M B) h s :
  try_except (bind (bind (emit ev) k1) k2) h s
  = try_except (bind (k1 tt) k2) h (record [ev] 0 s).
Proof. reflexivity. Qed.

Lemma try_bind_emit' {B} (ev : event) (k : unit -> M B) h s :
  try_except (bind (emit ev) k) h s = try_except (k tt) h (record [ev] 0 s).
Proof. reflexivity. Qed.

Lemma record_record evs1 n1 evs2 n2 s :
  record evs2 n2 (record evs1 n1 s) = record (evs1 ++ evs2) (n2 + n1) s.
Proof. unfold record. cbn. f_equal; [now rewrite app_assoc | lia]. Qed.

Lemma record_nil s : record [] 0 s = s.
Proof. unfold record. cbn. rewrite app_nil_r. apply state_eta. Qed.

(** ** Calls into the environment *)

Section Calls.

Variable w : world.

Lemma subprocess_run_ok argv s x :
  subprocess w (clock s) argv = inr x ->
  subprocess_run w argv s = (Ret (fst x), record [Subprocess Run argv] 1 s).
Proof. intros H. unfold subprocess_run, bind, emit, tick. cbn. now rewrite H. Qed.

Lemma subprocess_run_raises argv s e :
  subprocess w (clock s) argv = inl e ->
  subprocess_run w argv s = (Raise e, record [Subprocess Run argv] 1 s).
Proof. intros H. unfold subprocess_run, bind, emit, tick. cbn. now rewrite H. Qed.

Lemma subprocess_run_check_ok argv s out :
  subprocess w (clock s) argv = inr (0, out) ->
  subprocess_run_check w argv s = (Ret tt, record [Subprocess RunCheck argv] 1 s).
Proof. intros H. unfold subprocess_run_check, bind, emit, tick. cbn. now rewrite H. Qed.

Lemma subprocess_run_check_fails argv s status out :
  subprocess w (clock s) argv = inr (status, out) -> status <> 0 ->
  subprocess_run_check w argv s
  = (Raise (CalledProcessError argv status), record [Subprocess RunCheck argv] 1 s).
Proof.
  intros H Hne. unfold subprocess_run_check, bind, emit, tick. cbn. rewrite H. cbn.
  destruct (Z.eqb_spec status 0); [contradiction | reflexivity].
Qed.

Lemma subprocess_Popen_ok argv s x :
  subprocess w (clock s) argv = inr x ->
  subprocess_Popen w argv s = (Ret tt, record [Subprocess Popen argv] 1 s).
Proof. intros H. unfold subprocess_Popen, bind, emit, tick. cbn. now rewrite H. Qed.

Lemma ec2_run_instances_ok run_args s response :
  run_instances w (clock s) run_args = inr response ->
  ec2_run_instances w run_args s = (Ret response, record [Api (RunInstances run_args)] 1 s).
Proof. intros H. unfold ec2_run_instances, bind, emit, tick. cbn. now rewrite H. Qed.

Lemma waiter_wait_ok instance_id s :
  wait_instance_status_ok w (clock s) instance_id = None ->
  waiter_wait w instance_id s = (Ret tt, record [Api (WaitInstanceStatusOk instance_id)] 1 s).
Proof. intros H. unfold waiter_wait, bind, emit, tick. cbn. now rewrite H. Qed.

Lemma waiter_wait_raises instance_id s e :
  wait_instance_status_ok w (clock s) instance_id = Some e ->
  waiter_wait w instance_id s
  = (Raise e, record [Api (WaitInstanceStatusOk instance_id)] 1 s).
Proof. intros H. unfold waiter_wait, bind, emit, tick. cbn. now rewrite H. Qed.

Lemma ec2_describe_instances_ok ids s response :
  describe_instances w (clock s) ids = inr response ->
  ec2_describe_instances w ids s
  = (Ret response, record [Api (DescribeInstances ids)] 1 s).
Proof. intros H. unfold ec2_describe_instances, bind, emit, tick. cbn. now rewrite H. Qed.

End Calls.

(** ** Steps that return or raise *)

Lemma retrievals_app (a b : list event) :
  retrievals (a ++ b) = (retrievals a + retrievals b)%nat.
Proof. unfold retrievals. now rewrite filter_app, length_app. Qed.

Lemma returns_plain {A} (m : M A) : returns m -> plain m.
Proof.
  intros H s. destruct (H s) as (a & s' & evs & Hm & Ht & Hr & Hl).
  exists (Ret a), s', evs. auto.
Qed.

Lemma returns_ret {A} (a : A) : returns (ret a).
Proof. intros s. exists a, s, []. rewrite app_nil_r. auto. Qed.

Lemma plain_raise {A} (e : exn) : plain (@raise A e).
Proof. intros s. exists (Raise e), s, []. rewrite app_nil_r. auto. Qed.

Lemma returns_emit (e : event) : is_EnterCopyToLocal e = false -> returns (emit e).
Proof.
  intros He s. eexists tt, _, [e]. cbn. repeat split; auto.
  unfold retrievals. cbn. rewrite decide_False; [reflexivity|]. now rewrite He.
Qed.

Lemma returns_tick : returns tick.
Proof. intros s. eexists _, _, []. cbn. rewrite app_nil_r. auto. Qed.

Lemma returns_getenv name : returns (getenv name).
Proof. intros s. eexists _, _, []. cbn. rewrite app_nil_r. auto. Qed.

Lemma returns_setenv name value : returns (setenv name value).
Proof. intros s. eexists _, _, []. cbn. rewrite app_nil_r. auto. Qed.

Lemma returns_path_exists path : returns (path_exists path).
Proof. intros s. eexists _, _, []. cbn. rewrite app_nil_r. auto. Qed.

Lemma plain_lift_result {A} (r : exn + A) : plain (lift_result r).
Proof. destruct r; [apply plain_raise | apply returns_plain, returns_ret]. Qed.

Lemma plain_from_option {A} (e : exn) (o : option A) : plain (from_option ret (raise e) o).
Proof. destruct o; [apply returns_plain, returns_ret | apply plain_raise]. Qed.

Lemma plain_bind {A B} (m : M A) (k : A -> M B) :
  plain m -> (forall a, plain (k a)) -> plain (bind m k).
Proof.
  intros Hm Hk s. unfold bind.
  destruct (Hm s) as (o & s1 & evs1 & E1 & T1 & R1 & L1 & O1). rewrite E1.
  destruct o as [a|e| |]; try contradiction.
  - destruct (Hk a s1) as (o2 & s2 & evs2 & E2 & T2 & R2 & L2 & O2).
    exists o2, s2, (evs1 ++ evs2). rewrite E2, T2, T1, L2, L1, retrievals_app, R1, R2.
    rewrite app_assoc. auto.
  - exists (Raise e), s1, evs1. auto.
Qed.

Lemma returns_bind {A B} (m : M A) (k : A -> M B) :
  returns m -> (forall a, returns (k a)) -> returns (bind m k).
Proof.
  intros Hm Hk s. unfold bind.
  destruct (Hm s) as (a & s1 & evs1 & E1 & T1 & R1 & L1). rewrite E1.
  destruct (Hk a s1) as (b & s2 & evs2 & E2 & T2 & R2 & L2).
  exists b, s2, (evs1 ++ evs2). rewrite E2, T2, T1, L2, L1, retrievals_app, R1, R2.
  rewrite app_assoc. auto.
Qed.

Lemma plain_try_except {A} (m : M A) (h : exn -> M A) :
  plain m -> (forall e, plain (h e)) -> plain (try_except m h).
Proof.
  intros Hm Hh s. unfold try_except.
  destruct (Hm s) as (o & s1 & evs1 & E1 & T1 & R1 & L1 & O1). rewrite E1.
  destruct o as [a|e| |]; try contradiction.
  - exists (Ret a), s1, evs1. auto.
  - destruct (Hh e s1) as (o2 & s2 & evs2 & E2 & T2 & R2 & L2 & O2).
    exists o2, s2, (evs1 ++ evs2). rewrite E2, T2, T1, L2, L1, retrievals_app, R1, R2.
    rewrite app_assoc. auto.
Qed.

Lemma returns_try_except {A} (m : M A) (h : exn -> M A) :
  plain m -> (forall e, returns (h e)) -> returns (try_except m h).
Proof.
  intros Hm Hh s. unfold try_except.
  destruct (Hm s) as (o & s1 & evs1 & E1 & T1 & R1 & L1 & O1). rewrite E1.
  destruct o as [a|e| |]; try contradiction.
  - exists a, s1, evs1. auto.
  - destruct (Hh e s1) as (b & s2 & evs2 & E2 & T2 & R2 & L2).
    exists b, s2, (evs1 ++ evs2). rewrite E2, T2, T1, L2, L1, retrievals_app, R1, R2.
    rewrite app_assoc. auto.
Qed.

Lemma plain_for_each {A} (l : list A) (body : A -> M unit) :
  (forall x, plain (body x)) -> plain (for_each l body).
Proof.
  intros Hb. induction l as [|x l IH]; cbn.
  - apply returns_plain, returns_ret.
  - apply plain_bind; auto.
Qed.

Lemma returns_for_each {A} (l : list A) (body : A -> M unit) :
  (forall x, returns (body x)) -> returns (for_each l body).
Proof.
  intros Hb. induction l as [|x l IH]; cbn.
  - apply returns_ret.
  - apply returns_bind; auto.
Qed.

Create HintDb effects.
#[local] Hint Resolve returns_ret plain_raise returns_tick returns_getenv returns_setenv
  returns_path_exists plain_lift_result plain_from_option : effects.
#[local] Hint Extern 1 (returns (emit _)) => (apply returns_emit; reflexivity) : effects.
#[local] Hint Extern 1 (returns (log _ _)) => (apply returns_emit; reflexivity) : effects.
#[local] Hint Extern 1 (returns (log_exn _ _ _)) => (apply returns_emit; reflexivity) : effects.
#[local] Hint Extern 1 (returns (print _)) => (apply returns_emit; reflexivity) : effects.

(** One tactic for all the steps: split binds, handlers and loops, case on
    the tests, and close the leaves with the hints above. *)
Ltac effects :=
  repeat first
    [ progress intros
    | solve [auto with effects]
    | solve [apply returns_plain; auto with effects]
    | match goal with
      | |- returns (bind _ _) => apply returns_bind
      | |- returns (try_except _ _) => apply returns_try_except
      | |- returns (for_each _ _) => apply returns_for_each
      | |- plain (bind _ _) => apply plain_bind
      | |- plain (try_except _ _) => apply plain_try_except
      | |- plain (for_each _ _) => apply plain_for_each
      | |- returns (if ?b then _ else _) => destruct b
      | |- plain (if ?b then _ else _) => destruct b
      | |- returns (match ?x with _ => _ end) => destruct x
      | |- plain (match ?x with _ => _ end) => destruct x
      | |- plain (ret _) => apply returns_plain
      | |- plain (emit _) => apply returns_plain
      | |- plain (log _ _) => apply returns_plain
      | |- plain (log_exn _ _ _) => apply returns_plain
      | |- plain (print _) => apply returns_plain
      | |- returns (let _ := _ in _) => cbv zeta
      | |- plain (let _ := _ in _) => cbv zeta
      end ].

Section Effects.

Variable cfg : settings.
Variable w : world.

Lemma plain_subprocess_run argv : plain (subprocess_run w argv).
Proof. unfold subprocess_run. effects. Qed.

Lemma plain_subprocess_run_check argv : plain (subprocess_run_check w argv).
Proof. unfold subprocess_run_check. effects. Qed.

Lemma plain_subprocess_check_output argv : plain (subprocess_check_output w argv).
Proof. unfold subprocess_check_output. effects. Qed.

Lemma plain_subprocess_Popen argv : plain (subprocess_Popen w argv).
Proof. unfold subprocess_Popen. effects. Qed.

Lemma plain_decode b : plain (decode b).
Proof. unfold decode. effects. Qed.

Lemma plain_makedirs path : plain (makedirs w path).
Proof.
  intros s. unfold makedirs.
  destruct (fs s !! path) as [[|]|].
  - eexists _, _, []. rewrite app_nil_r. repeat split; auto.
  - eexists _, _, []. rewrite app_nil_r. repeat split; auto.
  - destruct (makedirs_error w path).
    + eexists _, _, []. rewrite app_nil_r. repeat split; auto.
    + eexists _, _, []. cbn. rewrite app_nil_r. repeat split; auto.
Qed.

Lemma returns_get_instance instance_no : returns (get_instance w instance_no).
Proof.
  unfold get_instance, ec2_describe_instances. effects.
Qed.


End Effects.

#[local] Hint Resolve plain_subprocess_run plain_subprocess_run_check
  plain_subprocess_check_output plain_subprocess_Popen plain_decode plain_makedirs
  returns_get_instance : effects.

(** ** Steps that leave a part of the state alone *)

Lemma keeps_ret {X A} (f : state -> X) (a : A) : keeps f (ret a).
Proof. intros s. reflexivity. Qed.

Lemma keeps_raise {X A} (f : state -> X) (e : exn) : keeps f (@raise A e).
Proof. intros s. reflexivity. Qed.

Lemma keeps_bind {X A B} (f : state -> X) (m : M A) (k : A -> M B) :
  keeps f m -> (forall a, keeps f (k a)) -> keeps f (bind m k).
Proof.
  intros Hm Hk s. unfold bind. specialize (Hm s).
  destruct (m s) as [[a|e|n|] s1]; cbn in *; try exact Hm.
  now rewrite Hk.
Qed.

Lemma keeps_try_except {X A} (f : state -> X) (m : M A) (h : exn -> M A) :
  keeps f m -> (forall e, keeps f (h e)) -> keeps f (try_except m h).
Proof.
  intros Hm Hh s. unfold try_except. specialize (Hm s).
  destruct (m s) as [[a|e|n|] s1]; cbn in *; try exact Hm.
  now rewrite Hh.
Qed.

Lemma keeps_for_each {X A} (f : state -> X) (l : list A) (body : A -> M unit) :
  (forall x, keeps f (body x)) -> keeps f (for_each l body).
Proof.
  intros Hb. induction l as [|x l IH]; cbn.
  - apply keeps_ret.
  - apply keeps_bind; auto.
Qed.

Lemma keeps_lift_result {X A} (f : state -> X) (r : exn + A) : keeps f (lift_result r).
Proof. destruct r; intros s; reflexivity. Qed.

Lemma keeps_from_option {X A} (f : state -> X) (e : exn) (o : option A) :
  keeps f (from_option ret (raise e) o).
Proof. destruct o; intros s; reflexivity. Qed.

Ltac keeps :=
  repeat first
    [ progress intros
    | match goal with
      | |- keeps _ (bind _ _) => apply keeps_bind
      | |- keeps _ (try_except _ _) => apply keeps_try_except
      | |- keeps _ (for_each _ _) => apply keeps_for_each
      | |- keeps _ (lift_result _) => apply keeps_lift_result
      | |- keeps _ (from_option _ _ _) => apply keeps_from_option
      | |- keeps _ (if ?b then _ else _) => destruct b
      | |- keeps _ (match ?x with _ => _ end) => destruct x
      | |- keeps _ (let _ := _ in _) => cbv zeta
      | |- keeps _ (ret _) => apply keeps_ret
      | |- keeps _ (raise _) => apply keeps_raise
      | |- keeps _ (emit _) => intros ?; reflexivity
      | |- keeps _ (log _ _) => intros ?; reflexivity
      | |- keeps _ (log_exn _ _ _) => intros ?; reflexivity
      | |- keeps _ (print _) => intros ?; reflexivity
      | |- keeps _ tick => intros ?; reflexivity
      | |- keeps _ (getenv _) => intros ?; reflexivity
      | |- keeps _ (setenv _ _) => intros ?; reflexivity
      | |- keeps _ (path_exists _) => intros ?; reflexivity
      | |- keeps _ (subprocess_run _ _) => unfold subprocess_run
      | |- keeps _ (subprocess_run_check _ _) => unfold subprocess_run_check
      | |- keeps _ (subprocess_check_output _ _) => unfold subprocess_check_output
      | |- keeps _ (subprocess_Popen _ _) => unfold subprocess_Popen
      | |- keeps _ (decode _) => unfold decode
      end ].

(** ** Instance selection (claim C3) *)

Ltac norm_trace := rewrite <- ?app_assoc; cbn [app].

Lemma get_instance_selects (w : world) (instance_no : Z) (s : state) rows r :
  listing w (clock s) rows ->
  instance_no < Z.of_nat (length rows) ->
  Py.index rows instance_no = Some r ->
  get_instance w instance_no s
  = (Ret (Some (state_ r)), selected rows instance_no r s).
Proof.
  intros [resp [Hd Hb]] Hlt Hix.
  unfold get_instance, try_except, ec2_describe_instances, bind, emit, tick, lift_result.
  cbn. rewrite Hd. cbn. rewrite Hb.
  destruct rows as [|r0 rows']; [destruct instance_no; discriminate|].
  cbn. destruct (Z.geb_spec instance_no (Z.of_nat (S (length rows')))) as [Hge|_].
  { cbn [length] in Hlt. lia. }
  rewrite Hix. cbn. unfold selected, selection_trace. norm_trace. reflexivity.
Qed.

(** Whatever the provider answers, [get_instance] returns (it neither raises
    nor exits), makes one provider call, leaves the file system and the log
    stream alone, and calls no retrieval; when it returns no state, the two
    cached slots are as they were. *)
Lemma get_instance_frame (w : world) (instance_no : Z) (s : state) :
  exists o evs env',
    get_instance w instance_no s
    = (Ret o, {| environ := env'; fs := fs s; trace := trace s ++ evs;
                 clock := S (clock s); lines_read := lines_read s |})
    /\ retrievals evs = 0%nat
    /\ (o = None -> env' = environ s).
Proof.
  unfold get_instance, try_except, ec2_describe_instances, bind, emit, tick, lift_result.
  cbn. destruct (describe_instances w (clock s) None) as [e|resp]; cbn.
  { eexists _, _, _. norm_trace. split; [reflexivity|]. split; [reflexivity|auto]. }
  destruct (build_instances resp) as [|r0 rows']; cbn.
  { eexists _, _, _. norm_trace. split; [reflexivity|]. split; [reflexivity|auto]. }
  destruct (instance_no >=? Z.of_nat (S (length rows'))); cbn.
  { eexists _, _, _. norm_trace. split; [reflexivity|]. split; [reflexivity|auto]. }
  destruct (Py.index (r0 :: rows') instance_no) as [r|]; cbn.
  - eexists _, _, _. norm_trace. split; [reflexivity|]. split; [reflexivity|discriminate].
  - eexists _, _, _. norm_trace. split; [reflexivity|]. split; [reflexivity|auto].
Qed.

(** The listing is indexed the way Python indexes a list. *)
Lemma get_instance_negative_index (w : world) (instance_no : Z) (s : state) rows r :
  listing w (clock s) rows ->
  - Z.of_nat (length rows) <= instance_no < 0 ->
  rows !! Z.to_nat (Z.of_nat (length rows) + instance_no) = Some r ->
  get_instance w instance_no s = (Ret (Some (state_ r)), selected rows instance_no r s).
Proof.
  intros Hl Hrange Hr. apply get_instance_selects; [exact Hl | lia |].
  unfold Py.index. destruct (Z.leb_spec 0 instance_no); [lia|].
  destruct (Z.leb_spec (- Z.of_nat (length rows)) instance_no); [exact Hr | lia].
Qed.

(** An index at or above the number of instances, an index below minus that
    number, and an empty listing: no state is returned and the two cached
    slots (the whole environment) stay as they were. *)
Lemma get_instance_rejects (w : world) (instance_no : Z) (s : state) rows :
  listing w (clock s) rows ->
  Z.of_nat (length rows) <= instance_no \/ instance_no < - Z.of_nat (length rows) ->
  exists evs, get_instance w instance_no s = (Ret None, record evs 1 s).
Proof.
  intros [resp [Hd Hb]] Hrange.
  unfold get_instance, try_except, ec2_describe_instances, bind, emit, tick, lift_result.
  cbn. rewrite Hd. cbn. rewrite Hb.
  destruct rows as [|r0 rows'].
  { eexists. unfold record. cbn. rewrite <- !app_assoc. reflexivity. }
  cbn. destruct (Z.geb_spec instance_no (Z.of_nat (S (length rows')))) as [Hge|Hlt].
  { eexists. unfold record. cbn. rewrite <- !app_assoc. reflexivity. }
  assert (Py.index (r0 :: rows') instance_no = None) as ->.
  { unfold Py.index. cbn [length] in *.
    destruct (Z.leb_spec 0 instance_no); [lia|].
    destruct (Z.leb_spec (- Z.of_nat (S (length rows'))) instance_no); [lia|reflexivity]. }
  eexists. unfold record. cbn. rewrite <- !app_assoc. reflexivity.
Qed.

(** C3 (the code misses a case of the claim).  The claim wants every index
    outside [0 <= index < count] refused with the cached slots untouched.
    [get_instance] only tests [instance_no >= len(instances)]: with two
    instances listed and the first one cached, the index [-1] is accepted,
    the state of the last instance is returned and both slots are
    overwritten with the last instance's id and address. *)
Theorem get_instance_minus_one_selects_last :
  let result := get_instance Examples.calm (-1) Examples.cached in
  environ Examples.cached !! INSTANCE_ID_VAR = Some "i-0a"
  /\ fst result = Ret (Some "pending")
  /\ environ (snd result) !! INSTANCE_ID_VAR = Some "i-0b"
  /\ environ (snd result) !! PUBLIC_URL_VAR = Some "N/A".
Proof.
  cbv zeta.
  rewrite (get_instance_negative_index Examples.calm (-1) Examples.cached
             Examples.rows (row_of Examples.inst_b)).
  - repeat split; reflexivity.
  - exists [[Examples.inst_a]; [Examples.inst_b]]. split; reflexivity.
  - cbn. lia.
  - reflexivity.
Qed.

(** ** The directory a retrieval writes to *)

Lemma string_length_app (a b : string) :
  String.length (a +:+ b) = (String.length a + String.length b)%nat.
Proof.
  induction a as [|c a IH]; [reflexivity|].
  change (String c a +:+ b) with (String c (a +:+ b)). cbn [String.length Nat.add].
  now rewrite IH.
Qed.

Lemma suffixed_not_base base k : suffixed base k <> base.
Proof.
  unfold suffixed. intros H. apply (f_equal String.length) in H.
  rewrite !string_length_app in H. cbn in H. lia.
Qed.

Lemma suffixed_inj base j k : suffixed base j = suffixed base k -> j = k.
Proof.
  unfold suffixed, Py.str_int. intros H.
  apply String.app_inj in H. apply String.app_inj in H.
  now apply pretty_Z_inj in H.
Qed.

Section FreeDir.

Variable files : gmap string fkind.
Variable base : string.

Lemma free_dir_enough_fuel (fuel : nat) : forall (R : gset string) d c,
  (forall j, c <= j -> suffixed base j <> d) ->
  (forall p, p = d \/ (exists j, c <= j /\ p = suffixed base j) ->
             is_Some (files !! p) -> p ∈ R) ->
  (size R <= fuel)%nat ->
  is_Some (free_dir fuel files base d c).
Proof.
  induction fuel as [|fuel IH]; intros R d c Hfresh Hin Hsize; cbn.
  - case_bool_decide as Hd; [|eauto].
    assert (d ∈ R) as HdR by (apply Hin; auto).
    assert (size R ≠ 0%nat) as Hne.
    { apply size_non_empty_iff. intros Hempty. rewrite Hempty in HdR.
      now apply not_elem_of_empty in HdR. }
    lia.
  - case_bool_decide as Hd; [|eauto].
    assert (d ∈ R) as HdR by (apply Hin; auto).
    apply (IH (R ∖ {[d]})).
    + intros j Hj Heq. apply suffixed_inj in Heq. lia.
    + intros p Hp Hex. apply elem_of_difference. split.
      * apply Hin; [|exact Hex]. right.
        destruct Hp as [->|[j [Hj ->]]]; [exists c; split; [lia|reflexivity]|].
        exists j. split; [lia|reflexivity].
      * rewrite elem_of_singleton. intros ->.
        destruct Hp as [Hp|[j [Hj Hp]]].
        -- apply (Hfresh c); [lia|]. symmetry. exact Hp.
        -- apply (Hfresh j); [lia|]. symmetry. exact Hp.
    + assert (size (R ∖ {[d]}) = (size R - 1)%nat) as Hs.
      { rewrite size_difference by now apply singleton_subseteq_l.
        now rewrite size_singleton. }
      assert (size R ≠ 0%nat) as Hne.
      { apply size_non_empty_iff. intros Hempty. rewrite Hempty in HdR.
        now apply not_elem_of_empty in HdR. }
      lia.
Qed.

(** The loop [while os.path.exists(local_dir)] ends: a file system holds
    finitely many paths, and the names the loop tries are all different. *)
Lemma free_dir_total : is_Some (free_dir (size files) files base base 1).
Proof.
  apply (free_dir_enough_fuel _ (dom files)).
  - intros j _. apply suffixed_not_base.
  - intros p _ Hex. now apply elem_of_dom.
  - now rewrite size_dom.
Qed.

Lemma free_dir_more_fuel (fuel : nat) : forall fuel' d c r,
  free_dir fuel files base d c = Some r -> (fuel <= fuel')%nat ->
  free_dir fuel' files base d c = Some r.
Proof.
  induction fuel as [|fuel IH]; intros fuel' d c r; cbn.
  - case_bool_decide as Hd; [discriminate|]. intros H _.
    destruct fuel'; cbn; now rewrite bool_decide_eq_false_2.
  - case_bool_decide as Hd.
    + intros H Hle. destruct fuel' as [|fuel']; [lia|]. cbn.
      rewrite bool_decide_eq_true_2 by exact Hd. apply IH; [exact H|lia].
    + intros H _. destruct fuel'; cbn; now rewrite bool_decide_eq_false_2.
Qed.

Lemma free_dir_counts (n : nat) : forall d c,
  is_Some (files !! d) ->
  (forall j, c <= j < c + Z.of_nat n -> is_Some (files !! suffixed base j)) ->
  files !! suffixed base (c + Z.of_nat n) = None ->
  free_dir (S n) files base d c = Some (suffixed base (c + Z.of_nat n)).
Proof.
  induction n as [|n IH]; intros d c Hd Hex Hfree.
  - replace (c + Z.of_nat 0) with c in * by lia.
    cbn. rewrite bool_decide_eq_true_2 by exact Hd.
    fold (suffixed base c).
    rewrite bool_decide_eq_false_2; [reflexivity|].
    rewrite Hfree. now intros [? ?].
  - change (free_dir (S (S n)) files base d c)
      with (if bool_decide (is_Some (files !! d))
            then free_dir (S n) files base (suffixed base c) (c + 1) else Some d).
    rewrite bool_decide_eq_true_2 by exact Hd.
    replace (c + Z.of_nat (S n)) with ((c + 1) + Z.of_nat n) in * by lia.
    apply IH.
    + apply Hex. lia.
    + intros j Hj. apply Hex. lia.
    + exact Hfree.
Qed.

(** The name the loop ends with is the first free one: the base name when
    it is free, otherwise the name with the least suffix [k >= 1] that does
    not exist. *)
Lemma free_dir_first_free (k : Z) :
  1 <= k ->
  is_Some (files !! base) ->
  (forall j, 1 <= j < k -> is_Some (files !! suffixed base j)) ->
  files !! suffixed base k = None ->
  free_dir (size files) files base base 1 = Some (suffixed base k).
Proof.
  intros Hk Hb Hex Hfree.
  destruct free_dir_total as [r Hr].
  pose proof (free_dir_counts (Z.to_nat (k - 1)) base 1 Hb) as Hc.
  replace (1 + Z.of_nat (Z.to_nat (k - 1))) with k in Hc by lia.
  specialize (Hc Hex Hfree).
  set (f := Nat.max (size files) (S (Z.to_nat (k - 1)))).
  pose proof (free_dir_more_fuel _ f _ _ _ Hr ltac:(lia)) as H1.
  pose proof (free_dir_more_fuel _ f _ _ _ Hc ltac:(lia)) as H2.
  rewrite Hr. congruence.
Qed.

Lemma free_dir_base_free :
  files !! base = None -> free_dir (size files) files base base 1 = Some base.
Proof.
  intros H. destruct (size files); cbn; rewrite bool_decide_eq_false_2; auto;
    rewrite H; now intros [? ?].
Qed.

End FreeDir.

(** ** [copy_to_local] (claims C7 and C8) *)

Section CopyToLocal.

Variable cfg : settings.
Variable w : world.

Lemma returns_transfer_item url dir item : returns (transfer_item cfg w url dir item).
Proof.
  unfold transfer_item. destruct item as [remote_path local_subdir].
  effects.
Qed.

Lemma returns_choose_local_dir base overwrite : returns (choose_local_dir base overwrite).
Proof.
  unfold choose_local_dir. destruct overwrite; [effects|].
  intros s. destruct (free_dir_total (fs s) base) as [d Hd]. rewrite Hd.
  assert (returns (log INFO ("Using new directory: " +:+ d) ;; ret d)) as H by effects.
  apply H.
Qed.

(** A call of [copy_to_local] always returns; it is one retrieval, and it
    reads nothing from the log stream. *)
Lemma copy_to_local_frame run_name instance_no overwrite s :
  exists o s' evs,
    copy_to_local cfg w run_name instance_no overwrite s = (Ret o, s')
    /\ trace s' = trace s ++ EnterCopyToLocal run_name instance_no overwrite :: evs
    /\ retrievals evs = 0%nat
    /\ lines_read s' = lines_read s.
Proof.
  unfold copy_to_local.
  match goal with |- context [bind (emit _) (fun _ => ?body)] =>
    assert (returns body) as Hbody end.
  { pose proof returns_choose_local_dir. pose proof returns_transfer_item. effects. }
  rewrite bind_emit.
  match goal with |- context [try_except ?m ?h ?s0] =>
    destruct (Hbody s0) as (o & s' & evs & E & T & R & L) end.
  rewrite E. exists o, s', evs. cbn in T, L. rewrite T, L, <- app_assoc. auto.
Qed.

End CopyToLocal.

Section Transfers.

Variable cfg : settings.
Variable w : world.

Lemma transfer_item_keeps_fs url dir item : keeps fs (transfer_item cfg w url dir item).
Proof. unfold transfer_item. destruct item. keeps. Qed.

Lemma transfer_item_keeps_environ url dir item :
  keeps environ (transfer_item cfg w url dir item).
Proof. unfold transfer_item. destruct item. keeps. Qed.

(** Whatever happens to it, an item of the manifest is attempted (the first
    command of its branch is run) and the loop goes on: the item's own
    handler catches every exception. *)
Lemma transfer_item_attempts url dir item s :
  exists s' evs,
    transfer_item cfg w url dir item s = (Ret tt, s')
    /\ trace s' = trace s ++ first_attempt cfg url dir item :: evs
    /\ fs s' = fs s /\ environ s' = environ s.
Proof.
  pose proof (transfer_item_keeps_fs url dir item s) as Hfs.
  pose proof (transfer_item_keeps_environ url dir item s) as Henv.
  revert Hfs Henv.
  unfold transfer_item, first_attempt. destruct item as [remote_path local_subdir].
  set (local_target := if Py.truthy local_subdir then _ else _).
  unfold subprocess_check_output, subprocess_run.
  repeat match goal with |- context [if ?b then _ else _] => destruct b end;
    rewrite try_bind_emit;
    match goal with |- context [try_except ?m ?h ?s0] =>
      let H := fresh in
      assert (returns (try_except m h)) as H by effects;
      destruct (H s0) as ([] & s' & evs & E & T & _); rewrite E; cbn [snd];
      intros Hfs Henv; exists s', evs; cbn in T; rewrite T, <- app_assoc; auto
    end.
Qed.

Lemma for_each_transfer_items url dir items : forall s,
  exists s' evs,
    for_each items (transfer_item cfg w url dir) s = (Ret tt, s')
    /\ trace s' = trace s ++ evs
    /\ map (first_attempt cfg url dir) items `sublist_of` evs
    /\ fs s' = fs s /\ environ s' = environ s.
Proof.
  induction items as [|item items IH]; intros s; cbn [for_each map].
  - exists s, []. rewrite app_nil_r. repeat split; auto.
  - destruct (transfer_item_attempts url dir item s) as (s1 & evs1 & E1 & T1 & F1 & V1).
    destruct (IH s1) as (s2 & evs2 & E2 & T2 & S2 & F2 & V2).
    unfold bind. rewrite E1, E2.
    exists s2, ((first_attempt cfg url dir item :: evs1) ++ evs2).
    rewrite T2, T1, <- app_assoc, F2, F1, V2, V1. repeat split; auto.
    cbn. apply sublist_skip. now apply sublist_inserts_l.
Qed.

End Transfers.

Section Retrieval.

Variable cfg : settings.
Variable w : world.

Lemma choose_local_dir_spec base overwrite s :
  choose_local_dir base overwrite s
  = (Ret (local_dir_for (fs s) base overwrite),
     if overwrite then s
     else record [Log INFO ("Using new directory: "
                            +:+ local_dir_for (fs s) base overwrite) None] 0 s).
Proof.
  unfold choose_local_dir, local_dir_for. destruct overwrite; [reflexivity|].
  destruct (free_dir_total (fs s) base) as [d Hd]. rewrite Hd. reflexivity.
Qed.

Lemma makedirs_creatable path s :
  creatable w (fs s) path -> makedirs w path s = (Ret tt, with_dir path s).
Proof.
  unfold makedirs, with_dir. intros [H|[H1 H2]].
  - rewrite H. rewrite insert_id by exact H. now rewrite state_eta.
  - now rewrite H1, H2.
Qed.

(** A retrieval that gets as far as its instance: the directory it returns,
    what it does to the file system, and the items it attempts. *)
Lemma copy_to_local_returns run_name instance_no overwrite s rows r :
  selects w (clock s) instance_no rows r ->
  usable r ->
  let local_dir :=
    local_dir_for (fs s) (OsPath.join (LOCAL_DATA_PATH cfg) run_name) overwrite in
  creatable w (fs s) local_dir ->
  exists s' evs,
    copy_to_local cfg w run_name instance_no overwrite s = (Ret (Some local_dir), s')
    /\ trace s' = trace s ++ evs
    /\ map (first_attempt cfg (public_dns r) local_dir) (transfer_items run_name)
         `sublist_of` evs
    /\ fs s' = <[local_dir := Dir]> (fs s).
Proof.
  intros (Hl & Hlt & Hix) [Hst Hdns] local_dir Hmk.
  unfold copy_to_local. rewrite bind_emit.
  erewrite step_try_bind by (apply get_instance_selects; eauto).
  cbn [Py.truthy_opt]. rewrite Hst. cbn [negb].
  erewrite step_try_bind by reflexivity.
  cbn [selected environ]. rewrite lookup_insert_eq.
  cbn [Py.truthy_opt default]. rewrite Hdns. cbn [negb].
  erewrite step_try_bind by apply choose_local_dir_spec.
  cbn [fs selected record]. fold local_dir.
  erewrite step_try_bind by (apply makedirs_creatable; destruct overwrite; exact Hmk).
  match goal with |- context [try_except _ _ ?s0] =>
    destruct (for_each_transfer_items cfg w (public_dns r) local_dir
                (transfer_items run_name) s0) as (s1 & evs1 & E1 & T1 & S1 & F1 & V1)
  end.
  erewrite step_try_bind by exact E1.
  set (attempts := map _ _) in *.
  exists (record [Log INFO ("Successfully copied all data to: " +:+ local_dir) None] 0 s1).
  clear E1 V1. destruct overwrite; cbn [with_dir selected record trace fs] in T1, F1.
  all: eexists; split; [reflexivity|].
  all: cbn [record trace fs]; rewrite T1, F1, <- !app_assoc.
  all: split; [reflexivity|]; split; [|reflexivity].
  all: apply (sublist_inserts_l [_]); apply sublist_inserts_l.
  - apply sublist_inserts_r. exact S1.
  - apply (sublist_inserts_l [_]). apply sublist_inserts_r. exact S1.
Qed.

End Retrieval.

(** C7.  Without the override, [copy_to_local] returns the base directory
    of the job when it is free, and otherwise the first free name among
    [base_1], [base_2], ...: [base_1] when only the base exists, [base_2]
    when the base and [base_1] exist.  With the override it returns the base
    directory itself, existing or not. *)
Theorem copy_to_local_directory_naming (cfg : settings) (w : world) (run_name : string)
    (instance_no : Z) (s : state) rows r :
  selects w (clock s) instance_no rows r ->
  usable r ->
  (forall path, makedirs_error w path = None) ->
  let base := OsPath.join (LOCAL_DATA_PATH cfg) run_name in
  let chosen overwrite := fst (copy_to_local cfg w run_name instance_no overwrite s) in
  (is_Some (fs s !! base) -> fs s !! (base +:+ "_1") = None ->
   chosen false = Ret (Some (base +:+ "_1")))
  /\ (is_Some (fs s !! base) -> is_Some (fs s !! (base +:+ "_1")) ->
      fs s !! (base +:+ "_2") = None ->
      chosen false = Ret (Some (base +:+ "_2")))
  /\ (forall k, 1 <= k ->
        is_Some (fs s !! base) ->
        (forall j, 1 <= j < k -> is_Some (fs s !! suffixed base j)) ->
        fs s !! suffixed base k = None ->
        chosen false = Ret (Some (suffixed base k)))
  /\ (fs s !! base = None -> chosen false = Ret (Some base))
  /\ (fs s !! base <> Some File -> chosen true = Ret (Some base)).
Proof.
  intros Hsel Huse Hmk base chosen.
  assert (forall k, 1 <= k ->
            is_Some (fs s !! base) ->
            (forall j, 1 <= j < k -> is_Some (fs s !! suffixed base j)) ->
            fs s !! suffixed base k = None ->
            chosen false = Ret (Some (suffixed base k))) as Hgen.
  { intros k Hk Hb Hex Hfree.
    assert (local_dir_for (fs s) base false = suffixed base k) as Hdir.
    { unfold local_dir_for. now rewrite (free_dir_first_free (fs s) base k Hk Hb Hex Hfree). }
    destruct (copy_to_local_returns cfg w run_name instance_no false s rows r Hsel Huse)
      as (s' & evs & E & _).
    - fold base. rewrite Hdir. right. split; [exact Hfree | apply Hmk].
    - unfold chosen. rewrite E. cbn [fst]. fold base. now rewrite Hdir. }
  split; [|split; [|split; [|split]]].
  - intros Hb H1. apply (Hgen 1); [lia | exact Hb | intros j Hj; lia | exact H1].
  - intros Hb H1 H2. apply (Hgen 2); [lia | exact Hb | | exact H2].
    intros j Hj. assert (j = 1) as -> by lia. exact H1.
  - exact Hgen.
  - intros Hb.
    assert (local_dir_for (fs s) base false = base) as Hdir.
    { unfold local_dir_for. now rewrite (free_dir_base_free (fs s) base Hb). }
    destruct (copy_to_local_returns cfg w run_name instance_no false s rows r Hsel Huse)
      as (s' & evs & E & _).
    + fold base. rewrite Hdir. right. split; [exact Hb | apply Hmk].
    + unfold chosen. rewrite E. cbn [fst]. fold base. now rewrite Hdir.
  - intros Hb.
    destruct (copy_to_local_returns cfg w run_name instance_no true s rows r Hsel Huse)
      as (s' & evs & E & _).
    + fold base. cbn [local_dir_for]. destruct (fs s !! base) as [[|]|] eqn:Hlook.
      * contradiction.
      * now left.
      * right. split; [exact Hlook | apply Hmk].
    + unfold chosen. rewrite E. reflexivity.
Qed.

Lemma copy_to_local_directory_naming_witness :
  fst (copy_to_local Examples.cfg Examples.calm "run1" 0 false Examples.retrieved_once)
  = Ret (Some "data/run1_1")
  /\ fst (copy_to_local Examples.cfg Examples.calm "run1" 0 false Examples.retrieved_twice)
     = Ret (Some "data/run1_2")
  /\ fst (copy_to_local Examples.cfg Examples.calm "run1" 0 true Examples.retrieved_twice)
     = Ret (Some "data/run1").
Proof.
  assert (forall s, clock s = 0%nat ->
            selects Examples.calm (clock s) 0 Examples.rows (row_of Examples.inst_a)) as Hsel.
  { intros s ->. split; [|split].
    - exists [[Examples.inst_a]; [Examples.inst_b]]. split; reflexivity.
    - cbn. lia.
    - reflexivity. }
  assert (usable (row_of Examples.inst_a)) as Huse by (split; reflexivity).
  pose proof (copy_to_local_directory_naming Examples.cfg Examples.calm "run1" 0
                Examples.retrieved_once Examples.rows (row_of Examples.inst_a)
                (Hsel Examples.retrieved_once eq_refl) Huse (fun _ => eq_refl)) as (H1 & _).
  pose proof (copy_to_local_directory_naming Examples.cfg Examples.calm "run1" 0
                Examples.retrieved_twice Examples.rows (row_of Examples.inst_a)
                (Hsel Examples.retrieved_twice eq_refl) Huse (fun _ => eq_refl))
    as (_ & H2 & _ & _ & H3).
  split; [|split].
  - apply H1; [vm_compute; eauto | reflexivity].
  - apply H2; [vm_compute; eauto | vm_compute; eauto | reflexivity].
  - apply H3. vm_compute. discriminate.
Defined.

(** C8.  Whatever the transfers do (the subprocess oracle is arbitrary: any
    command may end with any exit status or fail to start), a retrieval that
    has its instance and its directory runs the first command of each of the
    eight items of the manifest, in the order of the manifest, and returns
    the local directory. *)
Theorem copy_to_local_isolates_item_failures (cfg : settings) (w : world)
    (run_name : string) (instance_no : Z) (overwrite : bool) (s : state) rows r :
  selects w (clock s) instance_no rows r ->
  usable r ->
  let local_dir :=
    local_dir_for (fs s) (OsPath.join (LOCAL_DATA_PATH cfg) run_name) overwrite in
  creatable w (fs s) local_dir ->
  length (transfer_items run_name) = 8%nat
  /\ exists s' evs,
       copy_to_local cfg w run_name instance_no overwrite s = (Ret (Some local_dir), s')
       /\ trace s' = trace s ++ evs
       /\ map (first_attempt cfg (public_dns r) local_dir) (transfer_items run_name)
            `sublist_of` evs.
Proof.
  intros Hsel Huse local_dir Hmk. split; [reflexivity|].
  destruct (copy_to_local_returns cfg w run_name instance_no overwrite s rows r
              Hsel Huse Hmk) as (s' & evs & E & T & S & _).
  exists s', evs. auto.
Qed.

Lemma copy_to_local_isolates_item_failures_witness :
  exists s' evs,
    copy_to_local Examples.cfg Examples.transfers_fail "run1" 0 false Examples.fresh
    = (Ret (Some "data/run1"), s')
    /\ trace s' = evs
    /\ map (first_attempt Examples.cfg "ec2-a.compute.amazonaws.com" "data/run1")
         (transfer_items "run1") `sublist_of` evs.
Proof.
  refine (proj2 (copy_to_local_isolates_item_failures Examples.cfg Examples.transfers_fail
                   "run1" 0 false Examples.fresh Examples.rows (row_of Examples.inst_a)
                   _ _ _)).
  - split; [|split].
    + exists [[Examples.inst_a]; [Examples.inst_b]]. split; reflexivity.
    + cbn. lia.
    + reflexivity.
  - split; reflexivity.
  - right. split; reflexivity.
Defined.

(** Three retrievals of the same job in a row, each on the file system the
    one before left: [run1], then [run1_1], then [run1_2]. *)
Example successive_retrievals :
  let first := copy_to_local Examples.cfg Examples.calm "run1" 0 false Examples.fresh in
  let second := copy_to_local Examples.cfg Examples.calm "run1" 0 false (snd first) in
  let third := copy_to_local Examples.cfg Examples.calm "run1" 0 false (snd second) in
  fst first = Ret (Some "data/run1")
  /\ fst second = Ret (Some "data/run1_1")
  /\ fst third = Ret (Some "data/run1_2").
Proof. vm_compute. auto. Qed.

(** ** [tail_logfile] (claim C5) *)

Section Monitor.

Variable cfg : settings.
Variable w : world.

Lemma decode_Some b text : Py.decode b = Some text -> text = b.
Proof. unfold Py.decode. destruct (Py.utf8_valid_fuel _ _); congruence. Qed.

Lemma sentinel_not_empty line : is_sentinel line = true -> Py.truthy line = true.
Proof. destruct line; [discriminate | reflexivity]. Qed.

Lemma stdout_readline_step {B} (k : string -> M B) s :
  bind (stdout_readline w) k s
  = k (readline w (lines_read s))
      {| environ := environ s; fs := fs s; trace := trace s; clock := clock s;
         lines_read := S (lines_read s) |}.
Proof. reflexivity. Qed.

(** The loop ends by returning, by raising (a line that is not UTF-8) or not
    at all; it never exits the process. *)
Lemma tail_loop_no_exit run_name instance_no fuel : forall s n s',
  tail_loop cfg w fuel run_name instance_no s <> (Exit n, s').
Proof.
  induction fuel as [|fuel IH]; intros s n s'; cbn [tail_loop]; [discriminate|].
  rewrite stdout_readline_step.
  destruct (Py.truthy (readline w (lines_read s))); cbn [negb]; [|discriminate].
  unfold decode. destruct (Py.decode (readline w (lines_read s))) as [text|];
    [|discriminate].
  unfold bind at 1. cbn [ret]. unfold print. rewrite bind_emit.
  destruct (is_sentinel text).
  - unfold log. rewrite bind_emit.
    match goal with |- context [bind (copy_to_local _ _ _ _ _) _ ?s0] =>
      destruct (copy_to_local_frame cfg w run_name instance_no false s0)
        as (o & s1 & evs & E & _) end.
    erewrite step_bind by exact E. discriminate.
  - apply IH.
Qed.

(** Monitoring never raises and never exits: it returns, or it is still
    waiting for a line. *)
Lemma tail_logfile_settles fuel logfile instance_no run_name s :
  exists s', tail_logfile cfg w fuel logfile instance_no run_name s = (Ret tt, s')
             \/ tail_logfile cfg w fuel logfile instance_no run_name s = (Running, s').
Proof.
  unfold tail_logfile.
  destruct (returns_get_instance w instance_no s) as (st & s1 & evs & E & _).
  erewrite step_bind by exact E.
  destruct (negb (Py.truthy_opt st)); [eexists; left; reflexivity|].
  erewrite step_bind by reflexivity.
  destruct (Py.truthy_opt run_name).
  - destruct (plain_subprocess_Popen w
      (tail_cmd cfg (environ s1 !! PUBLIC_URL_VAR) logfile) s1)
      as (o & s2 & evs2 & E2 & _ & _ & _ & O2).
    destruct o as [[]|e| |]; try contradiction.
    + erewrite step_try_bind by exact E2.
      unfold try_except.
      destruct (tail_loop cfg w fuel (default EmptyString run_name) instance_no s2)
        as [[[]|e|n|] s3] eqn:E3.
      * eexists; left; reflexivity.
      * eexists; left; reflexivity.
      * now apply tail_loop_no_exit in E3.
      * eexists; right; reflexivity.
    + erewrite step_try_bind_raise by exact E2. eexists; left; reflexivity.
  - destruct (plain_subprocess_run w
      (tail_cmd cfg (environ s1 !! PUBLIC_URL_VAR) logfile) s1)
      as (o & s2 & evs2 & E2 & _ & _ & _ & O2).
    destruct o as [z|e| |]; try contradiction.
    + erewrite step_try_bind by exact E2. eexists; left; reflexivity.
    + erewrite step_try_bind_raise by exact E2. eexists; left; reflexivity.
Qed.

(** The loop reads up to the first line with a sentinel, calls the retrieval
    once, and stops. *)
Lemma tail_loop_finds_sentinel run_name instance_no (k : nat) : forall fuel s,
  (k < fuel)%nat ->
  (forall j, (j < k)%nat ->
     let line := readline w (lines_read s + j) in
     Py.truthy line = true /\ Py.decode line = Some line /\ is_sentinel line = false) ->
  (let line := readline w (lines_read s + k) in
   Py.decode line = Some line /\ is_sentinel line = true) ->
  exists s' evs,
    tail_loop cfg w fuel run_name instance_no s = (Ret tt, s')
    /\ lines_read s' = (lines_read s + S k)%nat
    /\ trace s' = trace s ++ evs
    /\ retrievals evs = 1%nat
    /\ In (EnterCopyToLocal run_name instance_no false) evs.
Proof.
  induction k as [|k IH]; intros fuel s Hfuel Hbefore Hlast;
    (destruct fuel as [|fuel]; [lia|]); cbn [tail_loop]; rewrite stdout_readline_step.
  - cbn zeta in Hlast. rewrite Nat.add_0_r in Hlast. destruct Hlast as [Hdec Hsen].
    rewrite (sentinel_not_empty _ Hsen). cbn [negb].
    unfold decode. rewrite Hdec. unfold bind at 1. cbn [ret].
    unfold print. rewrite bind_emit. rewrite Hsen.
    unfold log. rewrite bind_emit.
    match goal with |- context [bind (copy_to_local _ _ _ _ _) _ ?s0] =>
      destruct (copy_to_local_frame cfg w run_name instance_no false s0)
        as (o & s1 & evs & E & T & R & L) end.
    erewrite step_bind by exact E.
    exists s1. eexists. split; [reflexivity|].
    cbn [record trace lines_read] in T, L. rewrite T, L, <- !app_assoc.
    split; [lia|]. split; [reflexivity|]. split.
    + rewrite !retrievals_app. change (retrievals (_ :: evs)) with (S (retrievals evs)).
      rewrite R. reflexivity.
    + apply in_app_iff. right. apply in_app_iff. right. now left.
  - destruct (Hbefore 0%nat ltac:(lia)) as (Htr & Hdec & Hsen).
    cbn zeta in Htr, Hdec, Hsen. rewrite Nat.add_0_r in Htr, Hdec, Hsen.
    rewrite Htr. cbn [negb]. unfold decode. rewrite Hdec. unfold bind at 1. cbn [ret].
    unfold print. rewrite bind_emit. rewrite Hsen.
    match goal with |- context [tail_loop _ _ _ _ _ ?s0] =>
      destruct (IH fuel s0) as (s' & evs & E & L & T & R & I) end.
    + lia.
    + intros j Hj. cbn [record lines_read].
      replace (S (lines_read s) + j)%nat with (lines_read s + S j)%nat by lia.
      apply Hbefore. lia.
    + cbn [record lines_read].
      replace (S (lines_read s) + k)%nat with (lines_read s + S k)%nat by lia.
      exact Hlast.
    + exists s'. eexists. split; [exact E|].
      cbn [record trace lines_read] in T, L. rewrite T, L, <- !app_assoc.
      split; [lia|]. split; [reflexivity|]. split.
      * rewrite retrievals_app. exact R.
      * apply in_app_iff. now right.
Qed.

(** Without a sentinel in the stream the loop calls no retrieval, however
    long it runs. *)
Lemma tail_loop_without_sentinel run_name instance_no fuel : forall s,
  (forall n, is_sentinel (readline w n) = false) ->
  retrievals (trace (snd (tail_loop cfg w fuel run_name instance_no s)))
  = retrievals (trace s).
Proof.
  induction fuel as [|fuel IH]; intros s Hno; cbn [tail_loop]; [reflexivity|].
  rewrite stdout_readline_step.
  destruct (Py.truthy (readline w (lines_read s))); cbn [negb]; [|reflexivity].
  unfold decode. destruct (Py.decode (readline w (lines_read s))) as [text|] eqn:Hdec;
    [|reflexivity].
  apply decode_Some in Hdec. subst text.
  unfold bind at 1. cbn [ret]. unfold print. rewrite bind_emit. rewrite Hno.
  rewrite IH by exact Hno. cbn [record trace]. now rewrite retrievals_app, Nat.add_0_r.
Qed.

Lemma tail_logfile_finds_sentinel fuel logfile instance_no run_name s rows r (k : nat) x :
  Py.truthy run_name = true ->
  selects w (clock s) instance_no rows r ->
  Py.truthy (state_ r) = true ->
  subprocess w (S (clock s)) (tail_cmd cfg (Some (public_dns r)) logfile) = inr x ->
  (k < fuel)%nat ->
  (forall j, (j < k)%nat ->
     let line := readline w (lines_read s + j) in
     Py.truthy line = true /\ Py.decode line = Some line /\ is_sentinel line = false) ->
  (let line := readline w (lines_read s + k) in
   Py.decode line = Some line /\ is_sentinel line = true) ->
  exists s',
    tail_logfile cfg w fuel logfile instance_no (Some run_name) s = (Ret tt, s')
    /\ lines_read s' = (lines_read s + S k)%nat
    /\ retrievals (trace s') = S (retrievals (trace s))
    /\ In (EnterCopyToLocal run_name instance_no false) (trace s').
Proof.
  intros Hrn (Hl & Hlt & Hix) Hst Hpopen Hk Hbefore Hlast.
  unfold tail_logfile.
  erewrite step_bind by (apply get_instance_selects; eauto).
  cbn [Py.truthy_opt]. rewrite Hst. cbn [negb].
  erewrite step_bind by reflexivity.
  cbn [selected environ]. rewrite lookup_insert_eq. cbv zeta. rewrite Hrn.
  erewrite step_try_bind by (eapply subprocess_Popen_ok; exact Hpopen).
  match goal with |- context [try_except _ _ ?s0] =>
    destruct (tail_loop_finds_sentinel run_name instance_no k fuel s0 Hk Hbefore Hlast)
      as (s' & evs & E & L & T & R & I) end.
  change (default EmptyString (Some run_name)) with run_name.
  unfold try_except. rewrite E.
  exists s'. split; [reflexivity|]. cbn [trace lines_read] in T, L.
  rewrite T, L. split; [reflexivity|]. split.
  - cbn [record selected trace]. rewrite !retrievals_app, R.
    change (retrievals (selection_trace rows instance_no r)) with 0%nat.
    change (retrievals [Subprocess Popen (tail_cmd cfg (Some (public_dns r)) logfile)])
      with 0%nat.
    lia.
  - apply in_app_iff. now right.
Qed.

Lemma retrievals_log_exn l msg e s :
  retrievals (trace (snd (log_exn l msg e s))) = retrievals (trace s).
Proof.
  change (trace (snd (log_exn l msg e s))) with (trace s ++ [Log l msg (Some e)]).
  rewrite retrievals_app. change (retrievals [Log l msg (Some e)]) with 0%nat. lia.
Qed.

Lemma tail_logfile_without_sentinel fuel logfile instance_no run_name s :
  (forall n, is_sentinel (readline w n) = false) ->
  retrievals (trace (snd (tail_logfile cfg w fuel logfile instance_no run_name s)))
  = retrievals (trace s).
Proof.
  intros Hno. unfold tail_logfile.
  destruct (returns_get_instance w instance_no s) as (st & s1 & evs & E & T & R & _).
  erewrite step_bind by exact E.
  assert (retrievals (trace s1) = retrievals (trace s)) as H1
    by (rewrite T, retrievals_app, R; lia).
  destruct (negb (Py.truthy_opt st)); [exact H1|].
  erewrite step_bind by reflexivity. cbv zeta.
  destruct (Py.truthy_opt run_name).
  - destruct (plain_subprocess_Popen w
      (tail_cmd cfg (environ s1 !! PUBLIC_URL_VAR) logfile) s1)
      as (o & s2 & evs2 & E2 & T2 & R2 & _ & O2).
    assert (retrievals (trace s2) = retrievals (trace s)) as H2
      by (rewrite T2, retrievals_app, R2; lia).
    destruct o as [[]|e| |]; try contradiction.
    + erewrite step_try_bind by exact E2. unfold try_except.
      pose proof (tail_loop_without_sentinel
                    (default EmptyString run_name) instance_no fuel s2 Hno) as H3.
      destruct (tail_loop cfg w fuel (default EmptyString run_name) instance_no s2)
        as [[[]|e|n|] s3]; cbn [snd] in *; try congruence.
      rewrite retrievals_log_exn. congruence.
    + erewrite step_try_bind_raise by exact E2. rewrite retrievals_log_exn. exact H2.
  - destruct (plain_subprocess_run w
      (tail_cmd cfg (environ s1 !! PUBLIC_URL_VAR) logfile) s1)
      as (o & s2 & evs2 & E2 & T2 & R2 & _ & O2).
    assert (retrievals (trace s2) = retrievals (trace s)) as H2
      by (rewrite T2, retrievals_app, R2; lia).
    destruct o as [z|e| |]; try contradiction.
    + erewrite step_try_bind by exact E2. exact H2.
    + erewrite step_try_bind_raise by exact E2. rewrite retrievals_log_exn. exact H2.
Qed.

End Monitor.

(** C5.  Invoked with a run name on a selected instance, [tail_logfile]
    reads the stream line by line; at the first line that contains
    ["Posterior"] or ["IMI ended"] it calls [copy_to_local] once, for that
    run name, and returns, having read that line and no line after it.  On a
    stream without a sentinel it calls no retrieval, however long it reads.
    (The lines up to the sentinel are text: they decode as UTF-8.) *)
Theorem tail_logfile_completion_detection (cfg : settings) (w : world) (fuel : nat)
    (logfile : string) (instance_no : Z) (run_name : string) (s : state) :
  Py.truthy run_name = true ->
  (forall rows r (k : nat) x,
     selects w (clock s) instance_no rows r ->
     Py.truthy (state_ r) = true ->
     subprocess w (S (clock s)) (tail_cmd cfg (Some (public_dns r)) logfile) = inr x ->
     (k < fuel)%nat ->
     (forall j, (j < k)%nat ->
        let line := readline w (lines_read s + j) in
        Py.truthy line = true /\ Py.decode line = Some line /\ is_sentinel line = false) ->
     (let line := readline w (lines_read s + k) in
      Py.decode line = Some line /\ is_sentinel line = true) ->
     exists s',
       tail_logfile cfg w fuel logfile instance_no (Some run_name) s = (Ret tt, s')
       /\ lines_read s' = (lines_read s + S k)%nat
       /\ retrievals (trace s') = S (retrievals (trace s))
       /\ In (EnterCopyToLocal run_name instance_no false) (trace s'))
  /\ ((forall n, is_sentinel (readline w n) = false) ->
      retrievals (trace (snd (tail_logfile cfg w fuel logfile instance_no
                                (Some run_name) s)))
      = retrievals (trace s)).
Proof.
  intros Hrn. split.
  - intros rows r k x Hsel Hst Hpopen Hk Hbefore Hlast.
    eapply tail_logfile_finds_sentinel; eauto.
  - apply tail_logfile_without_sentinel.
Qed.

Lemma tail_logfile_completion_detection_witness :
  exists s',
    tail_logfile Examples.cfg Examples.log_with_marker 5 "imi_output.log" 0 (Some "run1")
      Examples.fresh = (Ret tt, s')
    /\ lines_read s' = 2%nat
    /\ retrievals (trace s') = 1%nat
    /\ In (EnterCopyToLocal "run1" 0 false) (trace s').
Proof.
  refine (proj1 (tail_logfile_completion_detection Examples.cfg Examples.log_with_marker 5
                   "imi_output.log" 0 "run1" Examples.fresh _)
            Examples.rows (row_of Examples.inst_a) 1%nat (0, EmptyString) _ _ _ _ _ _).
  - reflexivity.
  - split; [|split].
    + exists [[Examples.inst_a]; [Examples.inst_b]]. split; reflexivity.
    + cbn. lia.
    + reflexivity.
  - reflexivity.
  - reflexivity.
  - lia.
  - intros j Hj. assert (j = 0%nat) as -> by lia. vm_compute. auto.
  - vm_compute. auto.
Defined.

(** ** [run_command]: reading the job config *)

Lemma drop_prefix_inv p : forall s rest, Py.drop_prefix p s = Some rest -> s = p +:+ rest.
Proof.
  induction p as [|a p IH]; intros s rest; cbn.
  - now intros [= ->].
  - destruct s as [|b s]; [discriminate|].
    destruct (Ascii.eqb_spec a b) as [->|]; [|discriminate].
    intros H. apply IH in H. now subst.
Qed.

Lemma startswith_inv s p : Py.startswith s p = true -> exists rest, s = p +:+ rest.
Proof.
  unfold Py.startswith. destruct (Py.drop_prefix p s) as [rest|] eqn:H; [|discriminate].
  intros _. exists rest. now apply drop_prefix_inv.
Qed.

(** A line that starts with one of the two field names has a colon: the
    index [1] of [line.split(':', 1)] is there. *)
Lemma after_colon_RunName line :
  Py.startswith line "RunName:" = true -> after_colon line = ret (declared_value line).
Proof.
  intros H. apply startswith_inv in H as [rest ->].
  unfold after_colon, declared_value. reflexivity.
Qed.

Lemma after_colon_UseSlurm line :
  Py.startswith line "UseSlurm:" = true -> after_colon line = ret (declared_value line).
Proof.
  intros H. apply startswith_inv in H as [rest ->].
  unfold after_colon, declared_value. reflexivity.
Qed.

Section Scan.

Variable stem : string.

(** A line of the config is read without a trace, or it ends the process
    with status 1 after error records only. *)
Lemma scan_line_cases acc line :
  (exists acc', (forall s, scan_line stem acc line s = (Ret acc', s))
                /\ (Py.startswith line "UseSlurm:" = false -> snd acc' = snd acc))
  \/ (exists logs, (forall s, scan_line stem acc line s = (Exit 1, record logs 0 s))
                   /\ Forall (fun e => is_Log e = true) logs).
Proof.
  unfold scan_line. destruct acc as [run_name use_slurm].
  destruct (Py.startswith line "RunName:") eqn:Hrn.
  - rewrite (after_colon_RunName _ Hrn).
    destruct (String.eqb (run_name_of (declared_value line)) stem) eqn:Heq.
    + left. eexists. split.
      * intros s. erewrite step_bind by reflexivity. rewrite Heq. reflexivity.
      * reflexivity.
    + right. eexists. split.
      * intros s. erewrite step_bind by reflexivity. rewrite Heq. cbn [negb].
        unfold log. rewrite !bind_emit. rewrite record_record. reflexivity.
      * repeat constructor.
  - destruct (Py.startswith line "UseSlurm:") eqn:Hus.
    + rewrite (after_colon_UseSlurm _ Hus).
      destruct (String.eqb (Py.lower (Py.strip (declared_value line))) "true") eqn:Ht.
      { left. eexists. split.
        - intros s. erewrite step_bind by reflexivity. rewrite Ht. reflexivity.
        - discriminate. }
      destruct (String.eqb (Py.lower (Py.strip (declared_value line))) "false") eqn:Hf.
      { left. eexists. split.
        - intros s. erewrite step_bind by reflexivity. rewrite Ht, Hf. reflexivity.
        - discriminate. }
      right. eexists. split.
      * intros s. erewrite step_bind by reflexivity. rewrite Ht, Hf.
        unfold log. rewrite !bind_emit. reflexivity.
      * repeat constructor.
    + left. eexists. split; reflexivity.
Qed.

(** A [RunName:] line whose value is not the stem of the file name ends the
    process with status 1. *)
Lemma scan_line_mismatch acc line :
  Py.startswith line "RunName:" = true ->
  declared_run_name line <> stem ->
  exists logs, (forall s, scan_line stem acc line s = (Exit 1, record logs 0 s))
               /\ Forall (fun e => is_Log e = true) logs.
Proof.
  intros Hrn Hne. unfold scan_line. destruct acc as [run_name use_slurm]. rewrite Hrn.
  rewrite (after_colon_RunName _ Hrn).
  eexists. split.
  - intros s. erewrite step_bind by reflexivity.
    fold (declared_run_name line).
    destruct (String.eqb_spec (declared_run_name line) stem) as [Heq|_]; [contradiction|].
    cbn [negb]. unfold log. rewrite !bind_emit. rewrite record_record. reflexivity.
  - repeat constructor.
Qed.

Lemma scan_lines_mismatch lines : forall acc line,
  In line lines ->
  Py.startswith line "RunName:" = true ->
  declared_run_name line <> stem ->
  exists logs, (forall s, scan_lines stem acc lines s = (Exit 1, record logs 0 s))
               /\ Forall (fun e => is_Log e = true) logs.
Proof.
  induction lines as [|l lines IH]; intros acc line Hin Hrn Hne; [destruct Hin|].
  cbn [scan_lines].
  destruct (scan_line_cases acc l) as [(acc' & E & _)|(logs & E & Hlogs)].
  - destruct Hin as [->|Hin].
    + destruct (scan_line_mismatch acc line Hrn Hne) as (logs & E' & _).
      specialize (E (record [] 0 {| environ := ∅; fs := ∅; trace := []; clock := 0;
                                     lines_read := 0 |})).
      rewrite E' in E. discriminate.
    + destruct (IH acc' line Hin Hrn Hne) as (logs & E' & Hlogs).
      exists logs. split; [|exact Hlogs].
      intros s. erewrite step_bind by apply E. apply E'.
  - exists logs. split; [|exact Hlogs].
    intros s. erewrite step_bind_exit by apply E. reflexivity.
Qed.

(** Without a [UseSlurm:] line, and with [RunName:] lines that agree with
    the file name, the scan ends with [use_slurm] unset. *)
Lemma scan_lines_without_UseSlurm lines : forall acc,
  snd acc = None ->
  Forall (fun line => Py.startswith line "UseSlurm:" = false) lines ->
  Forall (fun line => Py.startswith line "RunName:" = true ->
                      declared_run_name line = stem) lines ->
  exists run_name, forall s, scan_lines stem acc lines s = (Ret (run_name, None), s).
Proof.
  induction lines as [|l lines IH]; intros [rn us] Hus Hno Hok; cbn in Hus; subst us.
  - eexists. reflexivity.
  - inversion Hno as [|? ? Hl Hno']; subst. inversion Hok as [|? ? Hl' Hok']; subst.
    cbn [scan_lines].
    destruct (scan_line_cases (rn, None) l) as [(acc' & E & Hs)|(logs & E & _)].
    + destruct acc' as [rn' us'].
      destruct (IH (rn', us') (Hs Hl) Hno' Hok') as (run_name & E').
      exists run_name. intros s. erewrite step_bind by apply E. apply E'.
    + exfalso.
      specialize (E {| environ := ∅; fs := ∅; trace := []; clock := 0; lines_read := 0 |}).
      revert E. unfold scan_line. rewrite Hl.
      destruct (Py.startswith l "RunName:") eqn:Hrn; [|discriminate].
      rewrite (after_colon_RunName _ Hrn). erewrite step_bind by reflexivity.
      fold (declared_run_name l). rewrite (Hl' eq_refl), String.eqb_refl. discriminate.
Qed.

End Scan.

(** ** [run_command]: dispatch (claims C4, C9, C2 and C10) *)

Section Dispatch.

Variable cfg : settings.
Variable w : world.

Lemma scan_config_mismatch configfile stem lines pending line :
  open_file w configfile = inr (lines, pending) ->
  In line lines ->
  Py.startswith line "RunName:" = true ->
  declared_run_name line <> stem ->
  exists logs, (forall s, scan_config w configfile stem s = (Exit 1, record logs 0 s))
               /\ Forall (fun e => is_Log e = true) logs.
Proof.
  intros Hopen Hin Hrn Hne.
  destruct (scan_lines_mismatch stem lines (None, None) line Hin Hrn Hne)
    as (logs & E & Hlogs).
  exists logs. split; [|exact Hlogs]. intros s.
  unfold scan_config. rewrite Hopen. erewrite step_bind by reflexivity.
  erewrite step_bind_exit by apply E. reflexivity.
Qed.

Lemma scan_config_without_UseSlurm configfile stem lines :
  open_file w configfile = inr (lines, None) ->
  Forall (fun line => Py.startswith line "UseSlurm:" = false) lines ->
  Forall (fun line => Py.startswith line "RunName:" = true ->
                      declared_run_name line = stem) lines ->
  exists run_name, forall s, scan_config w configfile stem s = (Ret (run_name, None), s).
Proof.
  intros Hopen Hno Hok.
  destruct (scan_lines_without_UseSlurm stem lines (None, None) eq_refl Hno Hok)
    as (run_name & E).
  exists run_name. intros s.
  unfold scan_config. rewrite Hopen. erewrite step_bind by reflexivity.
  erewrite step_bind by apply E. reflexivity.
Qed.

Lemma check_launch_mode_accepted use_slurm tmux s :
  mode_accepted use_slurm tmux -> check_launch_mode use_slurm tmux s = (Ret tt, s).
Proof.
  unfold mode_accepted, check_launch_mode.
  destruct use_slurm as [[|]|]; [| |reflexivity]; intros H; destruct tmux;
    try discriminate; reflexivity.
Qed.

(** The schedule file is optional: without it there is a warning and no
    failure. *)
Lemma copy_kalman_absent public_url s :
  fs s !! kalman_file = None ->
  copy_kalman cfg w public_url s
  = (Ret tt, record [Log WARNING "KalmanPeriods.csv not found, skipping transfer" None] 0 s).
Proof.
  intros H. unfold copy_kalman. erewrite step_bind by reflexivity.
  rewrite bool_decide_eq_false_2; [reflexivity|]. rewrite H. now intros [? ?].
Qed.

(** [run_command] once the instance is selected. *)
Lemma run_command_after_selection fuel configfile instance_no options tmux s rows r :
  selects w (clock s) instance_no rows r ->
  usable r ->
  run_command cfg w fuel configfile instance_no options tmux s
  = try_except
      (scanned <- scan_config w configfile (stem_of configfile) ;;
       let '(run_name, use_slurm) := scanned in
       check_launch_mode use_slurm tmux ;;
       copy_kalman cfg w (public_dns r) ;;
       _ <- subprocess_run w (scp_config cfg configfile (public_dns r)) ;;
       _ <- subprocess_run w (launch cfg configfile (public_dns r) options tmux) ;;
       log INFO ("Inversion started successfully for config: " +:+ configfile) ;;
       tail_logfile cfg w fuel "imi_output.log" instance_no
         (Some (if Py.truthy_opt run_name then default EmptyString run_name
                else stem_of configfile)))
      (fun e => log_exn ERROR "Failed to execute run command: " e ;; sys_exit 1)
      (selected rows instance_no r s).
Proof.
  intros (Hl & Hlt & Hix) [Hst Hdns]. unfold run_command.
  erewrite step_try_bind by (apply get_instance_selects; eauto).
  cbn [Py.truthy_opt]. rewrite Hst. cbn [negb].
  erewrite step_try_bind by reflexivity.
  cbn [selected environ]. rewrite lookup_insert_eq.
  cbn [Py.truthy_opt]. rewrite Hdns. cbn [negb]. reflexivity.
Qed.

(** What the dispatch has written when it hands over to the monitor. *)
Lemma run_command_dispatches fuel configfile instance_no options tmux s rows r
    run_name use_slurm s2 x1 x2 :
  selects w (clock s) instance_no rows r ->
  usable r ->
  (forall s', scan_config w configfile (stem_of configfile) s'
              = (Ret (run_name, use_slurm), s')) ->
  mode_accepted use_slurm tmux ->
  copy_kalman cfg w (public_dns r) (selected rows instance_no r s) = (Ret tt, s2) ->
  subprocess w (clock s2) (scp_config cfg configfile (public_dns r)) = inr x1 ->
  subprocess w (S (clock s2)) (launch cfg configfile (public_dns r) options tmux) = inr x2 ->
  run_command cfg w fuel configfile instance_no options tmux s
  = tail_logfile cfg w fuel "imi_output.log" instance_no
      (Some (if Py.truthy_opt run_name then default EmptyString run_name
             else stem_of configfile))
      (record [ Subprocess Run (scp_config cfg configfile (public_dns r));
                Subprocess Run (launch cfg configfile (public_dns r) options tmux);
                Log INFO ("Inversion started successfully for config: " +:+ configfile)
                  None ] 2 s2).
Proof.
  intros Hsel Huse Hscan Hmode Hk H1 H2.
  rewrite (run_command_after_selection _ _ _ _ _ _ _ _ Hsel Huse).
  erewrite step_try_bind by apply Hscan. cbv beta iota.
  erewrite step_try_bind by (apply check_launch_mode_accepted; exact Hmode).
  erewrite step_try_bind by exact Hk.
  erewrite step_try_bind by (eapply subprocess_run_ok; exact H1).
  erewrite step_try_bind by (eapply subprocess_run_ok; exact H2).
  unfold log. rewrite (try_bind_emit' _ _ _ _). rewrite !record_record.
  cbn [app Nat.add].
  match goal with |- try_except (tail_logfile _ _ ?f ?l ?i ?n) _ ?s0 = _ =>
    destruct (tail_logfile_settles cfg w f l i n s0) as (s' & [E|E]) end;
    unfold try_except; rewrite E; reflexivity.
Qed.

End Dispatch.

(** C4.  Given a selected, reachable instance, a config with a [RunName:]
    line whose value differs from the stem of the file name makes
    [run_command] end the process with exit status 1; between the selection
    of the instance and the exit it has written error records only: nothing
    was copied and nothing was started. *)
Theorem run_command_rejects_name_mismatch (cfg : settings) (w : world) (fuel : nat)
    (configfile : string) (instance_no : Z) (options : option string) (tmux : bool)
    (s : state) rows r lines pending line :
  selects w (clock s) instance_no rows r ->
  usable r ->
  open_file w configfile = inr (lines, pending) ->
  In line lines ->
  Py.startswith line "RunName:" = true ->
  declared_run_name line <> stem_of configfile ->
  exists logs,
    run_command cfg w fuel configfile instance_no options tmux s
    = (Exit 1, record logs 0 (selected rows instance_no r s))
    /\ Forall (fun e => is_Log e = true) logs.
Proof.
  intros Hsel Huse Hopen Hin Hrn Hne.
  destruct (scan_config_mismatch w configfile (stem_of configfile) lines pending line
              Hopen Hin Hrn Hne) as (logs & E & Hlogs).
  exists logs. split; [|exact Hlogs].
  rewrite (run_command_after_selection cfg w _ _ _ _ _ _ _ _ Hsel Huse).
  erewrite step_try_bind_exit by apply E. reflexivity.
Qed.

Lemma run_command_rejects_name_mismatch_witness :
  exists logs,
    run_command Examples.cfg Examples.calm 1 "run3.yml" 0 None false Examples.fresh
    = (Exit 1, record logs 0 (selected Examples.rows 0 (row_of Examples.inst_a)
                                Examples.fresh))
    /\ Forall (fun e => is_Log e = true) logs.
Proof.
  apply (run_command_rejects_name_mismatch Examples.cfg Examples.calm 1 "run3.yml" 0
           None false Examples.fresh Examples.rows (row_of Examples.inst_a)
           ["RunName: Test_run" +:+ Examples.nl; "UseSlurm: true" +:+ Examples.nl] None
           ("RunName: Test_run" +:+ Examples.nl)).
  - split; [|split].
    + exists [[Examples.inst_a]; [Examples.inst_b]]. split; reflexivity.
    + cbn. lia.
    + reflexivity.
  - split; reflexivity.
  - reflexivity.
  - left. reflexivity.
  - reflexivity.
  - vm_compute. discriminate.
Defined.

(** C9.  A config without any [UseSlurm:] line leaves [use_slurm] unset, so
    the launch style is not checked: whether the caller asks for tmux or for
    the batch queue, [run_command] copies the config, runs the launch command
    of that style and hands over to the monitor. *)
Theorem run_command_without_UseSlurm_line (cfg : settings) (w : world) (fuel : nat)
    (configfile : string) (instance_no : Z) (options : option string) (tmux : bool)
    (s : state) rows r lines s2 x1 x2 :
  selects w (clock s) instance_no rows r ->
  usable r ->
  open_file w configfile = inr (lines, None) ->
  Forall (fun line => Py.startswith line "UseSlurm:" = false) lines ->
  Forall (fun line => Py.startswith line "RunName:" = true ->
                      declared_run_name line = stem_of configfile) lines ->
  copy_kalman cfg w (public_dns r) (selected rows instance_no r s) = (Ret tt, s2) ->
  subprocess w (clock s2) (scp_config cfg configfile (public_dns r)) = inr x1 ->
  subprocess w (S (clock s2)) (launch cfg configfile (public_dns r) options tmux) = inr x2 ->
  exists run_name,
    (forall s', scan_config w configfile (stem_of configfile) s'
                = (Ret (run_name, None), s'))
    /\ (forall s', check_launch_mode None tmux s' = (Ret tt, s'))
    /\ run_command cfg w fuel configfile instance_no options tmux s
       = tail_logfile cfg w fuel "imi_output.log" instance_no
           (Some (if Py.truthy_opt run_name then default EmptyString run_name
                  else stem_of configfile))
           (record [ Subprocess Run (scp_config cfg configfile (public_dns r));
                     Subprocess Run (launch cfg configfile (public_dns r) options tmux);
                     Log INFO ("Inversion started successfully for config: " +:+ configfile)
                       None ] 2 s2).
Proof.
  intros Hsel Huse Hopen Hno Hok Hk H1 H2.
  destruct (scan_config_without_UseSlurm w configfile (stem_of configfile) lines
              Hopen Hno Hok) as (run_name & Hscan).
  exists run_name. split; [exact Hscan|]. split; [reflexivity|].
  eapply run_command_dispatches; eauto. exact I.
Qed.

Lemma run_command_without_UseSlurm_line_witness :
  exists run_name,
    (forall s', scan_config Examples.calm "run2.yml" (stem_of "run2.yml") s'
                = (Ret (run_name, None), s'))
    /\ (forall s', check_launch_mode None true s' = (Ret tt, s'))
    /\ run_command Examples.cfg Examples.calm 1 "run2.yml" 0 None true Examples.fresh
       = tail_logfile Examples.cfg Examples.calm 1 "imi_output.log" 0
           (Some (if Py.truthy_opt run_name then default EmptyString run_name
                  else stem_of "run2.yml"))
           (record [ Subprocess Run (scp_config Examples.cfg "run2.yml"
                                       "ec2-a.compute.amazonaws.com");
                     Subprocess Run (launch Examples.cfg "run2.yml"
                                       "ec2-a.compute.amazonaws.com" None true);
                     Log INFO "Inversion started successfully for config: run2.yml" None ] 2
              (record [Log WARNING "KalmanPeriods.csv not found, skipping transfer" None] 0
                 (selected Examples.rows 0 (row_of Examples.inst_a) Examples.fresh))).
Proof.
  apply (run_command_without_UseSlurm_line Examples.cfg Examples.calm 1 "run2.yml" 0
           None true Examples.fresh Examples.rows (row_of Examples.inst_a)
           ["RunName: run2" +:+ Examples.nl; "isAWS: true" +:+ Examples.nl]
           (record [Log WARNING "KalmanPeriods.csv not found, skipping transfer" None] 0
              (selected Examples.rows 0 (row_of Examples.inst_a) Examples.fresh))
           (0, EmptyString) (0, EmptyString)).
  - split; [|split].
    + exists [[Examples.inst_a]; [Examples.inst_b]]. split; reflexivity.
    + cbn. lia.
    + reflexivity.
  - split; reflexivity.
  - reflexivity.
  - constructor; [reflexivity|]. constructor; [reflexivity|]. constructor.
  - constructor; [intros _; reflexivity|].
    constructor; [intros H; vm_compute in H; discriminate H|]. constructor.
  - reflexivity.
  - reflexivity.
  - reflexivity.
Defined.

(** C2, as the code has it.  The copy of the job config is run like every
    other command of [run_command], with its exit status ignored: when the
    transfer ends with a non-zero status the dispatch goes on, runs the
    launch command and logs that the inversion started.  Only a transfer that
    cannot be started at all (an exception of [subprocess.run]) ends the
    dispatch, with an error record and exit status 1, before the launch.  The
    schedule file is optional: when it is absent there is a warning only. *)
Theorem config_copy_exit_status_is_ignored (cfg : settings) (w : world) (fuel : nat)
    (configfile : string) (instance_no : Z) (options : option string) (tmux : bool)
    (s : state) rows r run_name use_slurm s2 :
  selects w (clock s) instance_no rows r ->
  usable r ->
  (forall s', scan_config w configfile (stem_of configfile) s'
              = (Ret (run_name, use_slurm), s')) ->
  mode_accepted use_slurm tmux ->
  copy_kalman cfg w (public_dns r) (selected rows instance_no r s) = (Ret tt, s2) ->
  let scp := scp_config cfg configfile (public_dns r) in
  let ssh := launch cfg configfile (public_dns r) options tmux in
  (forall status out x,
     subprocess w (clock s2) scp = inr (status, out) ->
     status <> 0 ->
     subprocess w (S (clock s2)) ssh = inr x ->
     run_command cfg w fuel configfile instance_no options tmux s
     = tail_logfile cfg w fuel "imi_output.log" instance_no
         (Some (if Py.truthy_opt run_name then default EmptyString run_name
                else stem_of configfile))
         (record [ Subprocess Run scp; Subprocess Run ssh;
                   Log INFO ("Inversion started successfully for config: " +:+ configfile)
                     None ] 2 s2))
  /\ (forall e,
        subprocess w (clock s2) scp = inl e ->
        run_command cfg w fuel configfile instance_no options tmux s
        = (Exit 1, record [ Subprocess Run scp;
                            Log ERROR "Failed to execute run command: " (Some e) ] 1 s2))
  /\ (forall s0 public_url,
        fs s0 !! kalman_file = None ->
        copy_kalman cfg w public_url s0
        = (Ret tt, record [Log WARNING "KalmanPeriods.csv not found, skipping transfer"
                             None] 0 s0)).
Proof.
  intros Hsel Huse Hscan Hmode Hk scp ssh. split; [|split].
  - intros status out x H1 _ H2. eapply run_command_dispatches; eauto.
  - intros e H1.
    rewrite (run_command_after_selection cfg w _ _ _ _ _ _ _ _ Hsel Huse).
    erewrite step_try_bind by apply Hscan. cbv beta iota.
    erewrite step_try_bind by (apply check_launch_mode_accepted; exact Hmode).
    erewrite step_try_bind by exact Hk.
    erewrite step_try_bind_raise by (eapply subprocess_run_raises; exact H1).
    unfold log_exn. rewrite bind_emit, record_record. reflexivity.
  - intros s0 public_url. apply copy_kalman_absent.
Qed.

Lemma config_copy_exit_status_is_ignored_witness :
  run_command Examples.cfg Examples.scp_fails 1 "run1.yml" 0 None true Examples.fresh
  = tail_logfile Examples.cfg Examples.scp_fails 1 "imi_output.log" 0 (Some "run1")
      (record [ Subprocess Run (scp_config Examples.cfg "run1.yml"
                                  "ec2-a.compute.amazonaws.com");
                Subprocess Run (launch Examples.cfg "run1.yml"
                                  "ec2-a.compute.amazonaws.com" None true);
                Log INFO "Inversion started successfully for config: run1.yml" None ] 2
         (record [Log WARNING "KalmanPeriods.csv not found, skipping transfer" None] 0
            (selected Examples.rows 0 (row_of Examples.inst_a) Examples.fresh))).
Proof.
  refine (proj1 (config_copy_exit_status_is_ignored Examples.cfg Examples.scp_fails 1
                   "run1.yml" 0 None true Examples.fresh Examples.rows
                   (row_of Examples.inst_a) (Some "run1") (Some false)
                   (record [Log WARNING "KalmanPeriods.csv not found, skipping transfer"
                              None] 0
                      (selected Examples.rows 0 (row_of Examples.inst_a) Examples.fresh))
                   _ _ _ _ _) 1 EmptyString (0, EmptyString) _ _ _).
  - split; [|split].
    + exists [[Examples.inst_a]; [Examples.inst_b]]. split; reflexivity.
    + cbn. lia.
    + reflexivity.
  - split; reflexivity.
  - intros s'. reflexivity.
  - reflexivity.
  - reflexivity.
  - reflexivity.
  - discriminate.
  - reflexivity.
Defined.

(** C2 as stated fails: every [scp] ends with exit status 1, so the copy of
    the config fails, and [run_command] still starts the job, logs that the
    inversion started and returns normally. *)
Lemma config_copy_failure_does_not_propagate :
  let result :=
    run_command Examples.cfg Examples.scp_fails 1 "run1.yml" 0 None true Examples.fresh in
  subprocess Examples.scp_fails 1
    (scp_config Examples.cfg "run1.yml" "ec2-a.compute.amazonaws.com")
  = inr (1, EmptyString)
  /\ fst result = Ret tt
  /\ In (Subprocess Run (launch Examples.cfg "run1.yml" "ec2-a.compute.amazonaws.com"
                           None true)) (trace (snd result))
  /\ In (Log INFO "Inversion started successfully for config: run1.yml" None)
        (trace (snd result)).
Proof.
  vm_compute. repeat split; auto 20.
Qed.

(** C10.  An instance described without [PublicDnsName] gets the address
    ['N/A']: [get_instance] stores that text in the address slot, and
    [run_command], which only refuses an empty address, goes on to copy the
    config to [ubuntu@N/A] and to start the job there. *)
Theorem missing_dns_name_is_cached_as_placeholder (cfg : settings) (w : world)
    (fuel : nat) (configfile : string) (instance_no : Z) (options : option string)
    (tmux : bool) (s : state) rows inst run_name use_slurm s2 x1 x2 :
  selects w (clock s) instance_no rows (row_of inst) ->
  PublicDnsName inst = None ->
  Py.truthy (State_Name inst) = true ->
  (forall s', scan_config w configfile (stem_of configfile) s'
              = (Ret (run_name, use_slurm), s')) ->
  mode_accepted use_slurm tmux ->
  copy_kalman cfg w "N/A" (selected rows instance_no (row_of inst) s) = (Ret tt, s2) ->
  subprocess w (clock s2) (scp_config cfg configfile "N/A") = inr x1 ->
  subprocess w (S (clock s2)) (launch cfg configfile "N/A" options tmux) = inr x2 ->
  (exists s1, get_instance w instance_no s = (Ret (Some (State_Name inst)), s1)
              /\ environ s1 !! PUBLIC_URL_VAR = Some "N/A")
  /\ scp_config cfg configfile "N/A"
     = ["scp"; "-i"; SSH_KEY_PATH cfg; configfile;
        "ubuntu@N/A:/home/ubuntu/integrated_methane_inversion"]
  /\ run_command cfg w fuel configfile instance_no options tmux s
     = tail_logfile cfg w fuel "imi_output.log" instance_no
         (Some (if Py.truthy_opt run_name then default EmptyString run_name
                else stem_of configfile))
         (record [ Subprocess Run (scp_config cfg configfile "N/A");
                   Subprocess Run (launch cfg configfile "N/A" options tmux);
                   Log INFO ("Inversion started successfully for config: " +:+ configfile)
                     None ] 2 s2).
Proof.
  intros Hsel Hdns Hst Hscan Hmode Hk H1 H2.
  assert (public_dns (row_of inst) = "N/A") as Hna by (cbn; now rewrite Hdns).
  split; [|split].
  - destruct Hsel as (Hl & Hlt & Hix). eexists. split.
    + apply (get_instance_selects w instance_no s rows (row_of inst)); assumption.
    + cbn [selected environ]. rewrite lookup_insert_eq. now rewrite Hna.
  - reflexivity.
  - rewrite <- Hna in *.
    eapply run_command_dispatches; eauto. split; [exact Hst|]. now rewrite Hna.
Qed.

Lemma missing_dns_name_is_cached_as_placeholder_witness :
  (exists s1, get_instance Examples.calm 1 Examples.fresh = (Ret (Some "pending"), s1)
              /\ environ s1 !! PUBLIC_URL_VAR = Some "N/A")
  /\ run_command Examples.cfg Examples.calm 1 "run2.yml" 1 None false Examples.fresh
     = tail_logfile Examples.cfg Examples.calm 1 "imi_output.log" 1 (Some "run2")
         (record [ Subprocess Run (scp_config Examples.cfg "run2.yml" "N/A");
                   Subprocess Run (launch Examples.cfg "run2.yml" "N/A" None false);
                   Log INFO "Inversion started successfully for config: run2.yml" None ] 2
            (record [Log WARNING "KalmanPeriods.csv not found, skipping transfer" None] 0
               (selected Examples.rows 1 (row_of Examples.inst_b) Examples.fresh))).
Proof.
  pose proof (missing_dns_name_is_cached_as_placeholder Examples.cfg Examples.calm 1
                "run2.yml" 1 None false Examples.fresh Examples.rows Examples.inst_b
                (Some "run2") None
                (record [Log WARNING "KalmanPeriods.csv not found, skipping transfer" None] 0
                   (selected Examples.rows 1 (row_of Examples.inst_b) Examples.fresh))
                (0, EmptyString) (0, EmptyString)) as H.
  destruct H as (H1 & _ & H3).
  - split; [|split].
    + exists [[Examples.inst_a]; [Examples.inst_b]]. split; reflexivity.
    + cbn. lia.
    + reflexivity.
  - reflexivity.
  - reflexivity.
  - intros s'. reflexivity.
  - exact I.
  - reflexivity.
  - reflexivity.
  - reflexivity.
  - split; [exact H1 | exact H3].
Defined.

(** ** Instance setup and the readiness probe (claims C1 and C6) *)

Section Readiness.

Variable cfg : settings.
Variable w : world.

(** No command fails to start (each may still end with any exit status). *)
Hypothesis spawns : forall t argv, exists x, subprocess w t argv = inr x.

Lemma copy_setup_files public_url files : forall s,
  exists s' evs,
    for_each files (fun '(local_file, remote_path) =>
       present <- path_exists local_file ;;
       if present then
         _ <- subprocess_run w ["scp"; "-i"; SSH_KEY_PATH cfg; local_file;
                                "ubuntu@" +:+ public_url +:+ ":" +:+ remote_path] ;;
         ret tt
       else log WARNING ("Missing file: " +:+ local_file)) s = (Ret tt, s')
    /\ trace s' = trace s ++ evs /\ environ s' = environ s.
Proof.
  induction files as [|[local_file remote_path] files IH]; intros s; cbn [for_each].
  - exists s, []. rewrite app_nil_r. auto.
  - assert (exists s1 evs1,
              (present <- path_exists local_file ;;
               if present then
                 _ <- subprocess_run w ["scp"; "-i"; SSH_KEY_PATH cfg; local_file;
                                        "ubuntu@" +:+ public_url +:+ ":" +:+ remote_path] ;;
                 ret tt
               else log WARNING ("Missing file: " +:+ local_file)) s = (Ret tt, s1)
              /\ trace s1 = trace s ++ evs1 /\ environ s1 = environ s)
      as (s1 & evs1 & E1 & T1 & V1).
    { erewrite step_bind by reflexivity.
      destruct (bool_decide (is_Some (fs s !! local_file))).
      - destruct (spawns (clock s) ["scp"; "-i"; SSH_KEY_PATH cfg; local_file;
                    "ubuntu@" +:+ public_url +:+ ":" +:+ remote_path]) as [x Hx].
        erewrite step_bind by (eapply subprocess_run_ok; exact Hx).
        eexists _, _. split; [reflexivity|]. cbn [record trace environ]. auto.
      - eexists _, _. split; [reflexivity|]. cbn [record trace environ]. auto. }
    erewrite step_bind by exact E1.
    destruct (IH s1) as (s' & evs & E & T & V).
    exists s', (evs1 ++ evs). split; [exact E|]. rewrite T, V, T1, V1, <- app_assoc. auto.
Qed.

(** When every command starts, [instance_setup] returns [True], whatever
    the exit status of the remote session: the last thing it does is to send
    the joined command line. *)
Lemma instance_setup_returns_true public_url s :
  exists s' evs,
    instance_setup cfg w public_url s = (Ret true, s')
    /\ trace s' = trace s ++ evs
         ++ [Subprocess Run (ssh_to cfg public_url ++ [setup_command_line])]
    /\ environ s' = environ s.
Proof.
  unfold instance_setup.
  destruct (copy_setup_files public_url (files_to_copy cfg) s) as (s1 & evs & E & T & V).
  erewrite step_try_bind by exact E.
  destruct (spawns (clock s1) (ssh_to cfg public_url ++ [setup_command_line])) as [x Hx].
  erewrite step_try_bind by (eapply subprocess_run_ok; exact Hx).
  eexists _, evs. split; [reflexivity|]. cbn [record trace environ].
  rewrite T, V, <- app_assoc. auto.
Qed.

End Readiness.

Section Probe.

Variable cfg : settings.
Variable w : world.
Variable public_dns : string.

Lemma ssh_probe_attempt_fails n s status out :
  subprocess w (clock s) (handshake cfg public_dns) = inr (status, out) ->
  status <> 0 ->
  ssh_probe cfg w (S n) public_dns s
  = ssh_probe cfg w n public_dns
      (record [Subprocess RunCheck (handshake cfg public_dns); Sleep 30] 1 s).
Proof.
  intros H Hne. cbn [ssh_probe]. unfold try_except_only.
  erewrite step_bind.
  2:{ erewrite step_try_bind_raise
        by (eapply subprocess_run_check_fails; [exact H | exact Hne]).
      cbn [is_CalledProcessError]. rewrite bind_emit, record_record. reflexivity. }
  reflexivity.
Qed.

Lemma ssh_probe_attempt_succeeds n s out :
  subprocess w (clock s) (handshake cfg public_dns) = inr (0, out) ->
  ssh_probe cfg w (S n) public_dns s
  = (Ret true, record [Subprocess RunCheck (handshake cfg public_dns)] 1 s).
Proof.
  intros H. cbn [ssh_probe]. unfold try_except_only.
  erewrite step_bind.
  2:{ erewrite step_try_bind by (eapply subprocess_run_check_ok; exact H). reflexivity. }
  reflexivity.
Qed.

Lemma handshakes_fail_later n s evs :
  handshakes_fail cfg w public_dns (S n) s ->
  handshakes_fail cfg w public_dns n (record evs 1 s).
Proof.
  intros H k Hk. destruct (H (S k) ltac:(lia)) as (status & out & E & Hne).
  exists status, out. split; [|exact Hne].
  cbn [record clock]. now replace (k + (1 + clock s))%nat with (S k + clock s)%nat by lia.
Qed.

Lemma ssh_probe_all_fail n : forall s,
  handshakes_fail cfg w public_dns n s ->
  ssh_probe cfg w n public_dns s
  = (Ret false, record (failed_handshakes cfg public_dns n) n s).
Proof.
  induction n as [|n IH]; intros s H.
  - cbn. now rewrite record_nil.
  - destruct (H 0%nat ltac:(lia)) as (status & out & E & Hne).
    rewrite (ssh_probe_attempt_fails n s status out E Hne).
    rewrite IH by (eapply handshakes_fail_later; exact H).
    rewrite record_record. cbn [failed_handshakes app].
    now replace (n + 1)%nat with (S n) by lia.
Qed.

(** The loop stops at the first handshake that succeeds. *)
Lemma ssh_probe_first_success n m : forall s out,
  handshakes_fail cfg w public_dns n s ->
  subprocess w (n + clock s) (handshake cfg public_dns) = inr (0, out) ->
  ssh_probe cfg w (S (n + m)) public_dns s
  = (Ret true, record (failed_handshakes cfg public_dns n
                       ++ [Subprocess RunCheck (handshake cfg public_dns)]) (S n) s).
Proof.
  induction n as [|n IH]; intros s out H Hok.
  - cbn [Nat.add] in *. now rewrite (ssh_probe_attempt_succeeds m s out Hok).
  - destruct (H 0%nat ltac:(lia)) as (status & out' & E & Hne).
    cbn [Nat.add]. rewrite (ssh_probe_attempt_fails (S (n + m)) s status out' E Hne).
    rewrite (IH _ out) .
    + rewrite record_record. cbn [failed_handshakes app].
      now replace (S n + 1)%nat with (S (S n)) by lia.
    + eapply handshakes_fail_later; exact H.
    + cbn [record clock].
      now replace (n + (1 + clock s))%nat with (S n + clock s)%nat by lia.
Qed.

End Probe.

Section Create.

Variable cfg : settings.
Variable w : world.

(** [create_instance] up to the probe. *)
Lemma create_instance_probing s instance_id public_dns :
  launched cfg w s instance_id public_dns ->
  create_instance cfg w None s
  = try_except
      (ssh_ready <- ssh_probe cfg w 10 public_dns ;;
       if negb ssh_ready then raise (Exception_ "SSH connection failed after 15 minutes")
       else
         log INFO "🛠️ Starting instance setup..." ;;
         done <- instance_setup cfg w public_dns ;;
         if done : bool then
           log INFO "✅ Instance setup completed successfully" ;;
           setenv INSTANCE_ID_VAR instance_id ;;
           setenv PUBLIC_URL_VAR public_dns ;;
           ret true
         else raise (Exception_ "Instance setup failed"))
      (fun e => log_exn ERROR "❌ Instance creation failed: " e ;; ret false)
      (probing cfg instance_id public_dns s).
Proof.
  intros (first & rest & inst & more & more' & Hrun & Hid & Hwait & Hdesc & Hdns).
  unfold create_instance. unfold log at 1. rewrite try_bind_emit'.
  erewrite step_try_bind by reflexivity. cbv beta iota.
  erewrite step_try_bind by (eapply ec2_run_instances_ok; exact Hrun).
  erewrite step_try_bind by reflexivity. cbv zeta. rewrite Hid.
  unfold log at 1. rewrite try_bind_emit'. unfold log at 1. rewrite try_bind_emit'.
  erewrite step_try_bind by (eapply waiter_wait_ok; exact Hwait).
  erewrite step_try_bind by (eapply ec2_describe_instances_ok; exact Hdesc).
  erewrite step_try_bind by reflexivity.
  erewrite step_try_bind by reflexivity.
  rewrite Hdns. erewrite step_try_bind by reflexivity.
  unfold log at 1. rewrite try_bind_emit'. unfold log at 1. rewrite try_bind_emit'.
  rewrite !record_record. reflexivity.
Qed.

End Create.

(** C6, as the code has it.  The probe makes at most ten handshakes and
    stops at the first that succeeds: nine failures and a success give
    [ssh_ready = True], and [create_instance] goes on to the setup and
    returns [True].  Ten failures make [create_instance] log the error
    ["SSH connection failed after 15 minutes"] and return [False].  A status
    check that times out makes it log the waiter's error and return the same
    [False]: the value the caller receives is the same for the two failures,
    which differ only in the logged record. *)
Theorem readiness_probe_outcomes (cfg : settings) (w : world) (s : state)
    (instance_id public_dns : string) :
  (forall s0 out,
     handshakes_fail cfg w public_dns 9 s0 ->
     subprocess w (9 + clock s0) (handshake cfg public_dns) = inr (0, out) ->
     ssh_probe cfg w 10 public_dns s0
     = (Ret true, record (failed_handshakes cfg public_dns 9
                          ++ [Subprocess RunCheck (handshake cfg public_dns)]) 10 s0))
  /\ (forall out,
        launched cfg w s instance_id public_dns ->
        handshakes_fail cfg w public_dns 9 (probing cfg instance_id public_dns s) ->
        subprocess w (12 + clock s) (handshake cfg public_dns) = inr (0, out) ->
        (forall t argv, exists x, subprocess w t argv = inr x) ->
        exists s',
          create_instance cfg w None s = (Ret true, s')
          /\ environ s' !! INSTANCE_ID_VAR = Some instance_id
          /\ environ s' !! PUBLIC_URL_VAR = Some public_dns)
  /\ (launched cfg w s instance_id public_dns ->
      handshakes_fail cfg w public_dns 10 (probing cfg instance_id public_dns s) ->
      exists s',
        create_instance cfg w None s = (Ret false, s')
        /\ last (trace s')
           = Some (Log ERROR "❌ Instance creation failed: "
                     (Some (Exception_ "SSH connection failed after 15 minutes"))))
  /\ (forall first rest e,
        run_instances w (clock s) (default_run_args cfg) = inr (first :: rest) ->
        wait_instance_status_ok w (S (clock s)) (InstanceId first) = Some e ->
        exists s',
          create_instance cfg w None s = (Ret false, s')
          /\ last (trace s') = Some (Log ERROR "❌ Instance creation failed: " (Some e))).
Proof.
  split; [|split; [|split]].
  - intros s0 out Hfail Hok.
    exact (ssh_probe_first_success cfg w public_dns 9 0 s0 out Hfail Hok).
  - intros out Hl Hfail Hok Hspawn.
    rewrite (create_instance_probing cfg w s instance_id public_dns Hl).
    erewrite step_try_bind
      by (apply (ssh_probe_first_success cfg w public_dns 9 0 _ out Hfail); exact Hok).
    cbn [negb]. unfold log at 1. rewrite try_bind_emit'.
    match goal with |- context [try_except _ _ ?s0] =>
      destruct (instance_setup_returns_true cfg w Hspawn public_dns s0)
        as (s1 & evs & E & T & V) end.
    erewrite step_try_bind by exact E.
    eexists. split; [reflexivity|]. cbn [snd environ record].
    split.
    + rewrite lookup_insert_ne by discriminate. apply lookup_insert_eq.
    + apply lookup_insert_eq.
  - intros Hl Hfail.
    rewrite (create_instance_probing cfg w s instance_id public_dns Hl).
    erewrite step_try_bind by (apply ssh_probe_all_fail; exact Hfail).
    cbn [negb]. eexists. split; [reflexivity|].
    cbn [record trace]. apply last_snoc.
  - intros first rest e Hrun Hwait.
    unfold create_instance. unfold log at 1. rewrite try_bind_emit'.
    erewrite step_try_bind by reflexivity. cbv beta iota.
    erewrite step_try_bind by (eapply ec2_run_instances_ok; exact Hrun).
    erewrite step_try_bind by reflexivity. cbv zeta.
    unfold log at 1. rewrite try_bind_emit'. unfold log at 1. rewrite try_bind_emit'.
    erewrite step_try_bind_raise by (eapply waiter_wait_raises; exact Hwait).
    eexists. split; [reflexivity|]. cbn [record trace]. apply last_snoc.
Qed.

Lemma readiness_probe_outcomes_witness :
  (exists s',
     create_instance Examples.cfg Examples.ssh_late None Examples.fresh = (Ret true, s')
     /\ environ s' !! INSTANCE_ID_VAR = Some "i-0a"
     /\ environ s' !! PUBLIC_URL_VAR = Some "ec2-a.compute.amazonaws.com")
  /\ (exists s',
        create_instance Examples.cfg Examples.ssh_down None Examples.fresh = (Ret false, s')
        /\ last (trace s')
           = Some (Log ERROR "❌ Instance creation failed: "
                     (Some (Exception_ "SSH connection failed after 15 minutes"))))
  /\ (exists s',
        create_instance Examples.cfg Examples.status_timeout None Examples.fresh
        = (Ret false, s')
        /\ last (trace s')
           = Some (Log ERROR "❌ Instance creation failed: "
                     (Some (EnvError "WaiterError"
                              "Waiter InstanceStatusOk failed: Max attempts exceeded")))).
Proof.
  assert (forall w, run_instances w = (fun _ _ => inr [Examples.inst_a]) ->
                    wait_instance_status_ok w = (fun _ _ => None) ->
                    describe_instances w
                    = (fun _ _ => inr [[Examples.inst_a]; [Examples.inst_b]]) ->
                    launched Examples.cfg w Examples.fresh "i-0a"
                      "ec2-a.compute.amazonaws.com") as Hl.
  { intros w H1 H2 H3. exists Examples.inst_a, [], Examples.inst_a, [], [[Examples.inst_b]].
    rewrite H1, H2, H3. repeat split; reflexivity. }
  split; [|split].
  - refine (proj1 (proj2 (readiness_probe_outcomes Examples.cfg Examples.ssh_late
                            Examples.fresh "i-0a" "ec2-a.compute.amazonaws.com"))
              EmptyString _ _ _ _).
    + apply Hl; reflexivity.
    + intros k Hk. exists 255, EmptyString. split; [|discriminate].
      do 9 (destruct k as [|k]; [reflexivity|]). lia.
    + reflexivity.
    + intros t argv. unfold Examples.ssh_late, Examples.make. cbn [subprocess].
      destruct (t <? 12)%nat; eexists; reflexivity.
  - refine (proj1 (proj2 (proj2 (readiness_probe_outcomes Examples.cfg Examples.ssh_down
                                   Examples.fresh "i-0a" "ec2-a.compute.amazonaws.com")))
              _ _).
    + apply Hl; reflexivity.
    + intros k Hk. exists 255, EmptyString. split; [|discriminate].
      do 10 (destruct k as [|k]; [reflexivity|]). lia.
  - refine (proj2 (proj2 (proj2 (readiness_probe_outcomes Examples.cfg
                                   Examples.status_timeout Examples.fresh "i-0a"
                                   "ec2-a.compute.amazonaws.com")))
              Examples.inst_a [] _ _ _); reflexivity.
Defined.

(** C6 as stated fails: when all ten handshakes fail and when the status
    check times out, [create_instance] gives its caller the same value,
    [False], and leaves the same (empty) environment: the caller cannot tell
    the two failures apart. *)
Lemma readiness_failures_return_the_same_value :
  let ssh_failure := create_instance Examples.cfg Examples.ssh_down None Examples.fresh in
  let status_failure :=
    create_instance Examples.cfg Examples.status_timeout None Examples.fresh in
  fst ssh_failure = Ret false
  /\ fst status_failure = fst ssh_failure
  /\ environ (snd status_failure) = environ (snd ssh_failure).
Proof. vm_compute. auto. Qed.

(** In an AND list a command runs if and only if every command before it
    returned exit status zero. *)
Lemma and_list_attempts (status : string -> Z) (commands : list string) :
  forall (n : nat) c,
    commands !! n = Some c ->
    (fst (Sh.and_list status commands) !! n = Some c
     <-> forall (m : nat) c', (m < n)%nat -> commands !! m = Some c' -> status c' = 0).
Proof.
  induction commands as [|c0 rest IH]; intros n c Hn; [discriminate|].
  cbn [Sh.and_list]. destruct n as [|n].
  - cbn in Hn. injection Hn as ->. split.
    + intros _ m c' Hm. lia.
    + intros _. destruct (status c =? 0); [|reflexivity].
      destruct rest; [reflexivity|]. destruct (Sh.and_list status (s :: rest)). reflexivity.
  - cbn in Hn. destruct (Z.eqb_spec (status c0) 0) as [H0|H0].
    + destruct rest as [|c1 rest']; [discriminate|].
      specialize (IH n c Hn).
      destruct (Sh.and_list status (c1 :: rest')) as [ran st] eqn:E. cbn [fst] in *.
      change ((c0 :: ran) !! S n) with (ran !! n). rewrite IH. split.
      * intros H m c' Hm Hc. destruct m as [|m]; [cbn in Hc; congruence|].
        apply (H m c'); [lia | exact Hc].
      * intros H m c' Hm Hc. apply (H (S m) c'); [lia | exact Hc].
    + cbn [fst]. split; [discriminate|].
      intros H. exfalso. apply H0. apply (H 0%nat c0); [lia | reflexivity].
Qed.

(** C1, as the code has it.  The three setup commands are joined with
    [" && "]: the remote shell gets one AND list of five simple commands and
    runs each of them only if all the commands before it succeeded; the first
    failure ends the session.  [instance_setup] sends this line last and
    returns [True] whatever the exit status of the session. *)
Theorem setup_stops_at_first_failure (status : string -> Z) :
  Py.split " && " setup_command_line = setup_steps
  /\ (forall (n : nat) c,
        setup_steps !! n = Some c ->
        (fst (Sh.run status setup_command_line) !! n = Some c
         <-> forall (m : nat) c', (m < n)%nat -> setup_steps !! m = Some c' ->
                                  status c' = 0))
  /\ (forall cfg w public_url s,
        (forall t argv, exists x, subprocess w t argv = inr x) ->
        exists s' evs,
          instance_setup cfg w public_url s = (Ret true, s')
          /\ trace s' = trace s ++ evs
               ++ [Subprocess Run (ssh_to cfg public_url ++ [setup_command_line])]).
Proof.
  split; [reflexivity|]. split.
  - intros n c Hn. unfold Sh.run.
    change (Py.split " && " setup_command_line) with setup_steps.
    now apply and_list_attempts.
  - intros cfg w public_url s Hspawn.
    destruct (instance_setup_returns_true cfg w Hspawn public_url s)
      as (s' & evs & E & T & _).
    exists s', evs. auto.
Qed.

Lemma setup_stops_at_first_failure_witness :
  fst (Sh.run (fun _ => 0) setup_command_line) !! 2%nat = Some "./tmux_install.sh"
  /\ exists s' evs,
       instance_setup Examples.cfg Examples.calm "ec2-a.compute.amazonaws.com" Examples.fresh
       = (Ret true, s')
       /\ trace s' = evs ++ [Subprocess Run (ssh_to Examples.cfg "ec2-a.compute.amazonaws.com"
                                               ++ [setup_command_line])].
Proof.
  destruct (setup_stops_at_first_failure (fun _ => 0)) as (_ & Hruns & Hsetup).
  split.
  - apply (Hruns 2%nat "./tmux_install.sh" eq_refl). intros m c' _ _. reflexivity.
  - apply (Hsetup Examples.cfg Examples.calm "ec2-a.compute.amazonaws.com" Examples.fresh).
    intros t argv. eexists. reflexivity.
Defined.

(** C1 as stated fails: when the first command ([apt remove]) fails, the
    remote shell runs nothing else, although the two scripts would succeed. *)
Lemma setup_first_failure_skips_the_rest :
  Sh.run Examples.apt_fails setup_command_line = (["sudo apt remove -y tmux"], 100)
  /\ Examples.apt_fails "./tmux_install.sh" = 0
  /\ Examples.apt_fails "./fixslurm.sh" = 0.
Proof. vm_compute. auto. Qed.

(** * Further properties *)

(** ** Instance selection *)

(** X1.  A position [0 <= instance_no < count] of the listing selects the
    instance at that position: [get_instance] returns its state, writes its
    id and its address to the two cached slots and leaves every other
    variable of the environment and the file system as they were. *)
Theorem get_instance_selects_by_position (w : world) (instance_no : Z) (s : state) rows r :
  listing w (clock s) rows ->
  0 <= instance_no ->
  rows !! Z.to_nat instance_no = Some r ->
  let result := get_instance w instance_no s in
  fst result = Ret (Some (state_ r))
  /\ environ (snd result) !! INSTANCE_ID_VAR = Some (id r)
  /\ environ (snd result) !! PUBLIC_URL_VAR = Some (public_dns r)
  /\ (forall name, name <> INSTANCE_ID_VAR -> name <> PUBLIC_URL_VAR ->
      environ (snd result) !! name = environ s !! name)
  /\ fs (snd result) = fs s.
Proof.
  intros Hl H0 Hr. cbv zeta.
  rewrite (get_instance_selects w instance_no s rows r Hl).
  - cbn. repeat split.
    + rewrite lookup_insert_ne by discriminate. apply lookup_insert_eq.
    + apply lookup_insert_eq.
    + intros name H1 H2. now rewrite !lookup_insert_ne by congruence.
  - apply lookup_lt_Some in Hr. lia.
  - unfold Py.index. destruct (Z.leb_spec 0 instance_no); [exact Hr | lia].
Qed.

Lemma get_instance_selects_by_position_witness :
  let result := get_instance Examples.calm 1 Examples.cached in
  fst result = Ret (Some "pending")
  /\ environ (snd result) !! INSTANCE_ID_VAR = Some "i-0b"
  /\ environ (snd result) !! PUBLIC_URL_VAR = Some "N/A"
  /\ (forall name, name <> INSTANCE_ID_VAR -> name <> PUBLIC_URL_VAR ->
      environ (snd result) !! name = environ Examples.cached !! name)
  /\ fs (snd result) = fs Examples.cached.
Proof.
  apply (get_instance_selects_by_position Examples.calm 1 Examples.cached
           Examples.rows (row_of Examples.inst_b)).
  - exists [[Examples.inst_a]; [Examples.inst_b]]. split; reflexivity.
  - lia.
  - reflexivity.
Defined.

(** X2.  An index at or above the number of instances, an index below minus
    that number, and an empty listing are refused: [get_instance] returns
    no state after one provider call, its last record says why, and the
    environment (the two cached slots with it) and the file system are as they
    were. *)
Theorem get_instance_refuses_out_of_range (w : world) (instance_no : Z) (s : state) rows :
  listing w (clock s) rows ->
  Z.of_nat (length rows) <= instance_no \/ instance_no < - Z.of_nat (length rows) ->
  exists evs diagnostic,
    get_instance w instance_no s = (Ret None, record (evs ++ [diagnostic]) 1 s)
    /\ diagnostic =
       match rows with
       | [] => Log INFO "ℹ️ No instances found" None
       | _ :: _ =>
           if 0 <=? instance_no
           then Log ERROR ("❌ Invalid instance number: " +:+ Py.str_int instance_no) None
           else Log ERROR "❌ Error listing instances: " (Some IndexError)
       end.
Proof.
  intros [resp [Hd Hb]] Hrange.
  unfold get_instance, try_except, ec2_describe_instances, bind, emit, tick, lift_result.
  cbn. rewrite Hd. cbn. rewrite Hb.
  destruct rows as [|r0 rows'].
  { eexists [_], _. split; [|reflexivity]. unfold record. cbn.
    rewrite <- !app_assoc. reflexivity. }
  cbn. destruct (Z.geb_spec instance_no (Z.of_nat (S (length rows')))) as [Hge|Hlt].
  { destruct (Z.leb_spec 0 instance_no); [|lia].
    eexists [_; _; _], _. split; [|reflexivity]. unfold record. cbn.
    rewrite <- !app_assoc. reflexivity. }
  assert (Py.index (r0 :: rows') instance_no = None) as ->.
  { unfold Py.index. cbn [length] in *.
    destruct (Z.leb_spec 0 instance_no); [lia|].
    destruct (Z.leb_spec (- Z.of_nat (S (length rows'))) instance_no); [lia|reflexivity]. }
  cbn [length] in *. destruct (Z.leb_spec 0 instance_no); [lia|].
  eexists [_; _; _], _. split; [|reflexivity]. unfold record. cbn.
  rewrite <- !app_assoc. reflexivity.
Qed.

Lemma get_instance_refuses_out_of_range_witness :
  exists evs diagnostic,
    get_instance Examples.calm 2 Examples.cached
    = (Ret None, record (evs ++ [diagnostic]) 1 Examples.cached)
    /\ diagnostic = Log ERROR ("❌ Invalid instance number: " +:+ Py.str_int 2) None.
Proof.
  apply (get_instance_refuses_out_of_range Examples.calm 2 Examples.cached Examples.rows).
  - exists [[Examples.inst_a]; [Examples.inst_b]]. split; reflexivity.
  - left. cbn. lia.
Defined.

(** ** [run_command]: validation and containment *)

Section Validation.

Variable stem : string.

Lemma UseSlurm_not_RunName line :
  Py.startswith line "UseSlurm:" = true -> Py.startswith line "RunName:" = false.
Proof. intros H. apply startswith_inv in H as [rest ->]. reflexivity. Qed.

(** A line that is not a [UseSlurm:] line, and agrees with the file name if
    it is a [RunName:] line, is read without a trace. *)
Lemma scan_line_other run_name use_slurm line :
  Py.startswith line "UseSlurm:" = false ->
  (Py.startswith line "RunName:" = true -> declared_run_name line = stem) ->
  exists run_name',
    forall s, scan_line stem (run_name, use_slurm) line s = (Ret (run_name', use_slurm), s).
Proof.
  intros Hus Hok. unfold scan_line. rewrite Hus.
  destruct (Py.startswith line "RunName:") eqn:Hrn.
  - rewrite (after_colon_RunName _ Hrn). eexists. intros s.
    erewrite step_bind by reflexivity. fold (declared_run_name line).
    rewrite (Hok eq_refl), String.eqb_refl. reflexivity.
  - eexists. reflexivity.
Qed.

Lemma scan_line_UseSlurm run_name use_slurm line (b : bool) :
  Py.startswith line "UseSlurm:" = true ->
  Py.lower (Py.strip (declared_value line)) = (if b then "true" else "false") ->
  forall s, scan_line stem (run_name, use_slurm) line s = (Ret (run_name, Some b), s).
Proof.
  intros Hus Hv s. unfold scan_line. rewrite (UseSlurm_not_RunName _ Hus), Hus.
  rewrite (after_colon_UseSlurm _ Hus). erewrite step_bind by reflexivity.
  rewrite Hv. destruct b; reflexivity.
Qed.

Lemma scan_lines_other lines : forall run_name use_slurm,
  Forall (fun l => Py.startswith l "UseSlurm:" = false) lines ->
  Forall (fun l => Py.startswith l "RunName:" = true -> declared_run_name l = stem) lines ->
  exists run_name',
    forall s, scan_lines stem (run_name, use_slurm) lines s = (Ret (run_name', use_slurm), s).
Proof.
  induction lines as [|l lines IH]; intros rn us Hno Hok.
  - eexists. reflexivity.
  - inversion Hno as [|? ? Hl Hno']; subst. inversion Hok as [|? ? Hl' Hok']; subst.
    destruct (scan_line_other rn us l Hl Hl') as (rn1 & E1).
    destruct (IH rn1 us Hno' Hok') as (rn2 & E2).
    exists rn2. intros s. cbn [scan_lines]. erewrite step_bind by apply E1. apply E2.
Qed.

Lemma scan_lines_declared lines (b : bool) :
  declares_use_slurm stem lines b ->
  exists run_name, forall s, scan_lines stem (None, None) lines s = (Ret (run_name, Some b), s).
Proof.
  intros (before & line & after & -> & Hno & Hok & Hus & Hv).
  apply Forall_app in Hno as [Hno1 Hno2].
  apply Forall_app in Hok as [Hok1 Hok2]. apply Forall_cons in Hok2 as [_ Hok2].
  generalize (@None string) (@None bool).
  induction before as [|l before IH]; intros rn us.
  - destruct (scan_lines_other after rn (Some b) Hno2 Hok2) as (rn' & E).
    exists rn'. intros s. cbn [app scan_lines].
    erewrite step_bind by (apply scan_line_UseSlurm; eassumption). apply E.
  - apply Forall_cons in Hno1 as [Hl Hno1]. apply Forall_cons in Hok1 as [Hl' Hok1].
    destruct (scan_line_other rn us l Hl Hl') as (rn1 & E1).
    destruct (IH Hno1 Hok1 rn1 us) as (rn2 & E2).
    exists rn2. intros s. cbn [app scan_lines]. erewrite step_bind by apply E1. apply E2.
Qed.

(** A line that ends the process ends the scan of every config it is in. *)
Lemma scan_lines_fatal lines : forall acc line,
  In line lines ->
  (forall acc s, exists logs,
     scan_line stem acc line s = (Exit 1, record logs 0 s)
     /\ Forall (fun e => is_Log e = true) logs) ->
  forall s, exists logs,
    scan_lines stem acc lines s = (Exit 1, record logs 0 s)
    /\ Forall (fun e => is_Log e = true) logs.
Proof.
  induction lines as [|l lines IH]; intros acc line Hin Hfatal s; [destruct Hin|].
  cbn [scan_lines].
  destruct (scan_line_cases stem acc l) as [(acc' & E & _)|(logs & E & Hlogs)].
  - destruct Hin as [->|Hin].
    + destruct (Hfatal acc s) as (logs & E' & _). rewrite E in E'. discriminate.
    + destruct (IH acc' line Hin Hfatal s) as (logs & E' & Hlogs).
      exists logs. split; [|exact Hlogs]. erewrite step_bind by apply E. apply E'.
  - exists logs. split; [|exact Hlogs]. erewrite step_bind_exit by apply E. reflexivity.
Qed.

Lemma scan_line_invalid_UseSlurm line :
  Py.startswith line "UseSlurm:" = true ->
  Py.lower (Py.strip (declared_value line)) <> "true" ->
  Py.lower (Py.strip (declared_value line)) <> "false" ->
  forall acc s, exists logs,
    scan_line stem acc line s = (Exit 1, record logs 0 s)
    /\ Forall (fun e => is_Log e = true) logs.
Proof.
  intros Hus Ht Hf [rn us] s. unfold scan_line.
  rewrite (UseSlurm_not_RunName _ Hus), Hus, (after_colon_UseSlurm _ Hus).
  erewrite step_bind by reflexivity. cbv beta zeta.
  destruct (String.eqb_spec (Py.lower (Py.strip (declared_value line))) "true");
    [contradiction|].
  destruct (String.eqb_spec (Py.lower (Py.strip (declared_value line))) "false");
    [contradiction|].
  eexists. split.
  - unfold log. rewrite bind_emit. reflexivity.
  - repeat constructor.
Qed.

(** The job name the scan keeps is the stem of the file name, if it keeps
    one. *)
Lemma scan_line_run_name acc line s acc' s' :
  scan_line stem acc line s = (Ret acc', s') ->
  s' = s /\ (fst acc' = fst acc \/ fst acc' = Some stem).
Proof.
  unfold scan_line. destruct acc as [rn us].
  destruct (Py.startswith line "RunName:") eqn:Hrn.
  - rewrite (after_colon_RunName _ Hrn). erewrite step_bind by reflexivity.
    cbv beta zeta.
    destruct (String.eqb_spec (run_name_of (declared_value line)) stem) as [Heq|Hne];
      cbn [negb].
    + intros [= <- <-]. split; [reflexivity|]. right. cbn [fst]. congruence.
    + unfold log. rewrite !bind_emit. discriminate.
  - destruct (Py.startswith line "UseSlurm:") eqn:Hus.
    + rewrite (after_colon_UseSlurm _ Hus). erewrite step_bind by reflexivity.
      cbv beta zeta.
      destruct (String.eqb _ "true"); [intros [= <- <-]; auto|].
      destruct (String.eqb _ "false"); [intros [= <- <-]; auto|].
      unfold log. rewrite bind_emit. discriminate.
    + intros [= <- <-]. auto.
Qed.

Lemma scan_lines_run_name lines : forall acc s acc' s',
  scan_lines stem acc lines s = (Ret acc', s') ->
  s' = s /\ (fst acc' = fst acc \/ fst acc' = Some stem).
Proof.
  induction lines as [|l lines IH]; intros acc s acc' s'; cbn [scan_lines].
  - intros [= <- <-]. auto.
  - unfold bind at 1. destruct (scan_line stem acc l s) as [[acc1|e|n|] s1] eqn:E1;
      try discriminate.
    intros E. apply scan_line_run_name in E1 as [-> H1]. apply IH in E as [-> H2].
    split; [reflexivity|]. destruct H2 as [H2|H2]; [|auto]. rewrite H2. exact H1.
Qed.

Lemma exits_with_1_scan_lines lines : forall acc, exits_with_1 (scan_lines stem acc lines).
Proof.
  induction lines as [|l lines IH]; intros acc s n s'; cbn [scan_lines]; [discriminate|].
  destruct (scan_line_cases stem acc l) as [(acc' & E & _)|(logs & E & _)].
  - erewrite step_bind by apply E. apply IH.
  - erewrite step_bind_exit by apply E. now intros [= <- _].
Qed.

End Validation.

Lemma exits_with_1_bind {A B} (m : M A) (k : A -> M B) :
  exits_with_1 m -> (forall a, exits_with_1 (k a)) -> exits_with_1 (bind m k).
Proof.
  intros Hm Hk s n s'. unfold bind.
  destruct (m s) as [[a|e|n1|] s1] eqn:E; try discriminate.
  - apply Hk.
  - intros [= <- <-]. eapply Hm, E.
Qed.

Lemma plain_exits_with_1 {A} (m : M A) : plain m -> exits_with_1 m.
Proof.
  intros Hm s n s' E. destruct (Hm s) as (o & s1 & evs & E1 & _ & _ & _ & O).
  rewrite E in E1. injection E1 as <- _. contradiction.
Qed.

Ltac exits_1 :=
  repeat first
    [ progress intros
    | match goal with
      | |- exits_with_1 (bind _ _) => apply exits_with_1_bind
      | |- exits_with_1 (if ?b then _ else _) => destruct b
      | |- exits_with_1 (let '(_, _) := ?x in _) => destruct x
      | |- exits_with_1 (match ?x with _ => _ end) => destruct x
      | |- exits_with_1 (let _ := _ in _) => cbv zeta
      | |- exits_with_1 (sys_exit 1) => intros ? ? ? [= <- _]; reflexivity
      end
    | solve [apply plain_exits_with_1; effects] ].

Section Containment.

Variable cfg : settings.
Variable w : world.

Lemma exits_with_1_scan_config configfile stem :
  exits_with_1 (scan_config w configfile stem).
Proof.
  unfold scan_config. apply exits_with_1_bind; [exits_1|]. intros content.
  apply exits_with_1_bind; [apply exits_with_1_scan_lines|]. exits_1.
Qed.

Lemma exits_with_1_check_launch_mode use_slurm tmux :
  exits_with_1 (check_launch_mode use_slurm tmux).
Proof. unfold check_launch_mode. exits_1. Qed.

Lemma exits_with_1_tail_logfile fuel logfile instance_no run_name :
  exits_with_1 (tail_logfile cfg w fuel logfile instance_no run_name).
Proof.
  intros s n s' E.
  destruct (tail_logfile_settles cfg w fuel logfile instance_no run_name s) as (s1 & [H|H]);
    rewrite H in E; discriminate.
Qed.

Lemma plain_copy_kalman public_url : plain (copy_kalman cfg w public_url).
Proof. unfold copy_kalman. effects. Qed.

Lemma scan_config_declared configfile stem lines (b : bool) :
  open_file w configfile = inr (lines, None) ->
  declares_use_slurm stem lines b ->
  exists run_name, forall s, scan_config w configfile stem s = (Ret (run_name, Some b), s).
Proof.
  intros Hopen Hd. destruct (scan_lines_declared stem lines b Hd) as (run_name & E).
  exists run_name. intros s. unfold scan_config. rewrite Hopen.
  erewrite step_bind by reflexivity. erewrite step_bind by apply E. reflexivity.
Qed.

End Containment.

(** X3.  A config that sets [UseSlurm: true] is refused together with
    [--tmux], and one that sets [UseSlurm: false] is refused without it:
    [run_command] ends the process with exit status 1 and, between the
    selection of the instance and the exit, writes error records only, so
    nothing is copied or started. *)
Theorem run_command_rejects_launch_mode_conflict (cfg : settings) (w : world) (fuel : nat)
    (configfile : string) (instance_no : Z) (options : option string) (tmux : bool)
    (s : state) rows r lines :
  selects w (clock s) instance_no rows r ->
  usable r ->
  open_file w configfile = inr (lines, None) ->
  declares_use_slurm (stem_of configfile) lines tmux ->
  exists logs,
    run_command cfg w fuel configfile instance_no options tmux s
    = (Exit 1, record logs 0 (selected rows instance_no r s))
    /\ Forall (fun e => is_Log e = true) logs.
Proof.
  intros Hsel Huse Hopen Hd.
  destruct (scan_config_declared w configfile _ lines tmux Hopen Hd) as (run_name & E).
  rewrite (run_command_after_selection cfg w _ _ _ _ _ _ _ _ Hsel Huse).
  erewrite step_try_bind by apply E. cbv beta iota.
  unfold check_launch_mode. destruct tmux; cbn [andb negb].
  - eexists. split.
    + unfold log. rewrite !try_bind_emit, record_record. reflexivity.
    + repeat constructor.
  - eexists. split.
    + unfold log. rewrite !try_bind_emit, record_record. reflexivity.
    + repeat constructor.
Qed.

Lemma run_command_rejects_launch_mode_conflict_witness :
  exists logs,
    run_command Examples.cfg Examples.calm 1 "run1.yml" 0 None false Examples.fresh
    = (Exit 1, record logs 0 (selected Examples.rows 0 (row_of Examples.inst_a)
                                Examples.fresh))
    /\ Forall (fun e => is_Log e = true) logs.
Proof.
  apply (run_command_rejects_launch_mode_conflict Examples.cfg Examples.calm 1 "run1.yml" 0
           None false Examples.fresh Examples.rows (row_of Examples.inst_a)
           ["## IMI configuration" +:+ Examples.nl; "RunName: 'run1'" +:+ Examples.nl;
            "UseSlurm: false" +:+ Examples.nl]).
  - split; [|split].
    + exists [[Examples.inst_a]; [Examples.inst_b]]. split; reflexivity.
    + cbn. lia.
    + reflexivity.
  - split; reflexivity.
  - reflexivity.
  - exists ["## IMI configuration" +:+ Examples.nl; "RunName: 'run1'" +:+ Examples.nl],
      ("UseSlurm: false" +:+ Examples.nl), [].
    split; [reflexivity|]. split; [|split; [|split]].
    + constructor; [reflexivity|]. constructor; [reflexivity|]. constructor.
    + constructor; [intros H; vm_compute in H; discriminate H|].
      constructor; [intros _; vm_compute; reflexivity|].
      constructor; [intros H; vm_compute in H; discriminate H|]. constructor.
    + reflexivity.
    + vm_compute. reflexivity.
Defined.

(** X4.  A [UseSlurm:] line whose value, stripped and lowered, is neither
    [true] nor [false] makes [run_command] end the process with exit status 1
    after error records only. *)
Theorem run_command_rejects_invalid_UseSlurm (cfg : settings) (w : world) (fuel : nat)
    (configfile : string) (instance_no : Z) (options : option string) (tmux : bool)
    (s : state) rows r lines pending line :
  selects w (clock s) instance_no rows r ->
  usable r ->
  open_file w configfile = inr (lines, pending) ->
  In line lines ->
  Py.startswith line "UseSlurm:" = true ->
  Py.lower (Py.strip (declared_value line)) <> "true" ->
  Py.lower (Py.strip (declared_value line)) <> "false" ->
  exists logs,
    run_command cfg w fuel configfile instance_no options tmux s
    = (Exit 1, record logs 0 (selected rows instance_no r s))
    /\ Forall (fun e => is_Log e = true) logs.
Proof.
  intros Hsel Huse Hopen Hin Hus Ht Hf.
  rewrite (run_command_after_selection cfg w _ _ _ _ _ _ _ _ Hsel Huse).
  destruct (scan_lines_fatal (stem_of configfile) lines (None, None) line Hin
              (scan_line_invalid_UseSlurm _ line Hus Ht Hf)
              (selected rows instance_no r s)) as (logs & E & Hlogs).
  exists logs. split; [|exact Hlogs].
  erewrite step_try_bind_exit; [reflexivity|].
  unfold scan_config. rewrite Hopen. erewrite step_bind by reflexivity.
  erewrite step_bind_exit by apply E. reflexivity.
Qed.

Lemma run_command_rejects_invalid_UseSlurm_witness :
  exists logs,
    run_command Examples.cfg (Scenes.with_config Scenes.odd_config) 1 "run4.yml" 0 None true
      Examples.fresh
    = (Exit 1, record logs 0 (selected Examples.rows 0 (row_of Examples.inst_a)
                                Examples.fresh))
    /\ Forall (fun e => is_Log e = true) logs.
Proof.
  apply (run_command_rejects_invalid_UseSlurm Examples.cfg
           (Scenes.with_config Scenes.odd_config) 1 "run4.yml" 0
           None true Examples.fresh Examples.rows (row_of Examples.inst_a)
           Scenes.odd_config None ("UseSlurm: yes" +:+ Examples.nl)).
  - split; [|split].
    + exists [[Examples.inst_a]; [Examples.inst_b]]. split; reflexivity.
    + cbn. lia.
    + reflexivity.
  - split; reflexivity.
  - reflexivity.
  - right. left. reflexivity.
  - reflexivity.
  - vm_compute. discriminate.
  - vm_compute. discriminate.
Defined.

(** X5.  When the index selects no instance, [run_command] logs that no
    instance is available and returns: the process is not ended, the config
    is not read and nothing is started. *)
Theorem run_command_without_instance (cfg : settings) (w : world) (fuel : nat)
    (configfile : string) (instance_no : Z) (options : option string) (tmux : bool)
    (s : state) rows :
  listing w (clock s) rows ->
  Z.of_nat (length rows) <= instance_no \/ instance_no < - Z.of_nat (length rows) ->
  exists evs,
    run_command cfg w fuel configfile instance_no options tmux s
    = (Ret tt, record (evs ++ [Log ERROR "No valid instance available" None]) 1 s)
    /\ Forall (fun e => match e with Subprocess _ _ => False | _ => True end) evs.
Proof.
  intros [resp [Hd Hb]] Hrange.
  unfold run_command, get_instance, try_except, ec2_describe_instances, bind, emit, tick,
    lift_result.
  cbn. rewrite Hd. cbn. rewrite Hb.
  destruct rows as [|r0 rows'].
  { eexists [_; _]. split.
    - unfold record. cbn. rewrite <- !app_assoc. reflexivity.
    - repeat constructor. }
  cbn. destruct (Z.geb_spec instance_no (Z.of_nat (S (length rows')))) as [Hge|Hlt].
  { eexists [_; _; _; _]. split.
    - unfold record. cbn. rewrite <- !app_assoc. reflexivity.
    - repeat constructor. }
  assert (Py.index (r0 :: rows') instance_no = None) as ->.
  { unfold Py.index. cbn [length] in *.
    destruct (Z.leb_spec 0 instance_no); [lia|].
    destruct (Z.leb_spec (- Z.of_nat (S (length rows'))) instance_no); [lia|reflexivity]. }
  eexists [_; _; _; _]. split.
  - unfold record. cbn. rewrite <- !app_assoc. reflexivity.
  - repeat constructor.
Qed.

Lemma run_command_without_instance_witness :
  exists evs,
    run_command Examples.cfg Examples.calm 1 "run1.yml" 5 None true Examples.fresh
    = (Ret tt, record (evs ++ [Log ERROR "No valid instance available" None]) 1
                 Examples.fresh)
    /\ Forall (fun e => match e with Subprocess _ _ => False | _ => True end) evs.
Proof.
  apply (run_command_without_instance Examples.cfg Examples.calm 1 "run1.yml" 5 None true
           Examples.fresh Examples.rows).
  - exists [[Examples.inst_a]; [Examples.inst_b]]. split; reflexivity.
  - left. cbn. lia.
Defined.

(** X6.  A config file that cannot be opened ends [run_command] with exit
    status 1: the error is logged and nothing is copied or started. *)
Theorem run_command_unreadable_config (cfg : settings) (w : world) (fuel : nat)
    (configfile : string) (instance_no : Z) (options : option string) (tmux : bool)
    (s : state) rows r e :
  selects w (clock s) instance_no rows r ->
  usable r ->
  open_file w configfile = inl e ->
  run_command cfg w fuel configfile instance_no options tmux s
  = (Exit 1, record [Log ERROR "Failed to execute run command: " (Some e)] 0
               (selected rows instance_no r s)).
Proof.
  intros Hsel Huse Hopen.
  rewrite (run_command_after_selection cfg w _ _ _ _ _ _ _ _ Hsel Huse).
  erewrite step_try_bind_raise; [reflexivity|].
  unfold scan_config. rewrite Hopen. reflexivity.
Qed.

Lemma run_command_unreadable_config_witness :
  run_command Examples.cfg Examples.calm 1 "absent.yml" 0 None true Examples.fresh
  = (Exit 1, record [Log ERROR "Failed to execute run command: "
                       (Some (EnvError "FileNotFoundError" "absent.yml"))] 0
               (selected Examples.rows 0 (row_of Examples.inst_a) Examples.fresh)).
Proof.
  apply (run_command_unreadable_config Examples.cfg Examples.calm 1 "absent.yml" 0 None true
           Examples.fresh Examples.rows (row_of Examples.inst_a)).
  - split; [|split].
    + exists [[Examples.inst_a]; [Examples.inst_b]]. split; reflexivity.
    + cbn. lia.
    + reflexivity.
  - split; reflexivity.
  - reflexivity.
Defined.

(** X7.  No exception escapes from [run_command], and when it ends the
    process the exit status is 1: whatever the provider, the commands, the
    config file and the log stream do, it returns, is still following the
    log, or exits with status 1. *)
Theorem run_command_is_contained (cfg : settings) (w : world) (fuel : nat)
    (configfile : string) (instance_no : Z) (options : option string) (tmux : bool)
    (s : state) :
  contained (fst (run_command cfg w fuel configfile instance_no options tmux s)).
Proof.
  unfold run_command.
  match goal with |- contained (fst (try_except ?body _ s)) =>
    assert (exits_with_1 body) as Hbody end.
  { apply exits_with_1_bind; [exits_1|]. intros st.
    destruct (negb (Py.truthy_opt st)); [exits_1|].
    apply exits_with_1_bind; [exits_1|]. intros public_url.
    destruct (negb (Py.truthy_opt public_url)); [exits_1|]. cbv zeta.
    apply exits_with_1_bind; [apply exits_with_1_scan_config|]. intros [run_name use_slurm].
    apply exits_with_1_bind; [apply exits_with_1_check_launch_mode|]. intros _.
    apply exits_with_1_bind; [apply plain_exits_with_1, plain_copy_kalman|]. intros _.
    apply exits_with_1_bind; [exits_1|]. intros _.
    apply exits_with_1_bind; [exits_1|]. intros _.
    apply exits_with_1_bind; [exits_1|]. intros _.
    apply exits_with_1_tail_logfile. }
  unfold try_except.
  match goal with |- contained (fst (match ?body s with _ => _ end)) =>
    destruct (body s) as [[a|e|n|] s1] eqn:E end; cbn.
  - exact I.
  - reflexivity.
  - eapply Hbody, E.
  - exact I.
Qed.

(** X8.  The job name [run_command] gives to the monitor, and so to the
    retrieval, is the stem of the config file name: a scan that goes through
    has kept no other name, and it has left no trace. *)
Theorem monitored_run_name_is_config_stem (w : world) (configfile : string) (s : state)
    run_name use_slurm s' :
  scan_config w configfile (stem_of configfile) s = (Ret (run_name, use_slurm), s') ->
  (if Py.truthy_opt run_name then default EmptyString run_name else stem_of configfile)
  = stem_of configfile
  /\ s' = s.
Proof.
  unfold scan_config. unfold bind at 1.
  destruct (open_file w configfile) as [e|content]; [discriminate|]. cbn [lift_result ret].
  unfold bind.
  destruct (scan_lines (stem_of configfile) (None, None) content.1 s)
    as [[acc|e|n|] s1] eqn:E; try discriminate.
  apply scan_lines_run_name in E as [-> Hname].
  destruct (content.2); [discriminate|]. intros [= -> <-]. split; [|reflexivity].
  cbn [fst] in Hname. destruct Hname as [->| ->]; [reflexivity|].
  cbn [Py.truthy_opt default]. destruct (Py.truthy (stem_of configfile)); reflexivity.
Qed.

Lemma monitored_run_name_is_config_stem_witness :
  (if Py.truthy_opt (Some "run1") then default EmptyString (Some "run1")
   else stem_of "run1.yml") = stem_of "run1.yml"
  /\ Examples.fresh = Examples.fresh.
Proof.
  apply (monitored_run_name_is_config_stem Examples.calm "run1.yml" Examples.fresh
           (Some "run1") (Some false) Examples.fresh).
  vm_compute. reflexivity.
Defined.

(** ** [tail_logfile]: the ways monitoring ends *)

Section Stream.

Variable cfg : settings.
Variable w : world.

Lemma echo_S from k :
  echo w from (S k) = Printed (Py.strip (readline w from)) :: echo w (S from) k.
Proof.
  unfold echo. cbn [seq map]. rewrite Nat.add_0_r. f_equal.
  rewrite <- seq_shift, map_map. apply map_ext. intros j. do 3 f_equal. lia.
Qed.

(** The loop passes over the ordinary lines. *)
Lemma tail_loop_skips run_name instance_no (k : nat) : forall fuel s,
  (forall j, (j < k)%nat -> ordinary_line (readline w (lines_read s + j))) ->
  tail_loop cfg w (k + fuel) run_name instance_no s
  = tail_loop cfg w fuel run_name instance_no (after_lines w k s).
Proof.
  induction k as [|k IH]; intros fuel s Hbefore.
  - cbn [Nat.add]. f_equal. unfold after_lines, echo. cbn.
    rewrite app_nil_r, Nat.add_0_r. symmetry. apply state_eta.
  - cbn [Nat.add tail_loop]. rewrite stdout_readline_step.
    destruct (Hbefore 0%nat ltac:(lia)) as (Htr & Hdec & Hsen).
    rewrite Nat.add_0_r in Htr, Hdec, Hsen.
    rewrite Htr. cbn [negb]. unfold decode. rewrite Hdec. unfold bind at 1. cbn [ret].
    unfold print. rewrite bind_emit. rewrite Hsen.
    rewrite IH.
    + f_equal. unfold after_lines, record. cbn [environ fs trace clock lines_read].
      rewrite echo_S, <- app_assoc. cbn [app]. f_equal; lia.
    + intros j Hj. cbn [record lines_read].
      replace (S (lines_read s) + j)%nat with (lines_read s + S j)%nat by lia.
      apply Hbefore. lia.
Qed.

Lemma retrievals_echo from k : retrievals (echo w from k) = 0%nat.
Proof.
  unfold echo, retrievals. induction (seq 0 k) as [|j l IH]; [reflexivity|].
  cbn [map]. rewrite filter_cons_False; [exact IH | discriminate].
Qed.

(** Monitoring with a run name, once the instance is selected and the
    stream is opened. *)
Lemma tail_logfile_opens fuel logfile instance_no run_name s rows r x :
  Py.truthy run_name = true ->
  selects w (clock s) instance_no rows r ->
  Py.truthy (state_ r) = true ->
  subprocess w (S (clock s)) (tail_cmd cfg (Some (public_dns r)) logfile) = inr x ->
  tail_logfile cfg w fuel logfile instance_no (Some run_name) s
  = try_except (tail_loop cfg w fuel run_name instance_no)
      (fun e => log_exn ERROR "Log tail failed: " e)
      (record [Subprocess Popen (tail_cmd cfg (Some (public_dns r)) logfile)] 1
         (selected rows instance_no r s)).
Proof.
  intros Hrn (Hl & Hlt & Hix) Hst Hpopen. unfold tail_logfile.
  erewrite step_bind by (apply get_instance_selects; eauto).
  cbn [Py.truthy_opt]. rewrite Hst. cbn [negb].
  erewrite step_bind by reflexivity.
  cbn [selected environ]. rewrite lookup_insert_eq. cbv zeta. rewrite Hrn.
  erewrite step_try_bind by (eapply subprocess_Popen_ok; exact Hpopen).
  reflexivity.
Qed.

End Stream.

(** X9.  Without a run name (the [log] command), [tail_logfile] hands the
    stream to one [ssh ... tail -f] child and reads nothing itself: whatever
    the log contains, no line is inspected and no retrieval is called. *)
Theorem tail_logfile_without_run_name (cfg : settings) (w : world) (fuel : nat)
    (logfile : string) (instance_no : Z) (run_name : option string) (s : state) rows r :
  Py.truthy_opt run_name = false ->
  selects w (clock s) instance_no rows r ->
  Py.truthy (state_ r) = true ->
  exists logs,
    tail_logfile cfg w fuel logfile instance_no run_name s
    = (Ret tt, record (Subprocess Run (tail_cmd cfg (Some (public_dns r)) logfile) :: logs) 1
                 (selected rows instance_no r s))
    /\ Forall (fun e => is_Log e = true) logs.
Proof.
  intros Hrn (Hl & Hlt & Hix) Hst. unfold tail_logfile.
  erewrite step_bind by (apply get_instance_selects; eauto).
  cbn [Py.truthy_opt]. rewrite Hst. cbn [negb].
  erewrite step_bind by reflexivity.
  cbn [selected environ]. rewrite lookup_insert_eq. cbv zeta. rewrite Hrn.
  match goal with |- context [try_except _ _ ?s0] => set (s1 := s0) end.
  destruct (subprocess w (clock s1) (tail_cmd cfg (Some (public_dns r)) logfile))
    as [e|x] eqn:E.
  - erewrite step_try_bind_raise by (eapply subprocess_run_raises; exact E).
    eexists [_]. split.
    + unfold log_exn, emit, record. cbn. rewrite <- !app_assoc. reflexivity.
    + repeat constructor.
  - erewrite step_try_bind by (eapply subprocess_run_ok; exact E).
    exists []. split; [reflexivity | constructor].
Qed.

Lemma tail_logfile_without_run_name_witness :
  exists logs,
    tail_logfile Examples.cfg Examples.log_with_marker 5 "imi_output.log" 0 None
      Examples.fresh
    = (Ret tt, record (Subprocess Run (tail_cmd Examples.cfg
                                         (Some "ec2-a.compute.amazonaws.com")
                                         "imi_output.log") :: logs) 1
                 (selected Examples.rows 0 (row_of Examples.inst_a) Examples.fresh))
    /\ Forall (fun e => is_Log e = true) logs.
Proof.
  apply (tail_logfile_without_run_name Examples.cfg Examples.log_with_marker 5
           "imi_output.log" 0 None Examples.fresh Examples.rows (row_of Examples.inst_a)).
  - reflexivity.
  - split; [|split].
    + exists [[Examples.inst_a]; [Examples.inst_b]]. split; reflexivity.
    + cbn. lia.
    + reflexivity.
  - reflexivity.
Defined.

(** X10.  A line that is not valid UTF-8 ends the monitoring: the lines
    before it are printed, the decoding error is logged as a failure of the
    log tail, and [tail_logfile] returns without reading further and without
    calling the retrieval, also when a sentinel would follow. *)
Theorem tail_logfile_stops_at_undecodable_line (cfg : settings) (w : world) (fuel : nat)
    (logfile : string) (instance_no : Z) (run_name : string) (s : state) rows r x (k : nat) :
  Py.truthy run_name = true ->
  selects w (clock s) instance_no rows r ->
  Py.truthy (state_ r) = true ->
  subprocess w (S (clock s)) (tail_cmd cfg (Some (public_dns r)) logfile) = inr x ->
  (k < fuel)%nat ->
  (forall j, (j < k)%nat -> ordinary_line (readline w (lines_read s + j))) ->
  Py.truthy (readline w (lines_read s + k)) = true ->
  Py.decode (readline w (lines_read s + k)) = None ->
  exists s',
    tail_logfile cfg w fuel logfile instance_no (Some run_name) s = (Ret tt, s')
    /\ lines_read s' = (lines_read s + S k)%nat
    /\ trace s'
       = (trace s ++ selection_trace rows instance_no r
          ++ [Subprocess Popen (tail_cmd cfg (Some (public_dns r)) logfile)]
          ++ echo w (lines_read s) k
          ++ [Log ERROR "Log tail failed: "
                (Some (UnicodeDecodeError (readline w (lines_read s + k))))])%list.
Proof.
  intros Hrn Hsel Hst Hpopen Hk Hbefore Htr Hdec.
  rewrite (tail_logfile_opens cfg w fuel logfile instance_no run_name s rows r x
             Hrn Hsel Hst Hpopen).
  replace fuel with (k + S (fuel - S k))%nat by lia.
  unfold try_except. rewrite tail_loop_skips by exact Hbefore.
  cbn [tail_loop]. rewrite stdout_readline_step.
  cbn [after_lines record selected lines_read]. rewrite Htr. cbn [negb].
  unfold decode. rewrite Hdec. unfold bind, raise.
  eexists. split; [reflexivity|]. cbn [log_exn emit snd trace lines_read environ fs clock].
  cbn [after_lines record selected trace lines_read].
  split; [lia|]. norm_trace. reflexivity.
Qed.

Lemma tail_logfile_stops_at_undecodable_line_witness :
  exists s',
    tail_logfile Examples.cfg Scenes.binary_log 5 "imi_output.log" 0 (Some "run1")
      Examples.fresh = (Ret tt, s')
    /\ lines_read s' = 2%nat
    /\ trace s'
       = (selection_trace Examples.rows 0 (row_of Examples.inst_a)
          ++ [Subprocess Popen (tail_cmd Examples.cfg (Some "ec2-a.compute.amazonaws.com")
                                  "imi_output.log")]
          ++ echo Scenes.binary_log 0 1
          ++ [Log ERROR "Log tail failed: "
                (Some (UnicodeDecodeError (String "255" ("garbled" +:+ Examples.nl))))])%list.
Proof.
  apply (tail_logfile_stops_at_undecodable_line Examples.cfg Scenes.binary_log 5
           "imi_output.log" 0 "run1" Examples.fresh Examples.rows (row_of Examples.inst_a)
           (0, EmptyString) 1%nat).
  - reflexivity.
  - split; [|split].
    + exists [[Examples.inst_a]; [Examples.inst_b]]. split; reflexivity.
    + cbn. lia.
    + reflexivity.
  - reflexivity.
  - reflexivity.
  - lia.
  - intros j Hj. assert (j = 0%nat) as -> by lia. vm_compute. auto.
  - reflexivity.
  - vm_compute. reflexivity.
Defined.

(** X11.  When the stream ends before any sentinel, [tail_logfile] returns:
    it has printed the lines it read, logged no error and called no
    retrieval. *)
Theorem tail_logfile_returns_at_end_of_stream (cfg : settings) (w : world) (fuel : nat)
    (logfile : string) (instance_no : Z) (run_name : string) (s : state) rows r x (k : nat) :
  Py.truthy run_name = true ->
  selects w (clock s) instance_no rows r ->
  Py.truthy (state_ r) = true ->
  subprocess w (S (clock s)) (tail_cmd cfg (Some (public_dns r)) logfile) = inr x ->
  (k < fuel)%nat ->
  (forall j, (j < k)%nat -> ordinary_line (readline w (lines_read s + j))) ->
  readline w (lines_read s + k) = EmptyString ->
  exists s',
    tail_logfile cfg w fuel logfile instance_no (Some run_name) s = (Ret tt, s')
    /\ lines_read s' = (lines_read s + S k)%nat
    /\ trace s'
       = (trace s ++ selection_trace rows instance_no r
          ++ [Subprocess Popen (tail_cmd cfg (Some (public_dns r)) logfile)]
          ++ echo w (lines_read s) k)%list.
Proof.
  intros Hrn Hsel Hst Hpopen Hk Hbefore Hend.
  rewrite (tail_logfile_opens cfg w fuel logfile instance_no run_name s rows r x
             Hrn Hsel Hst Hpopen).
  replace fuel with (k + S (fuel - S k))%nat by lia.
  unfold try_except. rewrite tail_loop_skips by exact Hbefore.
  cbn [tail_loop]. rewrite stdout_readline_step.
  cbn [after_lines record selected lines_read]. rewrite Hend. cbn [negb Py.truthy].
  eexists. split; [reflexivity|]. cbn [trace lines_read].
  cbn [after_lines record selected trace lines_read].
  split; [lia|]. norm_trace. reflexivity.
Qed.

Lemma tail_logfile_returns_at_end_of_stream_witness :
  exists s',
    tail_logfile Examples.cfg Scenes.short_log 5 "imi_output.log" 0 (Some "run1")
      Examples.fresh = (Ret tt, s')
    /\ lines_read s' = 2%nat
    /\ trace s'
       = (selection_trace Examples.rows 0 (row_of Examples.inst_a)
          ++ [Subprocess Popen (tail_cmd Examples.cfg (Some "ec2-a.compute.amazonaws.com")
                                  "imi_output.log")]
          ++ echo Scenes.short_log 0 1)%list.
Proof.
  apply (tail_logfile_returns_at_end_of_stream Examples.cfg Scenes.short_log 5
           "imi_output.log" 0 "run1" Examples.fresh Examples.rows (row_of Examples.inst_a)
           (0, EmptyString) 1%nat).
  - reflexivity.
  - split; [|split].
    + exists [[Examples.inst_a]; [Examples.inst_b]]. split; reflexivity.
    + cbn. lia.
    + reflexivity.
  - reflexivity.
  - reflexivity.
  - lia.
  - intros j Hj. assert (j = 0%nat) as -> by lia. vm_compute. auto.
  - reflexivity.
Defined.

(** ** [copy_to_local]: what a retrieval does to the local file system *)



Section Wildcard.

Variable cfg : settings.
Variable w : world.

Lemma for_each_subprocess_run (argv : string -> list string) (files : list string) :
  forall s,
    (forall k f, files !! k = Some f ->
       exists x, subprocess w (k + clock s) (argv f) = inr x) ->
    for_each files (fun f => _ <- subprocess_run w (argv f) ;; ret tt) s
    = (Ret tt, record (map (fun f => Subprocess Run (argv f)) files) (length files) s).
Proof.
  induction files as [|f files IH]; intros s Hrun; cbn [for_each map length].
  - now rewrite record_nil.
  - destruct (Hrun 0%nat f eq_refl) as (x & Hx).
    erewrite step_bind by (erewrite step_bind by (eapply subprocess_run_ok; exact Hx);
                           reflexivity).
    rewrite IH.
    + rewrite record_record. cbn [app]. do 2 f_equal. lia.
    + intros k f' Hk. cbn [record clock].
      replace (k + (1 + clock s))%nat with (S k + clock s)%nat by lia.
      apply Hrun. exact Hk.
Qed.

End Wildcard.

(** X13.  The wildcard item of the manifest lists the matching remote files
    and copies each listed file, in the order of the listing, one [scp] per
    file, into the item's local target. *)
Theorem wildcard_item_copies_listed_files (cfg : settings) (w : world)
    (public_url local_dir remote_path local_subdir : string) (s : state) (out : string) :
  Py.contains "*" remote_path = true ->
  subprocess w (clock s) (remote_ls cfg public_url remote_path) = inr (0, out) ->
  Py.decode out = Some out ->
  (forall k f, Py.words out !! k = Some f ->
     exists x, subprocess w (S k + clock s)
                 (scp_from cfg public_url f (local_target_of local_dir local_subdir))
               = inr x) ->
  transfer_item cfg w public_url local_dir (remote_path, local_subdir) s
  = (Ret tt,
     record (Subprocess CheckOutput (remote_ls cfg public_url remote_path)
             :: map (fun f => Subprocess Run
                                (scp_from cfg public_url f
                                   (local_target_of local_dir local_subdir)))
                  (Py.words out))
       (S (length (Py.words out))) s).
Proof.
  intros Hstar Hls Hdec Hscp. unfold transfer_item. rewrite Hstar.
  fold (local_target_of local_dir local_subdir). fold (remote_ls cfg public_url remote_path).
  assert (subprocess_check_output w (remote_ls cfg public_url remote_path) s
          = (Ret out, record [Subprocess CheckOutput (remote_ls cfg public_url remote_path)]
                        1 s)) as E.
  { unfold subprocess_check_output, bind, emit, tick. cbn -[remote_ls]. now rewrite Hls. }
  erewrite step_try_bind by exact E.
  unfold decode. rewrite Hdec. erewrite step_try_bind by reflexivity.
  unfold try_except.
  rewrite (for_each_subprocess_run w
             (fun f => scp_from cfg public_url f (local_target_of local_dir local_subdir))).
  - rewrite record_record. cbn [app]. do 2 f_equal. lia.
  - intros k f Hk. cbn [record clock].
    replace (k + (1 + clock s))%nat with (S k + clock s)%nat by lia. now apply Hscp.
Qed.

Lemma wildcard_item_copies_listed_files_witness :
  transfer_item Examples.cfg Scenes.two_configs "ec2-a.compute.amazonaws.com" "data/run1"
    ("/home/ubuntu/imi_output_dir/run1/*.yml", EmptyString) Examples.fresh
  = (Ret tt,
     record [ Subprocess CheckOutput
                ["ssh"; "-i"; "imikey.pem"; "ubuntu@ec2-a.compute.amazonaws.com";
                 "ls /home/ubuntu/imi_output_dir/run1/*.yml"];
              Subprocess Run
                (scp_from Examples.cfg "ec2-a.compute.amazonaws.com"
                   "/home/ubuntu/imi_output_dir/run1/config_run1.yml" "data/run1");
              Subprocess Run
                (scp_from Examples.cfg "ec2-a.compute.amazonaws.com"
                   "/home/ubuntu/imi_output_dir/run1/kalman.yml" "data/run1") ]
       3 Examples.fresh).
Proof.
  apply (wildcard_item_copies_listed_files Examples.cfg Scenes.two_configs
           "ec2-a.compute.amazonaws.com" "data/run1"
           "/home/ubuntu/imi_output_dir/run1/*.yml" EmptyString Examples.fresh
           ("/home/ubuntu/imi_output_dir/run1/config_run1.yml" +:+ Examples.nl
            +:+ "/home/ubuntu/imi_output_dir/run1/kalman.yml" +:+ Examples.nl)).
  - reflexivity.
  - reflexivity.
  - vm_compute. reflexivity.
  - intros k f _. eexists. reflexivity.
Defined.

Lemma makedirs_cases (w : world) path s :
  (exists e, makedirs w path s = (Raise e, s))
  \/ makedirs w path s = (Ret tt, with_dir path s).
Proof.
  unfold makedirs, with_dir. destruct (fs s !! path) as [[|]|] eqn:H.
  - left. eauto.
  - right. rewrite insert_id by exact H. now rewrite state_eta.
  - destruct (makedirs_error w path); [left; eauto | right; reflexivity].
Qed.

(** What a retrieval returns and what it does to the file system, whatever
    its environment does. *)
Lemma copy_to_local_file_system (cfg : settings) (w : world)
    (run_name : string) (instance_no : Z) (overwrite : bool) (s : state) :
  exists o s',
    copy_to_local cfg w run_name instance_no overwrite s = (Ret o, s')
    /\ match o with
       | None => fs s' = fs s
       | Some local_dir =>
           local_dir
           = local_dir_for (fs s) (OsPath.join (LOCAL_DATA_PATH cfg) run_name) overwrite
           /\ fs s' = <[local_dir := Dir]> (fs s)
       end.
Proof.
  unfold copy_to_local. rewrite bind_emit.
  destruct (get_instance_frame w instance_no
              (record [EnterCopyToLocal run_name instance_no overwrite] 0 s))
    as (o & evs & env' & E & _ & _).
  erewrite step_try_bind by exact E. cbn [record fs].
  destruct (negb (Py.truthy_opt o)).
  { exists None. eexists. split; reflexivity. }
  erewrite step_try_bind by reflexivity. cbn [environ].
  destruct (negb (Py.truthy_opt (env' !! PUBLIC_URL_VAR))).
  { exists None. eexists. split; reflexivity. }
  cbv zeta. erewrite step_try_bind by apply choose_local_dir_spec. cbn [fs].
  set (local_dir := local_dir_for (fs s) _ overwrite).
  match goal with |- context [try_except _ _ ?s0] => set (s1 := s0) end.
  assert (fs s1 = fs s) as Hfs by (subst s1; destruct overwrite; reflexivity).
  destruct (makedirs_cases w local_dir s1) as [[e Hmk]|Hmk].
  - erewrite step_try_bind_raise by exact Hmk.
    exists None. eexists. split; [reflexivity|]. exact Hfs.
  - erewrite step_try_bind by exact Hmk.
    destruct (for_each_transfer_items cfg w (default EmptyString (env' !! PUBLIC_URL_VAR))
                local_dir (transfer_items run_name) (with_dir local_dir s1))
      as (s2 & evs2 & E2 & _ & _ & F2 & _).
    erewrite step_try_bind by exact E2.
    exists (Some local_dir). eexists. split; [reflexivity|]. split; [reflexivity|].
    cbn [record fs]. rewrite F2. cbn [with_dir fs]. now rewrite Hfs.
Qed.


Lemma free_dir_is_free (files : gmap string fkind) (base : string) (fuel : nat) :
  forall d c r, free_dir fuel files base d c = Some r -> files !! r = None.
Proof.
  induction fuel as [|fuel IH]; intros d c r; cbn [free_dir];
    destruct (bool_decide (is_Some (files !! d))) eqn:Hd.
  - discriminate.
  - intros [= <-]. apply bool_decide_eq_false in Hd. now apply eq_None_not_Some.
  - apply IH.
  - intros [= <-]. apply bool_decide_eq_false in Hd. now apply eq_None_not_Some.
Qed.

(** X15.  Without the override, a retrieval never writes into a directory
    that was there before: the directory it returns did not exist when it
    was called. *)
Theorem copy_to_local_never_reuses_a_directory (cfg : settings) (w : world)
    (run_name : string) (instance_no : Z) (s : state) local_dir s' :
  copy_to_local cfg w run_name instance_no false s = (Ret (Some local_dir), s') ->
  fs s !! local_dir = None /\ fs s' !! local_dir = Some Dir.
Proof.
  intros E.
  destruct (copy_to_local_file_system cfg w run_name instance_no false s)
    as (o & s1 & E1 & H). rewrite E in E1. injection E1 as <- <-.
  destruct H as [Hd Hfs]. split.
  - rewrite Hd. unfold local_dir_for.
    destruct (free_dir_total (fs s) (OsPath.join (LOCAL_DATA_PATH cfg) run_name))
      as [d Hfree].
    rewrite Hfree. cbn [default]. eapply free_dir_is_free, Hfree.
  - rewrite Hfs. apply lookup_insert_eq.
Qed.

Lemma copy_to_local_never_reuses_a_directory_witness :
  fs Examples.retrieved_once !! "data/run1_1" = None
  /\ fs (snd (copy_to_local Examples.cfg Examples.calm "run1" 0 false
                Examples.retrieved_once)) !! "data/run1_1" = Some Dir.
Proof.
  apply (copy_to_local_never_reuses_a_directory Examples.cfg Examples.calm "run1" 0
           Examples.retrieved_once "data/run1_1"
           (snd (copy_to_local Examples.cfg Examples.calm "run1" 0 false
                   Examples.retrieved_once))).
  vm_compute. reflexivity.
Defined.

(** ** [instance_setup] and [create_instance] *)

Section Setup.

Variable cfg : settings.
Variable w : world.

Lemma keeps_environ_instance_setup public_url :
  keeps environ (instance_setup cfg w public_url).
Proof. unfold instance_setup. keeps. Qed.

Lemma keeps_fs_instance_setup public_url : keeps fs (instance_setup cfg w public_url).
Proof. unfold instance_setup. keeps. Qed.

Lemma plain_setup_copies public_url (files : list (string * string)) :
  plain (for_each files (fun '(local_file, remote_path) =>
           present <- path_exists local_file ;;
           if present then
             _ <- subprocess_run w ["scp"; "-i"; SSH_KEY_PATH cfg; local_file;
                                    "ubuntu@" +:+ public_url +:+ ":" +:+ remote_path] ;;
             ret tt
           else log WARNING ("Missing file: " +:+ local_file))).
Proof. effects. Qed.

(** When every command can be started, the loop over the files leaves one
    event per file, in order. *)
Lemma setup_copies_trace public_url (files : list (string * string)) :
  (forall t argv, exists x, subprocess w t argv = inr x) ->
  forall s, exists s',
    for_each files (fun '(local_file, remote_path) =>
       present <- path_exists local_file ;;
       if present then
         _ <- subprocess_run w ["scp"; "-i"; SSH_KEY_PATH cfg; local_file;
                                "ubuntu@" +:+ public_url +:+ ":" +:+ remote_path] ;;
         ret tt
       else log WARNING ("Missing file: " +:+ local_file)) s = (Ret tt, s')
    /\ trace s' = trace s ++ map (setup_copy cfg public_url (fs s)) files
    /\ fs s' = fs s.
Proof.
  intros spawns. induction files as [|[local_file remote_path] files IH]; intros s;
    cbn [for_each map].
  - exists s. rewrite app_nil_r. auto.
  - assert (exists s1,
              (present <- path_exists local_file ;;
               if present then
                 _ <- subprocess_run w ["scp"; "-i"; SSH_KEY_PATH cfg; local_file;
                                        "ubuntu@" +:+ public_url +:+ ":" +:+ remote_path] ;;
                 ret tt
               else log WARNING ("Missing file: " +:+ local_file)) s = (Ret tt, s1)
              /\ trace s1 = trace s ++ [setup_copy cfg public_url (fs s)
                                          (local_file, remote_path)]
              /\ fs s1 = fs s)
      as (s1 & E1 & T1 & F1).
    { erewrite step_bind by reflexivity. unfold setup_copy.
      destruct (bool_decide (is_Some (fs s !! local_file))).
      - destruct (spawns (clock s) ["scp"; "-i"; SSH_KEY_PATH cfg; local_file;
                    "ubuntu@" +:+ public_url +:+ ":" +:+ remote_path]) as [x Hx].
        erewrite step_bind by (eapply subprocess_run_ok; exact Hx).
        eexists. split; [reflexivity|]. cbn [record trace fs]. auto.
      - eexists. split; [reflexivity|]. cbn [record trace fs]. auto. }
    erewrite step_bind by exact E1.
    destruct (IH s1) as (s' & E & T & F).
    exists s'. split; [exact E|]. rewrite T, F, T1, F1, <- app_assoc. auto.
Qed.

End Setup.

(** X16.  [instance_setup] never raises: it returns [True] and the last
    thing it did was to send the remote command line, or it returns [False]
    and the last thing it did was to log the exception that stopped it.  In
    both cases the environment variables and the file system are as they
    were. *)
Theorem instance_setup_outcomes (cfg : settings) (w : world) (public_url : string)
    (s : state) :
  exists (done : bool) s' evs,
    instance_setup cfg w public_url s = (Ret done, s')
    /\ environ s' = environ s /\ fs s' = fs s
    /\ if done
       then trace s' = trace s ++ evs
                       ++ [Subprocess Run (ssh_to cfg public_url ++ [setup_command_line])]
       else exists e, trace s' = trace s ++ evs ++ [Log ERROR "Setup failed: " (Some e)].
Proof.
  pose proof (keeps_environ_instance_setup cfg w public_url s) as Henv.
  pose proof (keeps_fs_instance_setup cfg w public_url s) as Hfs.
  revert Henv Hfs. unfold instance_setup.
  destruct (plain_setup_copies cfg w public_url (files_to_copy cfg) s)
    as (o & s1 & evs1 & E1 & T1 & _ & _ & O1).
  destruct o as [[]|e| |]; try contradiction.
  - erewrite step_try_bind by exact E1.
    destruct (subprocess w (clock s1) (ssh_to cfg public_url ++ [setup_command_line]))
      as [e|x] eqn:Hssh.
    + erewrite step_try_bind_raise by (eapply subprocess_run_raises; exact Hssh).
      intros Henv Hfs. exists false. eexists _, (evs1 ++ [_]).
      split; [reflexivity|]. split; [exact Henv|]. split; [exact Hfs|].
      exists e. cbn [log_exn emit bind ret snd record trace]. rewrite T1.
      now rewrite <- !app_assoc.
    + erewrite step_try_bind by (eapply subprocess_run_ok; exact Hssh).
      intros Henv Hfs. exists true. eexists _, evs1.
      split; [reflexivity|]. split; [exact Henv|]. split; [exact Hfs|].
      cbn [record trace]. rewrite T1. now rewrite <- !app_assoc.
  - erewrite step_try_bind_raise by exact E1.
    intros Henv Hfs. exists false. eexists _, evs1.
    split; [reflexivity|]. split; [exact Henv|]. split; [exact Hfs|].
    exists e. cbn [log_exn emit bind ret snd record trace]. now rewrite T1, <- !app_assoc.
Qed.

(** X17.  When every command can be started, [instance_setup] goes through
    the files in order: a file that is there is copied with one [scp], a
    file that is missing only gets a warning; then the remote command line is
    sent and [instance_setup] returns [True], whatever the exit statuses. *)
Theorem instance_setup_skips_missing_files (cfg : settings) (w : world)
    (public_url : string) (s : state) :
  (forall t argv, exists x, subprocess w t argv = inr x) ->
  exists s',
    instance_setup cfg w public_url s = (Ret true, s')
    /\ trace s'
       = trace s ++ map (setup_copy cfg public_url (fs s)) (files_to_copy cfg)
         ++ [Subprocess Run (ssh_to cfg public_url ++ [setup_command_line])].
Proof.
  intros spawns. unfold instance_setup.
  destruct (setup_copies_trace cfg w public_url (files_to_copy cfg) spawns s)
    as (s1 & E1 & T1 & _).
  erewrite step_try_bind by exact E1.
  destruct (spawns (clock s1) (ssh_to cfg public_url ++ [setup_command_line])) as [x Hx].
  erewrite step_try_bind by (eapply subprocess_run_ok; exact Hx).
  eexists. split; [reflexivity|]. cbn [record trace]. rewrite T1, <- app_assoc. reflexivity.
Qed.

Lemma instance_setup_skips_missing_files_witness :
  let s := {| environ := ∅; fs := <["fixslurm.sh" := File]> ∅; trace := []; clock := 0;
              lines_read := 0 |} in
  exists s',
    instance_setup Examples.cfg Examples.calm "ec2-a.compute.amazonaws.com" s
    = (Ret true, s')
    /\ trace s'
       = [ Log WARNING "Missing file: tmux_install.sh" None;
           Subprocess Run ["scp"; "-i"; "imikey.pem"; "fixslurm.sh";
                           "ubuntu@ec2-a.compute.amazonaws.com:/home/ubuntu/"];
           Log WARNING "Missing file: region.shp" None;
           Log WARNING "Missing file: region.shx" None;
           Log WARNING "Missing file: StateVector.nc" None;
           Subprocess Run (ssh_to Examples.cfg "ec2-a.compute.amazonaws.com"
                             ++ [setup_command_line]) ].
Proof.
  intros s.
  apply (instance_setup_skips_missing_files Examples.cfg Examples.calm
           "ec2-a.compute.amazonaws.com" s).
  intros t argv. eexists. reflexivity.
Defined.

(** X18.  Options that are not valid JSON (or cannot be merged) make
    [create_instance] return [False] before anything is asked of the
    provider: it only writes log records, among them the error. *)
Theorem create_instance_rejects_invalid_options (cfg : settings) (w : world)
    (options : string) (s : state) e :
  Py.truthy options = true ->
  json_options w options = inl e ->
  exists logs,
    create_instance cfg w (Some options) s = (Ret false, record logs 0 s)
    /\ Forall (fun ev => is_Log ev = true) logs
    /\ In (Log ERROR (if is_JSONDecodeError e then "❌ Invalid JSON format: "
                      else "❌ Invalid options: ") (Some e)) logs.
Proof.
  intros Hopt Hjson. unfold create_instance. unfold log at 1. rewrite try_bind_emit'.
  unfold merge_options. cbn [Py.truthy_opt]. rewrite Hopt.
  change (default EmptyString (Some options)) with options. rewrite Hjson.
  destruct (is_JSONDecodeError e) eqn:He.
  - eexists [_; _; _]. split; [|split].
    + unfold try_except, bind, lift_result, raise, log_exn, log, emit, ret. rewrite He.
      unfold record. cbn. norm_trace. reflexivity.
    + repeat constructor.
    + right. left. reflexivity.
  - eexists [_; _]. split; [|split].
    + unfold try_except, bind, lift_result, raise, log_exn, log, emit, ret. rewrite He.
      unfold record. cbn. norm_trace. reflexivity.
    + repeat constructor.
    + right. left. reflexivity.
Qed.

Lemma create_instance_rejects_invalid_options_witness :
  exists logs,
    create_instance Examples.cfg Scenes.bad_options (Some "InstanceType=t3.micro")
      Examples.fresh = (Ret false, record logs 0 Examples.fresh)
    /\ Forall (fun ev => is_Log ev = true) logs
    /\ In (Log ERROR "❌ Invalid JSON format: "
             (Some (JSONDecodeError "Expecting value: line 1 column 1 (char 0)"))) logs.
Proof.
  apply (create_instance_rejects_invalid_options Examples.cfg Scenes.bad_options
           "InstanceType=t3.micro" Examples.fresh
           (JSONDecodeError "Expecting value: line 1 column 1 (char 0)")).
  - reflexivity.
  - reflexivity.
Defined.

(** X19.  When the provider describes the new instance without a public DNS
    name, [create_instance] gives up with a [KeyError]: it returns [False],
    makes no handshake and leaves the cached slots alone, although the
    instance was started. *)
Theorem create_instance_without_dns_name (cfg : settings) (w : world) (s : state)
    first rest inst more more' :
  run_instances w (clock s) (default_run_args cfg) = inr (first :: rest) ->
  wait_instance_status_ok w (S (clock s)) (InstanceId first) = None ->
  describe_instances w (S (S (clock s))) (Some [InstanceId first])
  = inr ((inst :: more) :: more') ->
  PublicDnsName inst = None ->
  create_instance cfg w None s
  = (Ret false,
     record [ Log INFO "🚀 Launching EC2 instance..." None;
              Api (RunInstances (default_run_args cfg));
              Log INFO ("🆔 Instance ID: " +:+ InstanceId first) None;
              Log INFO
                "⏳ Waiting for instance initialization (this may take a few minutes)..."
                None;
              Api (WaitInstanceStatusOk (InstanceId first));
              Api (DescribeInstances (Some [InstanceId first]));
              Log ERROR "❌ Instance creation failed: " (Some (KeyError "PublicDnsName")) ]
       3 s).
Proof.
  intros Hrun Hwait Hdesc Hdns.
  unfold create_instance. unfold log at 1. rewrite try_bind_emit'.
  erewrite step_try_bind by reflexivity. cbv beta iota.
  erewrite step_try_bind by (eapply ec2_run_instances_ok; exact Hrun).
  erewrite step_try_bind by reflexivity. cbv zeta.
  unfold log at 1. rewrite try_bind_emit'. unfold log at 1. rewrite try_bind_emit'.
  erewrite step_try_bind by (eapply waiter_wait_ok; exact Hwait).
  erewrite step_try_bind by (eapply ec2_describe_instances_ok; exact Hdesc).
  erewrite step_try_bind by reflexivity.
  erewrite step_try_bind by reflexivity.
  rewrite Hdns. erewrite step_try_bind_raise by reflexivity.
  unfold log_exn. rewrite bind_emit. rewrite !record_record. reflexivity.
Qed.

Lemma create_instance_without_dns_name_witness :
  create_instance Examples.cfg Scenes.no_address None Examples.cached
  = (Ret false,
     record [ Log INFO "🚀 Launching EC2 instance..." None;
              Api (RunInstances (default_run_args Examples.cfg));
              Log INFO "🆔 Instance ID: i-0b" None;
              Log INFO
                "⏳ Waiting for instance initialization (this may take a few minutes)..."
                None;
              Api (WaitInstanceStatusOk "i-0b");
              Api (DescribeInstances (Some ["i-0b"]));
              Log ERROR "❌ Instance creation failed: " (Some (KeyError "PublicDnsName")) ]
       3 Examples.cached).
Proof.
  apply (create_instance_without_dns_name Examples.cfg Scenes.no_address Examples.cached
           Examples.inst_b [] Examples.inst_b [] []); reflexivity.
Defined.

Lemma environ_unless_true_keeps (m : M bool) : keeps environ m -> environ_unless_true m.
Proof. intros H s. right. apply H. Qed.

Lemma environ_unless_true_bind {A} (m : M A) (k : A -> M bool) :
  keeps environ m -> (forall a, environ_unless_true (k a)) ->
  environ_unless_true (bind m k).
Proof.
  intros Hm Hk s. unfold bind. specialize (Hm s).
  destruct (m s) as [[a|e|n|] s1]; cbn [snd] in *; try (right; exact Hm).
  destruct (Hk a s1) as [H|H]; [left; exact H | right; now rewrite H].
Qed.

Lemma environ_unless_true_try_except (m : M bool) (h : exn -> M bool) :
  environ_unless_true m -> (forall e, keeps environ (h e)) ->
  environ_unless_true (try_except m h).
Proof.
  intros Hm Hh s. unfold try_except. specialize (Hm s).
  destruct (m s) as [[a|e|n|] s1]; cbn [fst snd] in *; try exact Hm.
  destruct Hm as [Hm|Hm]; [discriminate|]. right. now rewrite Hh.
Qed.

Section Creation.

Variable cfg : settings.
Variable w : world.

Lemma keeps_ssh_probe {X} (f : state -> X) public_dns :
  (forall s e, f (snd (emit e s)) = f s) ->
  (forall s, f (snd (tick s)) = f s) ->
  forall n, keeps f (ssh_probe cfg w n public_dns).
Proof.
  intros Hemit Htick n. induction n as [|n IH]; cbn [ssh_probe]; [apply keeps_ret|].
  unfold try_except_only. apply keeps_bind.
  - unfold subprocess_run_check. keeps.
    all: try (intros s; first [apply Hemit | apply Htick]).
  - intros [|]; [apply keeps_ret | exact IH].
Qed.

Lemma plain_ssh_probe public_dns n : plain (ssh_probe cfg w n public_dns).
Proof.
  induction n as [|n IH]; cbn [ssh_probe]; [effects|].
  unfold try_except_only. apply plain_bind; [effects|].
  intros [|]; [effects | exact IH].
Qed.

Lemma returns_instance_setup public_url : returns (instance_setup cfg w public_url).
Proof. unfold instance_setup. effects. Qed.

Lemma returns_merge_options options : returns (merge_options cfg w options).
Proof. unfold merge_options. effects. Qed.

Lemma returns_create_instance options : returns (create_instance cfg w options).
Proof.
  unfold create_instance, ec2_run_instances, waiter_wait, ec2_describe_instances.
  pose proof plain_ssh_probe. pose proof returns_instance_setup.
  pose proof returns_merge_options. effects.
Qed.

Lemma keeps_fs_create_instance options : keeps fs (create_instance cfg w options).
Proof.
  unfold create_instance, merge_options, ec2_run_instances, waiter_wait,
    ec2_describe_instances.
  pose proof keeps_fs_instance_setup.
  assert (forall d n, keeps fs (ssh_probe cfg w n d)) as Hprobe
    by (intros; apply keeps_ssh_probe; reflexivity).
  keeps; auto.
Qed.

Lemma environ_unless_true_create_instance options :
  environ_unless_true (create_instance cfg w options).
Proof.
  unfold create_instance.
  assert (forall d n, keeps environ (ssh_probe cfg w n d)) as Hprobe
    by (intros; apply keeps_ssh_probe; reflexivity).
  apply environ_unless_true_try_except; [|keeps].
  apply environ_unless_true_bind; [keeps|]. intros _.
  apply environ_unless_true_bind; [unfold merge_options; keeps|]. intros [run_args|];
    [|apply environ_unless_true_keeps; keeps].
  apply environ_unless_true_bind; [unfold ec2_run_instances; keeps|]. intros response.
  apply environ_unless_true_bind; [keeps|]. intros first. cbv zeta.
  apply environ_unless_true_bind; [keeps|]. intros _.
  apply environ_unless_true_bind; [keeps|]. intros _.
  apply environ_unless_true_bind; [unfold waiter_wait; keeps|]. intros _.
  apply environ_unless_true_bind; [unfold ec2_describe_instances; keeps|].
  intros reservations.
  apply environ_unless_true_bind; [keeps|]. intros reservation.
  apply environ_unless_true_bind; [keeps|]. intros inst.
  apply environ_unless_true_bind; [keeps|]. intros public_dns.
  apply environ_unless_true_bind; [keeps|]. intros _.
  apply environ_unless_true_bind; [keeps|]. intros _.
  apply environ_unless_true_bind; [apply Hprobe|]. intros ssh_ready.
  destruct (negb ssh_ready); [apply environ_unless_true_keeps; keeps|].
  apply environ_unless_true_bind; [keeps|]. intros _.
  apply environ_unless_true_bind; [apply keeps_environ_instance_setup|]. intros [|].
  - intros s. left. reflexivity.
  - apply environ_unless_true_keeps. keeps.
Qed.

End Creation.

(** X20.  [create_instance] never raises and never ends the process: it
    returns [True] or [False].  It leaves the local file system alone, and it
    writes the two cached slots only when it returns [True]: after a failure
    at any step (options, launch, status checks, description, handshakes,
    setup) the environment variables are as they were. *)
Theorem create_instance_caches_only_on_success (cfg : settings) (w : world)
    (options : option string) (s : state) :
  exists (done : bool) s',
    create_instance cfg w options s = (Ret done, s')
    /\ fs s' = fs s
    /\ (done = false -> environ s' = environ s).
Proof.
  destruct (returns_create_instance cfg w options s) as (done & s' & evs & E & _).
  exists done, s'. split; [exact E|].
  pose proof (keeps_fs_create_instance cfg w options s) as Hfs.
  pose proof (environ_unless_true_create_instance cfg w options s) as Henv.
  rewrite E in Hfs, Henv. cbn [fst snd] in *. split; [exact Hfs|].
  intros ->. destruct Henv as [H|H]; [discriminate | exact H].
Qed.

(** ** The other commands on a selected instance *)

(** A refused selection starts no command. *)
Lemma get_instance_rejects_quietly (w : world) (instance_no : Z) (s : state) rows :
  listing w (clock s) rows ->
  Z.of_nat (length rows) <= instance_no \/ instance_no < - Z.of_nat (length rows) ->
  exists evs,
    get_instance w instance_no s = (Ret None, record evs 1 s)
    /\ Forall (fun e => match e with Subprocess _ _ => False | _ => True end) evs.
Proof.
  intros [resp [Hd Hb]] Hrange.
  unfold get_instance, try_except, ec2_describe_instances, bind, emit, tick, lift_result.
  cbn. rewrite Hd. cbn. rewrite Hb.
  destruct rows as [|r0 rows'].
  { eexists [_; _]. split.
    - unfold record. cbn. rewrite <- !app_assoc. reflexivity.
    - repeat constructor. }
  cbn. destruct (Z.geb_spec instance_no (Z.of_nat (S (length rows')))) as [Hge|Hlt].
  { eexists [_; _; _; _]. split.
    - unfold record. cbn. rewrite <- !app_assoc. reflexivity.
    - repeat constructor. }
  assert (Py.index (r0 :: rows') instance_no = None) as ->.
  { unfold Py.index. cbn [length] in *.
    destruct (Z.leb_spec 0 instance_no); [lia|].
    destruct (Z.leb_spec (- Z.of_nat (S (length rows'))) instance_no); [lia|reflexivity]. }
  eexists [_; _; _; _]. split.
  - unfold record. cbn. rewrite <- !app_assoc. reflexivity.
  - repeat constructor.
Qed.

(** X21.  [open_shell] on a selected instance runs exactly one [ssh]
    command, to that instance, with the caller's arguments appended, and
    returns; the only other thing it may write is the error of an [ssh] that
    cannot be started.  It does not look at the address: an instance with an
    empty address (a stopped one) is connected to all the same. *)
Theorem open_shell_runs_one_ssh (cfg : settings) (w : world) (instance_no : Z)
    (args : list string) (s : state) rows r :
  selects w (clock s) instance_no rows r ->
  Py.truthy (state_ r) = true ->
  exists logs,
    open_shell cfg w instance_no args s
    = (Ret tt, record (Subprocess Run (ssh_to cfg (public_dns r) ++ args) :: logs) 1
                 (selected rows instance_no r s))
    /\ Forall (fun e => is_Log e = true) logs.
Proof.
  intros (Hl & Hlt & Hix) Hst. unfold open_shell.
  erewrite step_bind by (apply get_instance_selects; eauto).
  cbn [Py.truthy_opt]. rewrite Hst. cbn [negb].
  erewrite step_bind by reflexivity.
  cbn [selected environ]. rewrite lookup_insert_eq. cbv zeta. cbn [fmt].
  assert ((match args with [] => ssh_to cfg (public_dns r)
           | _ :: _ => ssh_to cfg (public_dns r) ++ args end)
          = ssh_to cfg (public_dns r) ++ args) as ->
    by (destruct args; [now rewrite app_nil_r | reflexivity]).
  match goal with |- context [try_except _ _ ?s0] => set (s1 := s0) end.
  destruct (subprocess w (clock s1) (ssh_to cfg (public_dns r) ++ args)) as [e|x] eqn:E.
  - erewrite step_try_bind_raise by (eapply subprocess_run_raises; exact E).
    eexists [_]. split.
    + unfold log_exn, emit, record. cbn. rewrite <- !app_assoc. reflexivity.
    + repeat constructor.
  - erewrite step_try_bind by (eapply subprocess_run_ok; exact E).
    exists []. split; [reflexivity | constructor].
Qed.

Lemma open_shell_runs_one_ssh_witness :
  exists logs,
    open_shell Examples.cfg Examples.calm 0 ["nproc"] Examples.fresh
    = (Ret tt, record (Subprocess Run ["ssh"; "-i"; "imikey.pem";
                                       "ubuntu@ec2-a.compute.amazonaws.com"; "nproc"]
                       :: logs) 1
                 (selected Examples.rows 0 (row_of Examples.inst_a) Examples.fresh))
    /\ Forall (fun e => is_Log e = true) logs.
Proof.
  apply (open_shell_runs_one_ssh Examples.cfg Examples.calm 0 ["nproc"] Examples.fresh
           Examples.rows (row_of Examples.inst_a)).
  - split; [|split].
    + exists [[Examples.inst_a]; [Examples.inst_b]]. split; reflexivity.
    + cbn. lia.
    + reflexivity.
  - reflexivity.
Defined.

(** X22.  [copy_from_s3] makes the run directory on the instance and then
    starts the download in a detached tmux session, as two [ssh] commands in
    that order; it looks at neither exit status: the download is started and
    reported as started also when the directory could not be made. *)
Theorem copy_from_s3_runs_both_commands (cfg : settings) (w : world) (run_name : string)
    (instance_no : Z) (s : state) rows r x1 x2 :
  selects w (clock s) instance_no rows r ->
  Py.truthy (state_ r) = true ->
  subprocess w (S (clock s)) (ssh_to cfg (public_dns r) ++ [s3_mkdir run_name]) = inr x1 ->
  subprocess w (S (S (clock s))) (ssh_to cfg (public_dns r) ++ [s3_download run_name])
  = inr x2 ->
  copy_from_s3 cfg w run_name instance_no s
  = (Ret tt,
     record [ Subprocess Run (ssh_to cfg (public_dns r) ++ [s3_mkdir run_name]);
              Subprocess Run (ssh_to cfg (public_dns r) ++ [s3_download run_name]);
              Log INFO ("Started S3 download for " +:+ run_name +:+ " in tmux session")
                None ] 2
       (selected rows instance_no r s)).
Proof.
  intros (Hl & Hlt & Hix) Hst H1 H2. unfold copy_from_s3.
  erewrite step_bind by (apply get_instance_selects; eauto).
  cbn [Py.truthy_opt]. rewrite Hst. cbn [negb].
  erewrite step_bind by reflexivity.
  cbn [selected environ]. rewrite lookup_insert_eq. cbn [fmt].
  erewrite step_try_bind by (eapply subprocess_run_ok; exact H1).
  erewrite step_try_bind by (eapply subprocess_run_ok; exact H2).
  unfold try_except, log, emit. cbn. unfold record. cbn. norm_trace. reflexivity.
Qed.

Lemma copy_from_s3_runs_both_commands_witness :
  copy_from_s3 Examples.cfg Scenes.no_configs "run1" 0 Examples.fresh
  = (Ret tt,
     record [ Subprocess Run (ssh_to Examples.cfg "ec2-a.compute.amazonaws.com"
                                ++ [s3_mkdir "run1"]);
              Subprocess Run (ssh_to Examples.cfg "ec2-a.compute.amazonaws.com"
                                ++ [s3_download "run1"]);
              Log INFO "Started S3 download for run1 in tmux session" None ] 2
       (selected Examples.rows 0 (row_of Examples.inst_a) Examples.fresh)).
Proof.
  apply (copy_from_s3_runs_both_commands Examples.cfg Scenes.no_configs "run1" 0
           Examples.fresh Examples.rows (row_of Examples.inst_a)
           (2, EmptyString) (2, EmptyString)).
  - split; [|split].
    + exists [[Examples.inst_a]; [Examples.inst_b]]. split; reflexivity.
    + cbn. lia.
    + reflexivity.
  - reflexivity.
  - reflexivity.
  - reflexivity.
Defined.

(** X23.  [instance_setup_cli] refuses an instance whose address is empty:
    it logs the error and returns [False] without starting a command.  With
    an address it is [instance_setup] for that address. *)
Theorem instance_setup_cli_needs_an_address (cfg : settings) (w : world) (instance_no : Z)
    (s : state) rows r :
  selects w (clock s) instance_no rows r ->
  Py.truthy (state_ r) = true ->
  instance_setup_cli cfg w instance_no s
  = if Py.truthy (public_dns r)
    then instance_setup cfg w (public_dns r) (selected rows instance_no r s)
    else (Ret false, record [Log ERROR "No public URL found" None] 0
                       (selected rows instance_no r s)).
Proof.
  intros (Hl & Hlt & Hix) Hst. unfold instance_setup_cli.
  erewrite step_bind by (apply get_instance_selects; eauto).
  cbn [Py.truthy_opt]. rewrite Hst. cbn [negb].
  erewrite step_bind by reflexivity.
  cbn [selected environ]. rewrite lookup_insert_eq. cbn [Py.truthy_opt].
  destruct (Py.truthy (public_dns r)); reflexivity.
Qed.

(** X24.  When the index selects no instance, none of the three commands
    starts anything: [open_shell] and [copy_from_s3] return at once, and
    [instance_setup_cli] logs the error and returns [False]. *)
Theorem commands_without_instance (cfg : settings) (w : world) (instance_no : Z)
    (args : list string) (run_name : string) (s : state) rows :
  listing w (clock s) rows ->
  Z.of_nat (length rows) <= instance_no \/ instance_no < - Z.of_nat (length rows) ->
  exists evs,
    Forall (fun e => match e with Subprocess _ _ => False | _ => True end) evs
    /\ open_shell cfg w instance_no args s = (Ret tt, record evs 1 s)
    /\ copy_from_s3 cfg w run_name instance_no s = (Ret tt, record evs 1 s)
    /\ instance_setup_cli cfg w instance_no s
       = (Ret false, record (evs ++ [Log ERROR "No instance found for setup" None]) 1 s).
Proof.
  intros Hl Hrange.
  destruct (get_instance_rejects_quietly w instance_no s rows Hl Hrange) as (evs & E & Hq).
  exists evs. split; [exact Hq|].
  unfold open_shell, copy_from_s3, instance_setup_cli.
  erewrite !step_bind by exact E. cbn [Py.truthy_opt negb].
  split; [reflexivity|]. split; [reflexivity|].
  unfold log. rewrite bind_emit, record_record. reflexivity.
Qed.

Lemma instance_setup_cli_needs_an_address_witness :
  instance_setup_cli Examples.cfg Scenes.stopped_only 0 Examples.fresh
  = (Ret false, record [Log ERROR "No public URL found" None] 0
                  (selected [row_of Scenes.inst_c] 0 (row_of Scenes.inst_c)
                     Examples.fresh)).
Proof.
  apply (instance_setup_cli_needs_an_address Examples.cfg Scenes.stopped_only 0
           Examples.fresh [row_of Scenes.inst_c] (row_of Scenes.inst_c)).
  - split; [|split].
    + exists [[Scenes.inst_c]]. split; reflexivity.
    + cbn. lia.
    + reflexivity.
  - reflexivity.
Defined.

Lemma commands_without_instance_witness :
  exists evs,
    Forall (fun e => match e with Subprocess _ _ => False | _ => True end) evs
    /\ open_shell Examples.cfg Examples.calm 9 [] Examples.fresh
       = (Ret tt, record evs 1 Examples.fresh)
    /\ copy_from_s3 Examples.cfg Examples.calm "run1" 9 Examples.fresh
       = (Ret tt, record evs 1 Examples.fresh)
    /\ instance_setup_cli Examples.cfg Examples.calm 9 Examples.fresh
       = (Ret false,
          record (evs ++ [Log ERROR "No instance found for setup" None]) 1 Examples.fresh).
Proof.
  apply (commands_without_instance Examples.cfg Examples.calm 9 [] "run1" Examples.fresh
           Examples.rows).
  - exists [[Examples.inst_a]; [Examples.inst_b]]. split; reflexivity.
  - left. cbn. lia.
Defined.

(** ** The lifecycle commands *)

Section LifecycleSteps.

Import Lifecycle.

Lemma step_bindL {A B} (m : L A) (k : A -> L B) x a x1 :
  m x = (Ret a, x1) -> bindL m k x = k a x1.
Proof. intros H. unfold bindL. now rewrite H. Qed.

Lemma step_try_bindL {A B} (m : L A) (k : A -> L B) h x a x1 :
  m x = (Ret a, x1) -> try_exceptL (bindL m k) h x = try_exceptL (k a) h x1.
Proof. intros H. unfold try_exceptL, bindL. now rewrite H. Qed.

Lemma step_try_bindL_raise {A B} (m : L A) (k : A -> L B) h x e x1 :
  m x = (Raise e, x1) -> try_exceptL (bindL m k) h x = h e x1.
Proof. intros H. unfold try_exceptL, bindL. now rewrite H. Qed.

Lemma lift_step {A} (m : M A) x o s1 :
  m (base x) = (o, s1) -> lift m x = (o, on_base (fun _ => s1) x).
Proof. intros H. unfold lift. now rewrite H. Qed.

Lemma request_completed c (answer : nat -> option exn) x :
  request c (fun t => completed (answer t)) x
  = (match answer (clock (base x)) with Some e => Raise e | None => Ret tt end,
     {| base := {| environ := environ (base x); fs := fs (base x); trace := trace (base x);
                   clock := S (clock (base x)); lines_read := lines_read (base x) |};
        requests := requests x ++ [c] |}).
Proof. unfold request, completed. now destruct (answer (clock (base x))). Qed.

End LifecycleSteps.

Section LifecycleCommands.

Import Lifecycle.

Variable w : world.
Variable p : provider.

(** The request itself, with its handler. *)
Lemma act_on (c : lifecycle_call) (answer : nat -> option exn) (done failed : string) x :
  try_exceptL
    (bindL (request c (fun t => completed (answer t))) (fun _ =>
     bindL (lift (log INFO done)) (fun _ =>
     bindL (lift (setenv INSTANCE_ID_VAR EmptyString)) (fun _ =>
     lift (setenv PUBLIC_URL_VAR EmptyString)))))
    (fun e => lift (log_exn ERROR failed e)) x
  = (Ret tt, match answer (clock (base x)) with
             | None => acted c done x
             | Some e => refused c failed e x
             end).
Proof.
  unfold try_exceptL, bindL. rewrite request_completed.
  destruct (answer (clock (base x))); reflexivity.
Qed.

Lemma terminate_instance_cached x instance_id :
  environ (base x) !! INSTANCE_ID_VAR = Some instance_id ->
  Py.truthy instance_id = true ->
  terminate_instance w p 0 x
  = (Ret tt, match terminate_instances p (clock (base x)) [Some instance_id] with
             | None => acted (TerminateInstances [Some instance_id])
                         ("Terminated instance: " +:+ instance_id) x
             | Some e => refused (TerminateInstances [Some instance_id])
                           "Termination failed: " e x
             end).
Proof.
  intros Hid Htr. destruct x as [b rq]. cbn [base] in *. unfold terminate_instance.
  erewrite step_bindL by reflexivity. cbn [base]. rewrite Hid.
  cbn [Py.truthy_opt Z.eqb negb orb]. rewrite Htr. cbn [negb].
  erewrite step_bindL by reflexivity. cbv beta iota.
  rewrite (act_on _ (fun t => terminate_instances p t [Some instance_id])). reflexivity.
Qed.

Lemma stop_instance_cached x instance_id :
  environ (base x) !! INSTANCE_ID_VAR = Some instance_id ->
  Py.truthy instance_id = true ->
  stop_instance w p 0 x
  = (Ret tt, match stop_instances p (clock (base x)) [Some instance_id] with
             | None => acted (StopInstances [Some instance_id])
                         ("Stopped instance: " +:+ instance_id) x
             | Some e => refused (StopInstances [Some instance_id]) "Stop failed: " e x
             end).
Proof.
  intros Hid Htr. destruct x as [b rq]. cbn [base] in *. unfold stop_instance.
  erewrite step_bindL by reflexivity. cbn [base]. rewrite Hid.
  cbn [Py.truthy_opt Z.eqb negb orb]. rewrite Htr. cbn [negb].
  erewrite step_bindL by reflexivity. cbv beta iota.
  rewrite (act_on _ (fun t => stop_instances p t [Some instance_id])). reflexivity.
Qed.

Lemma restart_instance_cached x instance_id :
  environ (base x) !! INSTANCE_ID_VAR = Some instance_id ->
  Py.truthy instance_id = true ->
  restart_instance w p 0 x
  = (Ret tt, match start_instances p (clock (base x)) [Some instance_id] with
             | None => acted (StartInstances [Some instance_id])
                         ("Started instance: " +:+ instance_id) x
             | Some e => refused (StartInstances [Some instance_id]) "Start failed: " e x
             end).
Proof.
  intros Hid Htr. destruct x as [b rq]. cbn [base] in *. unfold restart_instance.
  erewrite step_bindL by reflexivity. cbn [base]. rewrite Hid.
  cbn [Py.truthy_opt Z.eqb negb orb]. rewrite Htr. cbn [negb].
  erewrite step_bindL by reflexivity. cbv beta iota.
  rewrite (act_on _ (fun t => start_instances p t [Some instance_id])). reflexivity.
Qed.

(** The test [instance_no or not instance_id]. *)
Lemma looks_up_test instance_no x :
  looks_up instance_no x ->
  negb (instance_no =? 0) || negb (Py.truthy_opt (environ (base x) !! INSTANCE_ID_VAR))
  = true.
Proof.
  intros [H|H].
  - destruct (Z.eqb_spec instance_no 0); [contradiction | reflexivity].
  - rewrite H. now rewrite orb_true_r.
Qed.

(** The lookup of the three commands, when it selects [r]. *)
Lemma lookup_selects instance_no x rows r :
  selects w (clock (base x)) instance_no rows r ->
  lift (get_instance w instance_no) x
  = (Ret (Some (state_ r)), on_base (selected rows instance_no r) x).
Proof.
  intros (Hl & Hlt & Hix). apply lift_step. now apply get_instance_selects.
Qed.

Lemma terminate_instance_by_index instance_no x rows r :
  looks_up instance_no x ->
  selects w (clock (base x)) instance_no rows r ->
  Py.truthy (state_ r) = true ->
  terminate_instance w p instance_no x
  = (Ret tt, match terminate_instances p (S (clock (base x))) [Some (id r)] with
             | None => acted (TerminateInstances [Some (id r)])
                         ("Terminated instance: " +:+ id r)
                         (on_base (selected rows instance_no r) x)
             | Some e => refused (TerminateInstances [Some (id r)]) "Termination failed: " e
                           (on_base (selected rows instance_no r) x)
             end).
Proof.
  intros Hlook Hsel Hst. unfold terminate_instance.
  erewrite step_bindL by (apply lift_step; reflexivity).
  cbn [on_base base]. rewrite (looks_up_test _ _ Hlook).
  erewrite step_bindL.
  2:{ erewrite step_bindL by (apply lookup_selects; exact Hsel).
      cbn [Py.truthy_opt]. rewrite Hst. cbn [negb].
      erewrite step_bindL by (apply lift_step; reflexivity).
      reflexivity. }
  cbv beta iota. cbn [on_base base selected environ]. rewrite lookup_insert_ne by discriminate.
  rewrite lookup_insert_eq.
  rewrite (act_on _ (fun t => terminate_instances p t [Some (id r)])). reflexivity.
Qed.

Lemma stop_instance_by_index instance_no x rows r :
  looks_up instance_no x ->
  selects w (clock (base x)) instance_no rows r ->
  state_ r = "running" ->
  stop_instance w p instance_no x
  = (Ret tt, match stop_instances p (S (clock (base x))) [Some (id r)] with
             | None => acted (StopInstances [Some (id r)]) ("Stopped instance: " +:+ id r)
                         (on_base (selected rows instance_no r) x)
             | Some e => refused (StopInstances [Some (id r)]) "Stop failed: " e
                           (on_base (selected rows instance_no r) x)
             end).
Proof.
  intros Hlook Hsel Hst. unfold stop_instance.
  erewrite step_bindL by (apply lift_step; reflexivity).
  cbn [on_base base]. rewrite (looks_up_test _ _ Hlook).
  erewrite step_bindL.
  2:{ erewrite step_bindL by (apply lookup_selects; exact Hsel).
      rewrite Hst. rewrite bool_decide_eq_true_2 by reflexivity. cbn [negb].
      erewrite step_bindL by (apply lift_step; reflexivity).
      reflexivity. }
  cbv beta iota. cbn [on_base base selected environ]. rewrite lookup_insert_ne by discriminate.
  rewrite lookup_insert_eq.
  rewrite (act_on _ (fun t => stop_instances p t [Some (id r)])). reflexivity.
Qed.

Lemma restart_instance_by_index instance_no x rows r :
  looks_up instance_no x ->
  selects w (clock (base x)) instance_no rows r ->
  state_ r = "stopped" ->
  restart_instance w p instance_no x
  = (Ret tt, match start_instances p (S (clock (base x))) [Some (id r)] with
             | None => acted (StartInstances [Some (id r)]) ("Started instance: " +:+ id r)
                         (on_base (selected rows instance_no r) x)
             | Some e => refused (StartInstances [Some (id r)]) "Start failed: " e
                           (on_base (selected rows instance_no r) x)
             end).
Proof.
  intros Hlook Hsel Hst. unfold restart_instance.
  erewrite step_bindL by (apply lift_step; reflexivity).
  cbn [on_base base]. rewrite (looks_up_test _ _ Hlook).
  erewrite step_bindL.
  2:{ erewrite step_bindL by (apply lookup_selects; exact Hsel).
      rewrite Hst. rewrite bool_decide_eq_true_2 by reflexivity. cbn [negb].
      erewrite step_bindL by (apply lift_step; reflexivity).
      reflexivity. }
  cbv beta iota. cbn [on_base base selected environ]. rewrite lookup_insert_ne by discriminate.
  rewrite lookup_insert_eq.
  rewrite (act_on _ (fun t => start_instances p t [Some (id r)])). reflexivity.
Qed.

End LifecycleCommands.

(** X25.  With index 0 and an instance id in the cached slot,
    [terminate_instance], [stop_instance] and [restart_instance] act on the
    cached id: they make their one request without listing the instances and
    without looking at the state of the instance.  When the request goes
    through, both cached slots are set to the empty string, so that the next
    lifecycle command looks the instance up again. *)
Theorem lifecycle_commands_act_on_the_cached_instance (w : world) (p : provider)
    (x : session) (instance_id : string) :
  environ (base x) !! INSTANCE_ID_VAR = Some instance_id ->
  Py.truthy instance_id = true ->
  (terminate_instances p (clock (base x)) [Some instance_id] = None ->
   Lifecycle.terminate_instance w p 0 x
   = (Ret tt, acted (TerminateInstances [Some instance_id])
                ("Terminated instance: " +:+ instance_id) x))
  /\ (stop_instances p (clock (base x)) [Some instance_id] = None ->
      Lifecycle.stop_instance w p 0 x
      = (Ret tt, acted (StopInstances [Some instance_id])
                   ("Stopped instance: " +:+ instance_id) x))
  /\ (start_instances p (clock (base x)) [Some instance_id] = None ->
      Lifecycle.restart_instance w p 0 x
      = (Ret tt, acted (StartInstances [Some instance_id])
                   ("Started instance: " +:+ instance_id) x))
  /\ (forall call message, looks_up 0 (acted call message x)).
Proof.
  intros Hid Htr. split; [|split; [|split]].
  - intros H. rewrite (terminate_instance_cached w p x instance_id Hid Htr). now rewrite H.
  - intros H. rewrite (stop_instance_cached w p x instance_id Hid Htr). now rewrite H.
  - intros H. rewrite (restart_instance_cached w p x instance_id Hid Htr). now rewrite H.
  - intros call message. right. cbn [acted base environ].
    rewrite lookup_insert_ne by discriminate. now rewrite lookup_insert_eq.
Qed.

Lemma lifecycle_commands_act_on_the_cached_instance_witness :
  Lifecycle.stop_instance Examples.calm Scenes.obliging 0 Scenes.with_cache
  = (Ret tt, acted (StopInstances [Some "i-0a"]) "Stopped instance: i-0a" Scenes.with_cache).
Proof.
  refine (proj1 (proj2 (lifecycle_commands_act_on_the_cached_instance Examples.calm
                          Scenes.obliging Scenes.with_cache "i-0a" _ _)) _);
    reflexivity.
Defined.

(** X26.  When the provider refuses the request, the three commands log the
    error and return: the two cached slots keep their values. *)
Theorem lifecycle_failure_keeps_the_cached_slots (w : world) (p : provider)
    (x : session) (instance_id : string) e :
  environ (base x) !! INSTANCE_ID_VAR = Some instance_id ->
  Py.truthy instance_id = true ->
  (terminate_instances p (clock (base x)) [Some instance_id] = Some e ->
   Lifecycle.terminate_instance w p 0 x
   = (Ret tt, refused (TerminateInstances [Some instance_id]) "Termination failed: " e x))
  /\ (stop_instances p (clock (base x)) [Some instance_id] = Some e ->
      Lifecycle.stop_instance w p 0 x
      = (Ret tt, refused (StopInstances [Some instance_id]) "Stop failed: " e x))
  /\ (start_instances p (clock (base x)) [Some instance_id] = Some e ->
      Lifecycle.restart_instance w p 0 x
      = (Ret tt, refused (StartInstances [Some instance_id]) "Start failed: " e x)).
Proof.
  intros Hid Htr. split; [|split].
  - intros H. rewrite (terminate_instance_cached w p x instance_id Hid Htr). now rewrite H.
  - intros H. rewrite (stop_instance_cached w p x instance_id Hid Htr). now rewrite H.
  - intros H. rewrite (restart_instance_cached w p x instance_id Hid Htr). now rewrite H.
Qed.

Lemma lifecycle_failure_keeps_the_cached_slots_witness :
  Lifecycle.terminate_instance Examples.calm Scenes.denying 0 Scenes.with_cache
  = (Ret tt, refused (TerminateInstances [Some "i-0a"]) "Termination failed: "
               Scenes.unauthorized Scenes.with_cache).
Proof.
  refine (proj1 (lifecycle_failure_keeps_the_cached_slots Examples.calm Scenes.denying
                   Scenes.with_cache "i-0a" Scenes.unauthorized _ _) _);
    reflexivity.
Defined.

(** X27.  With an index other than 0, or with nothing cached, the three
    commands select the instance through [get_instance] and act on the
    instance selected: [terminate_instance] whatever its state,
    [stop_instance] if it is running, [restart_instance] if it is
    stopped. *)
Theorem lifecycle_commands_act_on_the_selected_instance (w : world) (p : provider)
    (instance_no : Z) (x : session) rows r :
  looks_up instance_no x ->
  selects w (clock (base x)) instance_no rows r ->
  let x' := on_base (selected rows instance_no r) x in
  (Py.truthy (state_ r) = true ->
   terminate_instances p (S (clock (base x))) [Some (id r)] = None ->
   Lifecycle.terminate_instance w p instance_no x
   = (Ret tt, acted (TerminateInstances [Some (id r)])
                ("Terminated instance: " +:+ id r) x'))
  /\ (state_ r = "running" ->
      stop_instances p (S (clock (base x))) [Some (id r)] = None ->
      Lifecycle.stop_instance w p instance_no x
      = (Ret tt, acted (StopInstances [Some (id r)]) ("Stopped instance: " +:+ id r) x'))
  /\ (state_ r = "stopped" ->
      start_instances p (S (clock (base x))) [Some (id r)] = None ->
      Lifecycle.restart_instance w p instance_no x
      = (Ret tt, acted (StartInstances [Some (id r)]) ("Started instance: " +:+ id r) x')).
Proof.
  intros Hlook Hsel x'. split; [|split]; intros Hst H.
  - rewrite (terminate_instance_by_index w p instance_no x rows r Hlook Hsel Hst).
    now rewrite H.
  - rewrite (stop_instance_by_index w p instance_no x rows r Hlook Hsel Hst). now rewrite H.
  - rewrite (restart_instance_by_index w p instance_no x rows r Hlook Hsel Hst).
    now rewrite H.
Qed.

Lemma lifecycle_commands_act_on_the_selected_instance_witness :
  Lifecycle.terminate_instance Examples.calm Scenes.obliging 1 Scenes.with_cache
  = (Ret tt, acted (TerminateInstances [Some "i-0b"]) "Terminated instance: i-0b"
               (on_base (selected Examples.rows 1 (row_of Examples.inst_b))
                  Scenes.with_cache)).
Proof.
  refine (proj1 (lifecycle_commands_act_on_the_selected_instance Examples.calm
                   Scenes.obliging 1 Scenes.with_cache Examples.rows
                   (row_of Examples.inst_b) _ _) _ _).
  - left. lia.
  - split; [|split].
    + exists [[Examples.inst_a]; [Examples.inst_b]]. split; reflexivity.
    + cbn. lia.
    + reflexivity.
  - reflexivity.
  - reflexivity.
Defined.

(** X28.  On the lookup path, [stop_instance] refuses an instance that is
    not running and [restart_instance] one that is not stopped: they log the
    error and make no request.  The lookup has already written the cached
    slots: they now name the instance that was refused. *)
Theorem lifecycle_state_guards (w : world) (p : provider) (instance_no : Z) (x : session)
    rows r :
  looks_up instance_no x ->
  selects w (clock (base x)) instance_no rows r ->
  (state_ r <> "running" ->
   Lifecycle.stop_instance w p instance_no x
   = (Ret tt, on_base (fun s => record [Log ERROR "Instance not running" None] 0
                                  (selected rows instance_no r s)) x))
  /\ (state_ r <> "stopped" ->
      Lifecycle.restart_instance w p instance_no x
      = (Ret tt, on_base (fun s => record [Log ERROR "Instance not stopped" None] 0
                                     (selected rows instance_no r s)) x)).
Proof.
  intros Hlook Hsel. split; intros Hst.
  - unfold Lifecycle.stop_instance.
    erewrite step_bindL by (apply lift_step; reflexivity).
    cbn [on_base base]. rewrite (looks_up_test _ _ Hlook).
    erewrite step_bindL.
    2:{ erewrite step_bindL by (apply lookup_selects; exact Hsel).
        rewrite bool_decide_eq_false_2 by congruence. cbn [negb].
        erewrite step_bindL by (apply lift_step; reflexivity).
        reflexivity. }
    reflexivity.
  - unfold Lifecycle.restart_instance.
    erewrite step_bindL by (apply lift_step; reflexivity).
    cbn [on_base base]. rewrite (looks_up_test _ _ Hlook).
    erewrite step_bindL.
    2:{ erewrite step_bindL by (apply lookup_selects; exact Hsel).
        rewrite bool_decide_eq_false_2 by congruence. cbn [negb].
        erewrite step_bindL by (apply lift_step; reflexivity).
        reflexivity. }
    reflexivity.
Qed.

Lemma lifecycle_state_guards_witness :
  Lifecycle.stop_instance Examples.calm Scenes.obliging 1 Scenes.with_cache
  = (Ret tt, on_base (fun s => record [Log ERROR "Instance not running" None] 0
                                 (selected Examples.rows 1 (row_of Examples.inst_b) s))
               Scenes.with_cache)
  /\ environ Examples.cached !! INSTANCE_ID_VAR = Some "i-0a"
  /\ environ (base (snd (Lifecycle.stop_instance Examples.calm Scenes.obliging 1
                           Scenes.with_cache))) !! INSTANCE_ID_VAR = Some "i-0b".
Proof.
  assert (Lifecycle.stop_instance Examples.calm Scenes.obliging 1 Scenes.with_cache
          = (Ret tt, on_base (fun s => record [Log ERROR "Instance not running" None] 0
                                (selected Examples.rows 1 (row_of Examples.inst_b) s))
                       Scenes.with_cache)) as E.
  { refine (proj1 (lifecycle_state_guards Examples.calm Scenes.obliging 1 Scenes.with_cache
                     Examples.rows (row_of Examples.inst_b) _ _) _).
    - left. lia.
    - split; [|split].
      + exists [[Examples.inst_a]; [Examples.inst_b]]. split; reflexivity.
      + cbn. lia.
      + reflexivity.
    - discriminate. }
  split; [exact E|]. rewrite E. split; reflexivity.
Defined.

Section Spot.

Import Lifecycle.

Variable p : provider.

Lemma cancel_spot_listed instance_no x ids :
  describe_spot_instance_requests p (clock (base x)) = inr ids ->
  cancel_spot p instance_no x
  = try_exceptL
      (match ids with
       | [] => lift (log INFO "No active spot requests")
       | _ :: _ =>
           if instance_no >=? Z.of_nat (length ids) then
             lift (log ERROR ("No spot request #" +:+ Py.str_int instance_no))
           else
             bindL (lift (from_option ret (raise IndexError) (Py.index ids instance_no)))
               (fun request_id =>
                bindL (request (CancelSpotInstanceRequests [request_id])
                         (fun t => completed (cancel_spot_instance_requests p t
                                                [request_id])))
                  (fun _ => lift (log INFO ("Cancelled spot request: " +:+ request_id))))
       end)
      (fun e => lift (log_exn ERROR "Spot cancellation failed: " e))
      {| base := {| environ := environ (base x); fs := fs (base x); trace := trace (base x);
                    clock := S (clock (base x)); lines_read := lines_read (base x) |};
         requests := requests x ++ [DescribeSpotInstanceRequests] |}.
Proof.
  intros Hd. unfold cancel_spot. erewrite step_try_bindL; [reflexivity|].
  unfold request. now rewrite Hd.
Qed.

End Spot.

(** X29.  [cancel_spot] takes the active spot requests in the order of the
    provider's answer.  Without any, it says so and cancels nothing; an index
    at or above their number is refused with an error; an index from 0 up
    cancels the request at that position.  The index has no lower bound
    either: a negative index down to minus the number of requests counts from
    the end, and the index -1 cancels the last request. *)
Theorem cancel_spot_selection (p : provider) (instance_no : Z) (x : session) ids :
  describe_spot_instance_requests p (clock (base x)) = inr ids ->
  let listed := {| base := {| environ := environ (base x); fs := fs (base x);
                              trace := trace (base x); clock := S (clock (base x));
                              lines_read := lines_read (base x) |};
                   requests := requests x ++ [DescribeSpotInstanceRequests] |} in
  (ids = [] ->
   Lifecycle.cancel_spot p instance_no x
   = (Ret tt, on_base (record [Log INFO "No active spot requests" None] 0) listed))
  /\ (ids <> [] -> Z.of_nat (length ids) <= instance_no ->
      Lifecycle.cancel_spot p instance_no x
      = (Ret tt, on_base (record [Log ERROR ("No spot request #" +:+ Py.str_int instance_no)
                                    None] 0) listed))
  /\ (forall request_id,
        instance_no < Z.of_nat (length ids) ->
        Py.index ids instance_no = Some request_id ->
        cancel_spot_instance_requests p (S (clock (base x))) [request_id] = None ->
        Lifecycle.cancel_spot p instance_no x
        = (Ret tt,
           {| base := record [Log INFO ("Cancelled spot request: " +:+ request_id) None] 1
                        (base listed);
              requests := requests x ++ [DescribeSpotInstanceRequests;
                                         CancelSpotInstanceRequests [request_id]] |}))
  /\ (ids <> [] -> Py.index ids (-1) = last ids).
Proof.
  intros Hd listed. split; [|split; [|split]].
  - intros ->. rewrite (cancel_spot_listed p instance_no x [] Hd). reflexivity.
  - intros Hne Hge. rewrite (cancel_spot_listed p instance_no x ids Hd).
    destruct ids as [|i0 ids']; [contradiction|].
    destruct (Z.geb_spec instance_no (Z.of_nat (length (i0 :: ids')))); [|lia].
    reflexivity.
  - intros request_id Hlt Hix Hok. rewrite (cancel_spot_listed p instance_no x ids Hd).
    destruct ids as [|i0 ids']; [destruct instance_no; discriminate|].
    destruct (Z.geb_spec instance_no (Z.of_nat (length (i0 :: ids')))); [lia|].
    rewrite Hix. unfold Lifecycle.try_exceptL, Lifecycle.bindL, Lifecycle.lift,
      Lifecycle.request. cbn [from_option ret base clock]. rewrite Hok.
    cbn. unfold record. cbn. rewrite <- app_assoc. reflexivity.
  - intros Hne. unfold Py.index. cbn [Z.leb].
    destruct (Z.leb_spec (- Z.of_nat (length ids)) (-1)) as [_|Hlt].
    + rewrite last_lookup. f_equal. destruct ids; [contradiction|]. cbn [length]. lia.
    + destruct ids; [contradiction|]. cbn [length] in Hlt. lia.
Qed.

Lemma cancel_spot_selection_witness :
  Lifecycle.cancel_spot Scenes.obliging (-1) Scenes.without_cache
  = (Ret tt,
     {| base := record [Log INFO "Cancelled spot request: sir-02" None] 2 Examples.fresh;
        requests := [DescribeSpotInstanceRequests; CancelSpotInstanceRequests ["sir-02"]] |}).
Proof.
  refine (proj1 (proj2 (proj2 (cancel_spot_selection Scenes.obliging (-1)
                                 Scenes.without_cache ["sir-01"; "sir-02"] _)))
            "sir-02" _ _ _).
  - reflexivity.
  - cbn. lia.
  - reflexivity.
  - reflexivity.
Defined.

(** ** Text: occurrences in a path *)

Lemma string_app_assoc (a b c : string) : (a +:+ b) +:+ c = a +:+ (b +:+ c).
Proof.
  induction a as [|x a IH]; [reflexivity|].
  change (String x a +:+ b) with (String x (a +:+ b)).
  change (String x (a +:+ b) +:+ c) with (String x ((a +:+ b) +:+ c)).
  change (String x a +:+ (b +:+ c)) with (String x (a +:+ (b +:+ c))).
  now rewrite IH.
Qed.

Lemma drop_prefix_app p : forall s x r,
  Py.drop_prefix p s = Some r -> Py.drop_prefix p (s +:+ x) = Some (r +:+ x).
Proof.
  induction p as [|a p IH]; intros s x r.
  - cbn [Py.drop_prefix]. now intros [= ->].
  - destruct s as [|b s]; [discriminate|].
    change (String b s +:+ x) with (String b (s +:+ x)). cbn [Py.drop_prefix].
    destruct (Ascii.eqb a b); [apply IH | discriminate].
Qed.

Lemma drop_prefix_self p b : Py.drop_prefix p (p +:+ b) = Some b.
Proof.
  induction p as [|a p IH]; [reflexivity|].
  change (String a p +:+ b) with (String a (p +:+ b)). cbn [Py.drop_prefix].
  now rewrite Ascii.eqb_refl.
Qed.

Lemma contains_nil p :
  Py.contains p EmptyString = match p with EmptyString => true | _ => false end.
Proof. destruct p; reflexivity. Qed.

Lemma contains_cons p a s :
  Py.contains p (String a s)
  = match Py.drop_prefix p (String a s) with Some _ => true | None => Py.contains p s end.
Proof.
  unfold Py.contains. cbn [Py.partition].
  destruct (Py.drop_prefix p (String a s)); [reflexivity|].
  now destruct (Py.partition p s) as [[? ?]|].
Qed.

Lemma contains_prefix p b : Py.contains p (p +:+ b) = true.
Proof.
  destruct p as [|a p]; [now destruct b|].
  change (String a p +:+ b) with (String a (p +:+ b)). rewrite contains_cons.
  change (String a (p +:+ b)) with (String a p +:+ b). now rewrite drop_prefix_self.
Qed.

Lemma contains_app_l p : forall s x, Py.contains p s = true -> Py.contains p (s +:+ x) = true.
Proof.
  induction s as [|a s IH]; intros x.
  - rewrite contains_nil. destruct p; [now destruct x | discriminate].
  - change (String a s +:+ x) with (String a (s +:+ x)). rewrite !contains_cons.
    destruct (Py.drop_prefix p (String a s)) as [r|] eqn:E.
    + intros _. change (String a (s +:+ x)) with (String a s +:+ x).
      now rewrite (drop_prefix_app p _ x r E).
    + intros H. destruct (Py.drop_prefix p (String a (s +:+ x))); [reflexivity|].
      now apply IH.
Qed.

Lemma contains_app_r p : forall a s, Py.contains p s = true -> Py.contains p (a +:+ s) = true.
Proof.
  induction a as [|c a IH]; intros s H; [exact H|].
  change (String c a +:+ s) with (String c (a +:+ s)). rewrite contains_cons.
  destruct (Py.drop_prefix p (String c (a +:+ s))); [reflexivity|]. now apply IH.
Qed.

(** A text that does not have the character [c] cannot lie across a [c]. *)
Lemma drop_prefix_before p (c : ascii) : forall a b r,
  ~ In c (list_ascii_of_string p) ->
  Py.drop_prefix p (a +:+ String c b) = Some r -> is_Some (Py.drop_prefix p a).
Proof.
  induction p as [|p0 p IH]; intros a b r Hc.
  - cbn [Py.drop_prefix]. eauto.
  - destruct a as [|a0 a].
    + change (EmptyString +:+ String c b) with (String c b). cbn [Py.drop_prefix].
      destruct (Ascii.eqb_spec p0 c) as [->|_]; [|discriminate].
      exfalso. apply Hc. now left.
    + change (String a0 a +:+ String c b) with (String a0 (a +:+ String c b)).
      cbn [Py.drop_prefix]. destruct (Ascii.eqb p0 a0); [|discriminate].
      apply IH. intros H. apply Hc. now right.
Qed.

Lemma contains_across p (c : ascii) : forall a b,
  p <> EmptyString ->
  ~ In c (list_ascii_of_string p) ->
  Py.contains p (a +:+ String c b) = Py.contains p a || Py.contains p b.
Proof.
  intros a b Hp Hc. induction a as [|a0 a IH].
  - change (EmptyString +:+ String c b) with (String c b).
    rewrite contains_nil, contains_cons.
    destruct p as [|p0 p]; [contradiction|]. cbn [Py.drop_prefix orb].
    destruct (Ascii.eqb_spec p0 c) as [->|_]; [|reflexivity].
    exfalso. apply Hc. now left.
  - change (String a0 a +:+ String c b) with (String a0 (a +:+ String c b)).
    rewrite !contains_cons.
    destruct (Py.drop_prefix p (String a0 (a +:+ String c b))) as [r|] eqn:E.
    + change (String a0 (a +:+ String c b)) with (String a0 a +:+ String c b) in E.
      destruct (drop_prefix_before p c _ _ _ Hc E) as [r' ->]. reflexivity.
    + destruct (Py.drop_prefix p (String a0 a)) as [r'|] eqn:E'; [|exact IH].
      apply (drop_prefix_app p _ (String c b)) in E'.
      change (String a0 a +:+ String c b) with (String a0 (a +:+ String c b)) in E'.
      congruence.
Qed.

(** One character is in [a +:+ b] when it is in [a] or in [b]. *)
Lemma contains_char_app (c : ascii) : forall a b,
  Py.contains (String c EmptyString) (a +:+ b)
  = Py.contains (String c EmptyString) a || Py.contains (String c EmptyString) b.
Proof.
  induction a as [|a0 a IH]; intros b; [reflexivity|].
  change (String a0 a +:+ b) with (String a0 (a +:+ b)). rewrite !contains_cons.
  cbn [Py.drop_prefix]. destruct (Ascii.eqb c a0); [reflexivity | apply IH].
Qed.

Lemma basename_after_slash : forall a b,
  Py.contains "/" b = false -> OsPath.basename (a +:+ String "/" b) = b.
Proof.
  unfold OsPath.basename. induction a as [|x a IH]; intros b Hb.
  - change (EmptyString +:+ String "/" b) with (String "/" b).
    cbn [OsPath.rsplit_char]. destruct (OsPath.rsplit_char "/" b) as [h t].
    rewrite Hb. reflexivity.
  - change (String x a +:+ String "/" b) with (String x (a +:+ String "/" b)).
    cbn [OsPath.rsplit_char]. specialize (IH b Hb).
    destruct (OsPath.rsplit_char "/" (a +:+ String "/" b)) as [h t]. cbn [snd] in IH.
    rewrite (contains_app_r "/" a (String "/" b)) by reflexivity. exact IH.
Qed.

Lemma rev_app_app : forall a b acc,
  String.rev_app (a +:+ b) acc = String.rev_app b (String.rev_app a acc).
Proof.
  induction a as [|x a IH]; intros b acc; [reflexivity|].
  change (String x a +:+ b) with (String x (a +:+ b)). cbn [String.rev_app]. apply IH.
Qed.

Lemma rev_app_acc : forall s acc, String.rev_app s acc = String.rev_app s EmptyString +:+ acc.
Proof.
  induction s as [|x s IH]; intros acc; [reflexivity|].
  cbn [String.rev_app]. rewrite (IH (String x acc)), (IH (String x EmptyString)).
  now rewrite string_app_assoc.
Qed.

Lemma endswith_app a p : Py.endswith (a +:+ p) p = true.
Proof.
  unfold Py.endswith, Py.startswith, String.rev.
  rewrite rev_app_app, (rev_app_acc p (String.rev_app a EmptyString)).
  now rewrite drop_prefix_self.
Qed.

(** ** [copy_to_local]: which command fetches which item *)

Section Manifest.

Variable cfg : settings.
Variable public_url local_dir run_name : string.

Hypothesis no_star : Py.contains "*" run_name = false.
Hypothesis no_slash : Py.contains "/" run_name = false.

Lemma remote_path_contains p last :
  p <> EmptyString ->
  ~ In "/"%char (list_ascii_of_string p) ->
  Py.contains p (("/home/ubuntu/imi_output_dir/" +:+ run_name) +:+ String "/" last)
  = Py.contains p "/home/ubuntu/imi_output_dir" || Py.contains p run_name
    || Py.contains p last.
Proof.
  intros Hp Hc. rewrite (contains_across p "/" _ _ Hp Hc).
  change ("/home/ubuntu/imi_output_dir/" +:+ run_name)
    with ("/home/ubuntu/imi_output_dir" +:+ String "/" run_name).
  now rewrite (contains_across p "/" _ _ Hp Hc).
Qed.

Lemma remote_path_star last :
  Py.contains "*" (("/home/ubuntu/imi_output_dir/" +:+ run_name) +:+ String "/" last)
  = Py.contains "*" last.
Proof.
  rewrite remote_path_contains.
  - rewrite no_star. reflexivity.
  - discriminate.
  - intros [H|[]]. discriminate H.
Qed.

Lemma remote_path_mirrored last :
  Py.contains "preview" (("/home/ubuntu/imi_output_dir/" +:+ run_name) +:+ String "/" last)
  || Py.contains "inversion"
       (("/home/ubuntu/imi_output_dir/" +:+ run_name) +:+ String "/" last)
  = (Py.contains "preview" run_name || Py.contains "inversion" run_name)
    || (Py.contains "preview" last || Py.contains "inversion" last).
Proof.
  rewrite !remote_path_contains.
  - cbn [orb]. change (Py.contains "preview" "/home/ubuntu/imi_output_dir") with false.
    change (Py.contains "inversion" "/home/ubuntu/imi_output_dir") with false.
    cbn [orb].
    destruct (Py.contains "preview" run_name), (Py.contains "inversion" run_name),
      (Py.contains "preview" last), (Py.contains "inversion" last); reflexivity.
  - discriminate.
  - cbn. intuition discriminate.
  - discriminate.
  - cbn. intuition discriminate.
Qed.

Lemma manifest_attempts :
  map (first_attempt cfg public_url local_dir) (transfer_items run_name)
  = transfers cfg public_url local_dir run_name
      (Py.contains "preview" run_name || Py.contains "inversion" run_name).
Proof.
  unfold transfer_items, transfers. cbn [map].
  unfold first_attempt. rewrite !remote_path_star.
  rewrite !basename_after_slash by reflexivity.
  rewrite !remote_path_mirrored.
  assert (OsPath.basename
            (("/home/ubuntu/imi_output_dir/" +:+ run_name)
             +:+ "/config_" +:+ run_name +:+ ".yml")
          = ("config_" +:+ run_name) +:+ ".yml") as Hbase.
  { change (("/home/ubuntu/imi_output_dir/" +:+ run_name)
            +:+ "/config_" +:+ run_name +:+ ".yml")
      with (("/home/ubuntu/imi_output_dir/" +:+ run_name)
            +:+ String "/" ("config_" +:+ run_name +:+ ".yml")).
    rewrite basename_after_slash; [now rewrite string_app_assoc|].
    rewrite !contains_char_app, no_slash. reflexivity. }
  assert (Py.contains "*"
            (("/home/ubuntu/imi_output_dir/" +:+ run_name)
             +:+ "/config_" +:+ run_name +:+ ".yml") = false)
    as Hstar.
  { change (("/home/ubuntu/imi_output_dir/" +:+ run_name)
            +:+ "/config_" +:+ run_name +:+ ".yml")
      with (("/home/ubuntu/imi_output_dir/" +:+ run_name)
            +:+ String "/" ("config_" +:+ run_name +:+ ".yml")).
    rewrite remote_path_star, !contains_char_app, no_star. reflexivity. }
  rewrite Hstar, Hbase, endswith_app.
  change (Py.contains "*" "preview") with false.
  change (Py.contains "*" "inversion") with false.
  change (Py.contains "*" "hemco_prior_emis") with false.
  change (Py.contains "*" "archive_sf") with false.
  change (Py.contains "*" "imi_output.log") with false.
  change (Py.contains "*" "StateVector.nc") with false.
  change (Py.contains "*" "*.yml") with true.
  cbv iota.
  change (Py.endswith "preview" ".yml") with false.
  change (Py.endswith "inversion" ".yml") with false.
  change (Py.endswith "hemco_prior_emis" ".yml") with false.
  change (Py.endswith "archive_sf" ".yml") with false.
  change (Py.endswith "imi_output.log" ".yml") with false.
  change (Py.endswith "StateVector.nc" ".yml") with false.
  cbv iota.
  change (Py.contains "preview" "preview") with true.
  change (Py.contains "inversion" "inversion") with true.
  rewrite !orb_true_r. cbv iota.
  change (Py.contains "preview" "hemco_prior_emis"
          || Py.contains "inversion" "hemco_prior_emis")
    with false.
  change (Py.contains "preview" "archive_sf" || Py.contains "inversion" "archive_sf")
    with false.
  change (Py.contains "preview" "imi_output.log"
          || Py.contains "inversion" "imi_output.log")
    with false.
  change (Py.contains "preview" "StateVector.nc"
          || Py.contains "inversion" "StateVector.nc")
    with false.
  rewrite !orb_false_r.
  destruct (Py.contains "preview" run_name || Py.contains "inversion" run_name); reflexivity.
Qed.

End Manifest.

(** X30.  Which command a retrieval starts for each item, for a run name
    without ["*"] and ["/"].  The [preview] and [inversion] directories are
    mirrored with [rsync], the wildcard item is listed, the config is copied
    to [config.yml].  The other four items take the branch of the last test,
    which looks for ["preview"] or ["inversion"] anywhere in the remote path:
    for a run name without these words, the directories [hemco_prior_emis]
    and [archive_sf] and the two files are fetched with a plain [scp] (no
    [-r]); for a run name that contains one of them, all four, the two plain
    files included, are fetched with [rsync] as if they were directories. *)
Theorem copy_to_local_transfer_commands (cfg : settings) (w : world) (run_name : string)
    (instance_no : Z) (overwrite : bool) (s : state) rows r :
  Py.contains "*" run_name = false ->
  Py.contains "/" run_name = false ->
  selects w (clock s) instance_no rows r ->
  usable r ->
  let local_dir :=
    local_dir_for (fs s) (OsPath.join (LOCAL_DATA_PATH cfg) run_name) overwrite in
  creatable w (fs s) local_dir ->
  exists s' evs,
    copy_to_local cfg w run_name instance_no overwrite s = (Ret (Some local_dir), s')
    /\ trace s' = trace s ++ evs
    /\ transfers cfg (public_dns r) local_dir run_name
         (Py.contains "preview" run_name || Py.contains "inversion" run_name)
       `sublist_of` evs.
Proof.
  intros Hstar Hslash Hsel Huse local_dir Hmk.
  destruct (copy_to_local_returns cfg w run_name instance_no overwrite s rows r
              Hsel Huse Hmk) as (s' & evs & E & T & S & _).
  exists s', evs. split; [exact E|]. split; [exact T|].
  rewrite <- (manifest_attempts cfg (public_dns r) local_dir run_name Hstar Hslash).
  exact S.
Qed.

Lemma copy_to_local_transfer_commands_witness :
  exists s' evs,
    copy_to_local Examples.cfg Examples.calm "Test_inversion" 0 false Examples.fresh
    = (Ret (Some "data/Test_inversion"), s')
    /\ trace s' = evs
    /\ transfers Examples.cfg "ec2-a.compute.amazonaws.com" "data/Test_inversion"
         "Test_inversion" true `sublist_of` evs.
Proof.
  apply (copy_to_local_transfer_commands Examples.cfg Examples.calm "Test_inversion" 0 false
           Examples.fresh Examples.rows (row_of Examples.inst_a)).
  - reflexivity.
  - reflexivity.
  - split; [|split].
    + exists [[Examples.inst_a]; [Examples.inst_b]]. split; reflexivity.
    + cbn. lia.
    + reflexivity.
  - split; reflexivity.
  - right. split; reflexivity.
Defined.
